(** * ris_to_excel: a shallow embedding of the RIS-to-rows pipeline

    The development follows [src/ris_to_excel.py] function by function.

    Conventions of the model.
    - A Python [str] is a [string]; a character is an [ascii].  The model is
      exact on ASCII text: the character classes of [str.strip],
      [str.isdigit], [str.lower], [str.title] and of the regular expressions
      are the ASCII ones, and code points above 127 are caseless symbols that
      are neither blank nor word characters.
    - A RIS record (a Python [dict] from tag to [str] or [list] of [str]) is
      a [gmap string Value].
    - A [pandas.DataFrame] is the list of its rows, in index order; the one
      place where the columns of an empty frame matter (the year filter of
      the orchestrator) is modelled by the [KeyError] that it raises.
    - A file is the list of the raw lines that iterating over it yields.
    - [urlparse] belongs to the Python library: the functions that call it
      take the map from a URL to its network location as a parameter, and
      [netloc_cpython] is a model of it for the examples.
    - A regular expression of the source is a matching function written
      next to a comment that spells the pattern out. *)

From Stdlib Require Import ZArith Ascii DecimalString DecimalPos DecimalN.
From stdpp Require Import base option list sorting gmap strings.

(** ** Python string primitives *)

Module Py.

Definition code (c : ascii) : N := N_of_ascii c.

(** [str.isspace] on one ASCII character; this is also the class [\s]. *)
Definition is_space (c : ascii) : bool :=
  let n := code c in
  ((9 <=? n) && (n <=? 13) || (28 <=? n) && (n <=? 32))%N.

Definition is_digit (c : ascii) : bool :=
  let n := code c in ((48 <=? n) && (n <=? 57))%N.

Definition is_upper (c : ascii) : bool :=
  let n := code c in ((65 <=? n) && (n <=? 90))%N.

Definition is_lower (c : ascii) : bool :=
  let n := code c in ((97 <=? n) && (n <=? 122))%N.

Definition is_alpha (c : ascii) : bool := is_upper c || is_lower c.

(** The class [\w]: letters, digits and the underscore. *)
Definition is_word (c : ascii) : bool :=
  is_alpha c || is_digit c || (code c =? 95)%N.

Definition lower_char (c : ascii) : ascii :=
  if is_upper c then ascii_of_N (code c + 32) else c.

Definition upper_char (c : ascii) : ascii :=
  if is_lower c then ascii_of_N (code c - 32) else c.

Definition newline : ascii := ascii_of_N 10.
Definition is_newline (c : ascii) : bool := (code c =? 10)%N.

Fixpoint lower (s : string) : string :=
  match s with
  | "" => ""
  | String c s' => String (lower_char c) (lower s')
  end.

Fixpoint all_chars (p : ascii -> bool) (s : string) : bool :=
  match s with
  | "" => true
  | String c s' => p c && all_chars p s'
  end.

Fixpoint any_char (p : ascii -> bool) (s : string) : bool :=
  match s with
  | "" => false
  | String c s' => p c || any_char p s'
  end.

Definition is_empty (s : string) : bool :=
  match s with "" => true | _ => false end.

(** Truthiness of a [str]. *)
Definition truthy (s : string) : bool := negb (is_empty s).

(** [s.lstrip(chars)] and [s.rstrip(chars)] for a character class [p]. *)
Fixpoint lstrip_by (p : ascii -> bool) (s : string) : string :=
  match s with
  | "" => ""
  | String c s' => if p c then lstrip_by p s' else s
  end.

Fixpoint rstrip_by (p : ascii -> bool) (s : string) : string :=
  match s with
  | "" => ""
  | String c s' =>
      let r := rstrip_by p s' in
      if is_empty r && p c then "" else String c r
  end.

Definition lstrip : string -> string := lstrip_by is_space.
Definition rstrip : string -> string := rstrip_by is_space.
Definition strip (s : string) : string := lstrip (rstrip s).

(** [raw.rstrip("\r\n")] *)
Definition is_crlf (c : ascii) : bool :=
  ((code c =? 13) || (code c =? 10))%N.
Definition rstrip_crlf : string -> string := rstrip_by is_crlf.

(** [s.startswith(p)] *)
Fixpoint startswith (s p : string) : bool :=
  match p, s with
  | "", _ => true
  | String a p', String b s' => if decide (a = b) then startswith s' p' else false
  | String _ _, "" => false
  end.

(** [needle in hay] *)
Fixpoint contains (hay needle : string) : bool :=
  startswith hay needle ||
  match hay with
  | "" => false
  | String _ hay' => contains hay' needle
  end.

(** [s.isdigit()] *)
Definition isdigit (s : string) : bool := truthy s && all_chars is_digit s.

Definition digit_val (c : ascii) : Z := Z.of_N (code c) - 48.

(** [int(s)] for a string of decimal digits. *)
Definition int_of_digits (s : string) : Z :=
  (fix go (acc : Z) (s : string) : Z :=
     match s with
     | "" => acc
     | String c s' => go (10 * acc + digit_val c)%Z s'
     end) 0%Z s.

(** [sep.join(parts)] *)
Fixpoint join (sep : string) (parts : list string) : string :=
  match parts with
  | [] => ""
  | [x] => x
  | x :: rest => x +:+ sep +:+ join sep rest
  end.

(** [s.replace(a, b)] for single characters. *)
Fixpoint replace_char (a b : ascii) (s : string) : string :=
  match s with
  | "" => ""
  | String c s' => String (if decide (c = a) then b else c) (replace_char a b s')
  end.

End Py.

(** ** Records and the tag parser *)

(** The value stored under a tag: a [str], or a [list] of [str] once the tag
    has repeated. *)
Inductive Value : Type :=
  | Scalar (s : string)
  | VList (l : list string).

#[global] Instance Value_eq_dec : EqDecision Value.
Proof. solve_decision. Defined.

Abbreviation Record_ := (gmap string Value).

(** [TAG_LINE_RE]: anchored at both ends, the group [tag] is [[A-Z0-9]{2}],
    then comes [\s*-\s*], and the group [val] is [.*].  It is applied with
    [match] to a line whose trailing line terminators were removed.  The
    result is the pair of the groups [tag] and [val].  Both [\s*] are
    greedy and are followed by something that is not blank or by [.*], so
    the match is unique; [.] does not match a newline, and the line cannot
    end with one, so the rest of the line must be free of newlines. *)
Definition is_tag_char (c : ascii) : bool := Py.is_upper c || Py.is_digit c.

Definition TAG_LINE_RE_match (line : string) : option (string * string) :=
  match line with
  | String a (String b rest) =>
      if is_tag_char a && is_tag_char b then
        match Py.lstrip rest with
        | String "-"%char rest' =>
            let val := Py.lstrip rest' in
            if Py.any_char Py.is_newline val then None
            else Some (String a (String b ""), val)
        | _ => None
        end
      else None
  | _ => None
  end.

(** The mutable state of [parse_ris_file]: the output list, the record
    being built and the tag seen last. *)
Record PState : Type := mkPState {
  records : list Record_;
  current : Record_;
  last_tag : option string
}.

Definition start_state : PState :=
  {| records := []; current := ∅; last_tag := None |}.

Definition start_new (st : PState) : PState :=
  {| records := records st; current := ∅; last_tag := None |}.

(** [if current: records.append(current)], then [current = {}]. *)
Definition finish_one (st : PState) : PState :=
  {| records := if decide (current st = ∅) then records st
                else records st ++ [current st];
     current := ∅;
     last_tag := last_tag st |}.

Definition add_value (tag val : string) (cur : Record_) : Record_ :=
  match cur !! tag with
  | Some (VList l) => <[tag := VList (l ++ [val])]> cur
  | Some (Scalar s) => <[tag := VList [s; val]]> cur
  | None => <[tag := Scalar val]> cur
  end.

(** The joined text of a continuation line:
    [(str(old) + " " + line.strip()).strip()]. *)
Definition extend (old line : string) : string :=
  Py.strip (old +:+ " " +:+ Py.strip line).

(** Replacing the last element of a list, [l[-1] = f(l[-1])].  Python
    raises [IndexError] on an empty list; the parser never stores one (see
    [parse_lists_long]), and the model leaves it unchanged. *)
Fixpoint update_last (f : string -> string) (l : list string) : list string :=
  match l with
  | [] => []
  | [x] => [f x]
  | x :: rest => x :: update_last f rest
  end.

Definition continuation (lt line : string) (cur : Record_) : Record_ :=
  match cur !! lt with
  | Some (VList l) => <[lt := VList (update_last (fun x => extend x line) l)]> cur
  | Some (Scalar s) => <[lt := Scalar (extend s line)]> cur
  | None => <[lt := Scalar (extend "" line)]> cur
  end.

(** One iteration of the loop over the lines of the file. *)
Definition parse_line (st : PState) (raw : string) : PState :=
  let line := Py.rstrip_crlf raw in
  match TAG_LINE_RE_match line with
  | None =>
      match last_tag st with
      | Some lt =>
          if Py.truthy (Py.strip line)
          then {| records := records st;
                  current := continuation lt line (current st);
                  last_tag := last_tag st |}
          else st
      | None => st
      end
  | Some (tag0, val0) =>
      let tag := Py.strip tag0 in
      let val := Py.strip val0 in
      let st1 := {| records := records st; current := current st;
                    last_tag := Some tag |} in
      if decide (tag = "ER") then start_new (finish_one st1)
      else {| records := records st1;
              current := add_value tag val (current st1);
              last_tag := last_tag st1 |}
  end.

Definition parse_from (st : PState) (lines : list string) : PState :=
  foldl parse_line st lines.

Definition parse_ris_file (lines : list string) : list Record_ :=
  records (parse_from start_state lines).

(** *** Reading a file as blocks of lines *)

(** The tag of a raw line, when it is a tag line. *)
Definition line_tag (raw : string) : option string :=
  match TAG_LINE_RE_match (Py.rstrip_crlf raw) with
  | Some (tag0, _) => Some (Py.strip tag0)
  | None => None
  end.

(** The end-of-record marker: a tag line whose tag is [ER], whatever its
    value. *)
Definition is_ER (raw : string) : bool := bool_decide (line_tag raw = Some "ER").

(** A tag line that is not the end-of-record marker. *)
Definition is_field_line (raw : string) : bool :=
  match line_tag raw with
  | Some tag => bool_decide (tag ≠ "ER")
  | None => false
  end.

(** The blocks of lines that are closed by an end-of-record marker, in
    source order; what follows the last marker belongs to no block. *)
Fixpoint blocks_go (acc : list string) (lines : list string) : list (list string) :=
  match lines with
  | [] => []
  | raw :: rest =>
      if is_ER raw then reverse acc :: blocks_go [] rest
      else blocks_go (raw :: acc) rest
  end.

Definition terminated_blocks (lines : list string) : list (list string) :=
  blocks_go [] lines.

(** The record that the parser builds from the lines of one block. *)
Definition build_record (block : list string) : Record_ :=
  current (parse_from start_state block).

(** The fields of a block in source order: a tag line opens a field, a
    non-blank line without tag extends the value of the field opened last
    and is dropped when no field is open. *)
Definition field_step (fs : list (string * string)) (raw : string)
    : list (string * string) :=
  let line := Py.rstrip_crlf raw in
  match TAG_LINE_RE_match line with
  | Some (tag0, val0) => fs ++ [(Py.strip tag0, Py.strip val0)]
  | None =>
      if Py.truthy (Py.strip line) then
        match reverse fs with
        | (t, v) :: before => reverse before ++ [(t, extend v line)]
        | [] => []
        end
      else fs
  end.

Definition fields (block : list string) : list (string * string) :=
  foldl field_step [] block.

(** The values of the occurrences of [tag] in a block, first occurrence
    first. *)
Definition occurrences (tag : string) (block : list string) : list string :=
  (filter (fun f : string * string => f.1 = tag) (fields block)).*2.

(** How a tag with the given occurrences is stored: absent, a scalar, or
    the list of all its values. *)
Definition stored (vals : list string) : option Value :=
  match vals with
  | [] => None
  | [v] => Some (Scalar v)
  | _ => Some (VList vals)
  end.

(** A terminated record of the input: lines without end-of-record marker,
    at least one of them a tag line (so the record buffer is not empty),
    followed by the marker that closes them. *)
Definition terminated_record (bm : list string * string) : Prop :=
  Forall (fun raw => is_ER raw = false) bm.1 ∧
  Exists (fun raw => is_field_line raw = true) bm.1 ∧
  is_ER bm.2 = true.

#[global] Instance terminated_record_dec bm : Decision (terminated_record bm).
Proof. unfold terminated_record. apply _. Defined.

(** The lines of a file made of the given terminated records and of a
    final block that no marker closes. *)
Definition file_lines (recs : list (list string * string)) (tail : list string)
    : list string :=
  concat ((fun bm => bm.1 ++ [bm.2]) <$> recs) ++ tail.

(** The values of [tag] among a list of fields. *)
Definition values_of (tag : string) (fs : list (string * string)) : list string :=
  (filter (fun f => f.1 = tag) fs).*2.

(** What relates the parser state inside a block to the fields read so
    far. *)
Definition tracks (st : PState) (fs : list (string * string)) : Prop :=
  (∀ tag, current st !! tag = stored (values_of tag fs)) ∧
  last_tag st = fst <$> last fs.

(** Every list stored in a record has at least two elements. *)
Definition lists_long (cur : Record_) : Prop :=
  ∀ tag l, cur !! tag = Some (VList l) → 2 ≤ length l.

(** The state with its output list replaced. *)
Definition set_records (rs : list Record_) (st : PState) : PState :=
  {| records := rs; current := current st; last_tag := last_tag st |}.

(** ** The field resolver *)

(** More string primitives, used by the resolver. *)
Module PyStr.

(** [s[n:]] *)
Fixpoint drop (n : nat) (s : string) : string :=
  match n, s with
  | O, _ => s
  | S n', String _ s' => drop n' s'
  | S _, "" => ""
  end.

(** [s[:n]] *)
Fixpoint take (n : nat) (s : string) : string :=
  match n, s with
  | O, _ => ""
  | S n', String c s' => String c (take n' s')
  | S _, "" => ""
  end.

(** The text before the first character of class [p], and the text from
    that character on; [s.split(c, 1)[0]] is the first component. *)
Fixpoint break_at (p : ascii -> bool) (s : string) : string * string :=
  match s with
  | "" => ("", "")
  | String c s' =>
      if p c then ("", s)
      else let '(a, b) := break_at p s' in (String c a, b)
  end.

(** [s.split()]: the maximal runs of characters that are not blank.  The
    accumulator holds the run being read. *)
Fixpoint split_ws_go (cur : option string) (s : string) : list string :=
  match s with
  | "" => option_list (String.rev <$> cur)
  | String c s' =>
      if Py.is_space c
      then option_list (String.rev <$> cur) ++ split_ws_go None s'
      else split_ws_go (Some (String c (default "" cur))) s'
  end.

Definition split_ws (s : string) : list string := split_ws_go None s.

(** [s.title()]: a letter is upper-cased unless the character before it is
    a letter, in which case it is lower-cased. *)
Fixpoint title_go (prev_cased : bool) (s : string) : string :=
  match s with
  | "" => ""
  | String c s' =>
      String (if prev_cased then Py.lower_char c else Py.upper_char c)
             (title_go (Py.is_alpha c) s')
  end.

Definition title (s : string) : string := title_go false s.

Definition hex_digit (n : N) : ascii :=
  if (n <? 10)%N then ascii_of_N (48 + n) else ascii_of_N (87 + n).

Definition squote : ascii := ascii_of_N 39.
Definition dquote : ascii := ascii_of_N 34.
Definition backslash : ascii := ascii_of_N 92.

(** [repr(s)] for a [str]: single quotes, unless the text holds a single
    quote and no double quote; the quote, the backslash and the control
    characters are escaped. *)
Definition repr_quote (s : string) : ascii :=
  if Py.any_char (fun c => bool_decide (c = squote)) s
     && negb (Py.any_char (fun c => bool_decide (c = dquote)) s)
  then dquote else squote.

Definition repr_char (q c : ascii) : string :=
  let n := Py.code c in
  if bool_decide (c = q) || bool_decide (c = backslash)
  then String backslash (String c "")
  else if (n =? 9)%N then String backslash "t"
  else if (n =? 10)%N then String backslash "n"
  else if (n =? 13)%N then String backslash "r"
  else if (n <? 32)%N || (n =? 127)%N
       then String backslash (String "x"%char
              (String (hex_digit (n / 16)) (String (hex_digit (n mod 16)) "")))
  else String c "".

Fixpoint repr_body (q : ascii) (s : string) : string :=
  match s with
  | "" => ""
  | String c s' => repr_char q c +:+ repr_body q s'
  end.

Definition repr (s : string) : string :=
  let q := repr_quote s in
  String q (repr_body q s +:+ String q "").

End PyStr.

(** [str(v)] for the value of a tag: the string itself, or the printed form
    of the list. *)
Definition str_of_value (v : Value) : string :=
  match v with
  | Scalar s => s
  | VList l => "[" +:+ Py.join ", " (PyStr.repr <$> l) +:+ "]"
  end.

(** Truthiness of the value of a tag. *)
Definition value_truthy (v : Value) : bool :=
  match v with
  | Scalar s => Py.truthy s
  | VList l => negb (bool_decide (l = []))
  end.

(** [clean_doi]: the pattern is "^https?://doi\.org/", matched without
    regard to case and replaced by nothing. *)
Definition strip_doi_url (x : string) : string :=
  let lx := Py.lower x in
  if Py.startswith lx "https://doi.org/" then PyStr.drop 16 x
  else if Py.startswith lx "http://doi.org/" then PyStr.drop 15 x
  else x.

Definition clean_doi (x : string) : string :=
  Py.strip (strip_doi_url (Py.strip x)).

Definition is_comma (c : ascii) : bool := bool_decide (c = ","%char).

Definition surname_from_author (author : string) : string :=
  let author := Py.strip author in
  if Py.is_empty author then ""
  else if Py.any_char is_comma author
  then Py.strip (PyStr.break_at is_comma author).1
  else match last (PyStr.split_ws author) with
       | Some w => Py.strip w
       | None => ""
       end.

(** The pattern of [year_from_any], [\b(19|20)\d{2}\b], at the start of
    [s]: the four digits followed by the end of the text or by a character
    that is not a word character.  The classes of digits and of word
    characters are those of ASCII text; outside ASCII Python has more of
    both. *)
Definition year_here (s : string) : bool :=
  match s with
  | String a (String b (String c (String d rest))) =>
      (bool_decide (a = "1"%char) && bool_decide (b = "9"%char)
       || bool_decide (a = "2"%char) && bool_decide (b = "0"%char))
      && Py.is_digit c && Py.is_digit d
      && match rest with
         | "" => true
         | String e _ => negb (Py.is_word e)
         end
  | _ => false
  end.

(** [re.search] of that pattern: the leftmost position that is not preceded
    by a word character and where the pattern matches. *)
Fixpoint year_search_go (prev_word : bool) (s : string) : option string :=
  match s with
  | "" => None
  | String c s' =>
      if negb prev_word && year_here s then Some (PyStr.take 4 s)
      else year_search_go (Py.is_word c) s'
  end.

Definition year_search (s : string) : option string := year_search_go false s.

(** The text that [year_from_any] reads under a tag: the first element of
    a list, the empty string for a missing tag, trimmed. *)
Definition year_candidate (r : Record_) (k : string) : string :=
  Py.strip match r !! k with
           | Some (VList l) => default "" (head l)
           | Some (Scalar s) => s
           | None => ""
           end.

Fixpoint year_from_tags (r : Record_) (tags : list string) : string :=
  match tags with
  | [] => ""
  | k :: rest =>
      let v := year_candidate r k in
      if Py.truthy v then
        match year_search v with
        | Some y => y
        | None => year_from_tags r rest
        end
      else year_from_tags r rest
  end.

Definition year_from_any (r : Record_) : string :=
  year_from_tags r ["PY"; "Y1"; "DA"; "DP"].

(** The first element of a list that is not blank, trimmed. *)
Fixpoint first_nonblank (l : list string) : option string :=
  match l with
  | [] => None
  | x :: rest =>
      let x := Py.strip x in
      if Py.truthy x then Some x else first_nonblank rest
  end.

Fixpoint get_first_from_tags (r : Record_) (tags : list string) : string :=
  match tags with
  | [] => ""
  | tag :: rest =>
      match r !! tag with
      | None => get_first_from_tags r rest
      | Some val =>
          if negb (value_truthy val) then get_first_from_tags r rest
          else match val with
               | VList l =>
                   match first_nonblank l with
                   | Some x => x
                   | None => get_first_from_tags r rest
                   end
               | Scalar s =>
                   let x := Py.strip s in
                   if Py.truthy x then x else get_first_from_tags r rest
               end
      end
  end.

(** Domain to provider name, in the order of declaration (the order in
    which Python iterates over the dictionary). *)
Definition PROVIDER_MAP : list (string * string) :=
  [ ("ieeexplore.ieee.org", "IEEE Xplore");
    ("sciencedirect.com", "ScienceDirect");
    ("webofscience.com", "Web of Science");
    ("link.springer.com", "SpringerLink");
    ("springer.com", "SpringerLink");
    ("onlinelibrary.wiley.com", "Wiley Online Library");
    ("wiley.com", "Wiley Online Library");
    ("pubmed.ncbi.nlm.nih.gov", "PubMed");
    ("dl.acm.org", "ACM Digital Library");
    ("acm.org", "ACM Digital Library");
    ("tandfonline.com", "Taylor & Francis");
    ("nature.com", "Nature") ].

(** [for k, v in PROVIDER_MAP.items(): if k in host: return v] *)
Fixpoint provider_lookup (host : string) (m : list (string * string))
    : option string :=
  match m with
  | [] => None
  | (k, v) :: rest =>
      if Py.contains host k then Some v else provider_lookup host rest
  end.

(** The text of the [UR] tag that [index_from_record] works with. *)
Definition ur_text (r : Record_) : string :=
  Py.strip match r !! "UR" with
           | Some (VList l) => default "" (head l)
           | Some (Scalar s) => s
           | None => ""
           end.

(** [r.get("DO") or r.get("DOI") or ""], then [str(...)]. *)
Definition doi_raw (r : Record_) : string :=
  match r !! "DO" with
  | Some v =>
      if value_truthy v then str_of_value v
      else match r !! "DOI" with
           | Some w => if value_truthy w then str_of_value w else ""
           | None => ""
           end
  | None =>
      match r !! "DOI" with
      | Some w => if value_truthy w then str_of_value w else ""
      | None => ""
      end
  end.

Definition doi_text (r : Record_) : string := Py.lower (Py.strip (doi_raw r)).

(** The chain of [startswith] tests on the DOI. *)
Definition doi_prefix_label (doi : string) : option string :=
  if Py.startswith doi "10.1109" then Some "IEEE Xplore"
  else if Py.startswith doi "10.1016" then Some "ScienceDirect"
  else if Py.startswith doi "10.1007" then Some "SpringerLink"
  else if Py.startswith doi "10.1002" then Some "Wiley Online Library"
  else if Py.startswith doi "10.1145" then Some "ACM Digital Library"
  else None.

(** The pattern [\bexports\b], without regard to case, at the start of
    [s]. *)
Definition exports_here (s : string) : bool :=
  bool_decide (Py.lower (PyStr.take 7 s) = "exports")
  && match PyStr.drop 7 s with
     | "" => true
     | String e _ => negb (Py.is_word e)
     end.

(** [re.sub] of that pattern by the empty string: every match, from left
    to right, is left out.  [skip] counts the characters of a match that
    are still to be left out. *)
Fixpoint remove_exports_go (skip : nat) (prev_word : bool) (s : string) : string :=
  match s with
  | "" => ""
  | String c s' =>
      match skip with
      | S k => remove_exports_go k (Py.is_word c) s'
      | O =>
          if negb prev_word && exports_here s
          then remove_exports_go 6 (Py.is_word c) s'
          else String c (remove_exports_go 0 (Py.is_word c) s')
      end
  end.

Definition remove_exports (s : string) : string := remove_exports_go 0 false s.

(** Step 3 of [index_from_record]. *)
Definition clean_fallback (fallback : string) : string :=
  let fb := Py.strip (Py.replace_char "_" " " fallback) in
  let fb := Py.strip (remove_exports fb) in
  if Py.truthy fb then PyStr.title fb else "Unknown Source".

Section resolver.

(** [urlparse(ur).netloc] comes from the Python library, whose treatment of
    unusual URLs varies with the version of the interpreter.  It is a
    parameter here: the network location of the URL, or [None] when
    [urlparse] raises. *)
Variable urlparse_netloc : string -> option string.

(** Step 1 of [index_from_record]: the [try] block. *)
Definition index_from_url (ur : string) : option string :=
  if Py.truthy ur then
    match urlparse_netloc ur with
    | Some netloc => provider_lookup (Py.lower netloc) PROVIDER_MAP
    | None => None
    end
  else None.

(** Step 2 of [index_from_record]. *)
Definition index_from_doi (doi : string) : option string :=
  if Py.truthy doi then doi_prefix_label doi else None.

Definition index_from_record (r : Record_) (fallback : string) : string :=
  match index_from_url (ur_text r) with
  | Some v => v
  | None =>
      match index_from_doi (doi_text r) with
      | Some v => v
      | None => clean_fallback fallback
      end
  end.

End resolver.

(** A model of [urlparse(url).netloc] after CPython's [urlsplit]: leading
    control characters and spaces are dropped, tabs and line breaks are
    removed, a scheme (a letter followed by letters, digits, [+], [-] or
    [.], up to the first colon) is split off, and when what remains starts
    with two slashes the network location runs up to the next [/], [?] or
    [#].  A network location with only one of the two square brackets
    raises.  The further validation of a bracketed host in recent versions
    is not modelled. *)
Definition is_c0_or_space (c : ascii) : bool := (Py.code c <=? 32)%N.
Definition is_unsafe_url_char (c : ascii) : bool :=
  ((Py.code c =? 9) || (Py.code c =? 10) || (Py.code c =? 13))%N.
Definition is_scheme_char (c : ascii) : bool :=
  Py.is_alpha c || Py.is_digit c
  || bool_decide (c = "+"%char) || bool_decide (c = "-"%char)
  || bool_decide (c = "."%char).
Definition is_netloc_end (c : ascii) : bool :=
  bool_decide (c = "/"%char) || bool_decide (c = "?"%char)
  || bool_decide (c = "#"%char).

Fixpoint remove_chars (p : ascii -> bool) (s : string) : string :=
  match s with
  | "" => ""
  | String c s' => if p c then remove_chars p s' else String c (remove_chars p s')
  end.

Definition split_scheme (url : string) : string :=
  let '(pre, post) := PyStr.break_at (fun c => bool_decide (c = ":"%char)) url in
  match pre, post with
  | String c _, String _ rest =>
      if Py.is_alpha c && Py.all_chars is_scheme_char pre then rest else url
  | _, _ => url
  end.

Definition netloc_cpython (url : string) : option string :=
  let url := Py.lstrip_by is_c0_or_space url in
  let url := remove_chars is_unsafe_url_char url in
  let url := split_scheme url in
  if Py.startswith url "//" then
    let netloc := (PyStr.break_at is_netloc_end (PyStr.drop 2 url)).1 in
    let lb := Py.any_char (fun c => bool_decide (c = "["%char)) netloc in
    let rb := Py.any_char (fun c => bool_decide (c = "]"%char)) netloc in
    if xorb lb rb then None else Some netloc
  else Some "".

(** ** Rows *)

(** A row of the table.  [_group] is the column that the orchestrator adds
    to the rows of a group; [ris_records_to_rows] does not set it. *)
Record Row : Type := mkRow {
  Title : string;
  Year : string;
  Index : string;
  DOI : string;
  Author_Surname : string;
  Author_Name : string;
  _source_file : string;
  _group : option string
}.

#[global] Instance Row_eq_dec : EqDecision Row.
Proof. solve_decision. Defined.

Definition title_tags : list string := ["T1"; "TI"; "CT"; "BT"].
Definition doi_tags : list string := ["DO"; "DOI"].
Definition author_tags : list string := ["AU"; "A1"; "AF"; "A2"; "A3"; "A4"; "ED"].

Definition record_to_row (urlparse_netloc : string -> option string)
    (source_name source_file : string) (r : Record_) : Row :=
  let title := get_first_from_tags r title_tags in
  let year := year_from_any r in
  let doi := clean_doi (get_first_from_tags r doi_tags) in
  let first_author := get_first_from_tags r author_tags in
  let first_surname := surname_from_author first_author in
  {| Title := title;
     Year := year;
     Index := index_from_record urlparse_netloc r source_name;
     DOI := doi;
     Author_Surname := first_surname;
     Author_Name := first_author;
     _source_file := source_file;
     _group := None |}.

Definition ris_records_to_rows (urlparse_netloc : string -> option string)
    (records : list Record_) (source_name source_file : string) : list Row :=
  record_to_row urlparse_netloc source_name source_file <$> records.

(** *** The precedence of [index_from_record], as the specification words it *)



(** The label of the first entry whose key passes [test]. *)
Fixpoint table_lookup (test : string -> bool) (table : list (string * string))
    : option string :=
  match table with
  | [] => None
  | (k, v) :: rest => if test k then Some v else table_lookup test rest
  end.

(** The fixed table of DOI prefixes. *)
Definition DOI_PREFIX_TABLE : list (string * string) :=
  [ ("10.1109", "IEEE Xplore");
    ("10.1016", "ScienceDirect");
    ("10.1007", "SpringerLink");
    ("10.1002", "Wiley Online Library");
    ("10.1145", "ACM Digital Library") ].



(** *** The year search, as the specification words it *)

Module YearSpec.













End YearSpec.

(** The text of a date tag, as the claim words it: the value of the tag,
    or the first of its values when the tag is repeated, trimmed; the empty
    text when the tag is missing. *)
Definition date_text (r : Record_) (k : string) : string :=
  match r !! k with
  | Some (Scalar s) => Py.strip s
  | Some (VList (x :: _)) => Py.strip x
  | _ => ""
  end.

(** A text made of ASCII characters: on such a text the classes of
    characters of this development are those of Python. *)
Definition ascii_text (s : string) : bool :=
  Py.all_chars (fun c => (Py.code c <? 128)%N) s.

(** *** The cleaning of the fallback, as the specification words it *)








Definition date_tags : list string := ["PY"; "Y1"; "DA"; "DP"].

(** ** The filter engine *)

(** The outcome of a call that may raise [ValueError] or [KeyError]. *)
Inductive Result (A : Type) : Type :=
  | Ok (a : A)
  | ValueError (msg : string)
  | KeyError (key : string).
Arguments Ok {A} a.
Arguments ValueError {A} msg.
Arguments KeyError {A} key.

(** [\d{4}] at the start of [s]. *)
Definition four_digits (s : string) : bool :=
  bool_decide (String.length s = 4) && Py.all_chars Py.is_digit s.

(** The pattern of [parse_year_range], anchored at both ends: blanks, four
    digits, blanks, a hyphen, blanks, four digits, blanks.  The result is
    the pair of the two groups. *)
Definition YEAR_RANGE_RE_match (s : string) : option (string * string) :=
  let s1 := Py.lstrip s in
  let g1 := PyStr.take 4 s1 in
  if four_digits g1 then
    match Py.lstrip (PyStr.drop 4 s1) with
    | String "-"%char s2 =>
        let s3 := Py.lstrip s2 in
        let g2 := PyStr.take 4 s3 in
        if four_digits g2 then
          if Py.is_empty (Py.lstrip (PyStr.drop 4 s3)) then Some (g1, g2) else None
        else None
    | _ => None
    end
  else None.

Definition year_range_error : string :=
  "Year filter must look like 2007-2017 (or empty).".

Definition parse_year_range (s : string) : Result (option Z * option Z) :=
  let s := Py.strip s in
  if Py.is_empty s then Ok (None, None)
  else match YEAR_RANGE_RE_match s with
       | None => ValueError year_range_error
       | Some (g1, g2) =>
           let y1 := Py.int_of_digits g1 in
           let y2 := Py.int_of_digits g2 in
           if (y1 >? y2)%Z then Ok (Some y2, Some y1) else Ok (Some y1, Some y2)
       end.

(** A string of the form YYYY-YYYY, with optional blanks around the years
    and the hyphen. *)
Definition blank (w : string) : Prop := Py.all_chars Py.is_space w = true.

Definition year_range_form (s y1 y2 : string) : Prop :=
  ∃ w1 w2 w3 w4,
    s = w1 +:+ y1 +:+ w2 +:+ "-" +:+ w3 +:+ y2 +:+ w4 ∧
    blank w1 ∧ blank w2 ∧ blank w3 ∧ blank w4 ∧
    four_digits y1 = true ∧ four_digits y2 = true.


(** [year_ok], the local function of [apply_filters], on a Year in ASCII
    that is short enough for [int] to read it: Python refuses, by default,
    to convert more than 4300 digits, and [isdigit] accepts digits outside
    ASCII that [int] refuses. *)
Definition year_ok (min_year max_year : option Z) (y : string) : bool :=
  let y := Py.strip y in
  if negb (Py.isdigit y) then false
  else
    let yi := Py.int_of_digits y in
    if match min_year with Some m => (yi <? m)%Z | None => false end then false
    else if match max_year with Some m => (yi >? m)%Z | None => false end then false
    else true.

(** [matches_only_filter], on ASCII text: [Py.lower] folds the letters A
    to Z, which is what [str.lower] does there. *)
Definition matches_only_filter (row : Row) (terms : list string) : bool :=
  match terms with
  | [] => true
  | _ =>
      let hay := Py.lower (Py.join " " [Title row; DOI row; Author_Name row; Index row]) in
      forallb (fun t => Py.contains hay (Py.lower t)) terms
  end.

(** [apply_filters].  A table is modelled by the list of its rows, and
    stands for a table that has its columns.  A table without rows may
    have lost them: the frame built from files without any record has no
    column [Year], and there the code raises [KeyError] when a year bound
    is set ([process_group] below has this case); the two selections of the
    code also drop the columns of a table that they leave without rows.
    What is stated of [apply_filters] alone is therefore stated of tables
    that have rows. *)
Definition apply_filters (df : list Row) (min_year max_year : option Z)
    (only_terms : list string) : list Row :=
  let out := df in
  let out :=
    if bool_decide (min_year ≠ None) || bool_decide (max_year ≠ None)
    then List.filter (fun row => year_ok min_year max_year (Year row)) out
    else out in
  let out :=
    match only_terms with
    | [] => out
    | _ => List.filter (fun row => matches_only_filter row only_terms) out
    end in
  out.

(** *** The two filters, as the specification words them *)


(** The text in which the keywords are searched: the four fields, joined
    by single spaces. *)
Definition haystack (r : Row) : string :=
  Title r +:+ " " +:+ DOI r +:+ " " +:+ Author_Name r +:+ " " +:+ Index r.





(** ** The deduplicator *)

(** [drop_duplicates(subset=..., keep="first")]: the rows are read in
    order and a row is dropped when its key was seen before. *)
Fixpoint drop_duplicates_go {K} `{EqDecision K} (key : Row → K) (seen : list K)
    (df : list Row) : list Row :=
  match df with
  | [] => []
  | r :: rest =>
      if bool_decide (key r ∈ seen) then drop_duplicates_go key seen rest
      else r :: drop_duplicates_go key (key r :: seen) rest
  end.

Definition drop_duplicates {K} `{EqDecision K} (key : Row → K) (df : list Row)
    : list Row :=
  drop_duplicates_go key [] df.

(** [df["DOI"].astype(str).str.strip().ne("")] *)
Definition doi_nonempty (r : Row) : bool := negb (Py.is_empty (Py.strip (DOI r))).

Definition doi_key (r : Row) : string := DOI r.
Definition triple_key (r : Row) : string * string * string :=
  (Title r, Year r, Author_Name r).

Definition deduplicate (df : list Row) : list Row :=
  match df with
  | [] => df
  | _ =>
      let df_with_doi := drop_duplicates doi_key (List.filter doi_nonempty df) in
      let df_no_doi :=
        drop_duplicates triple_key (List.filter (fun r => negb (doi_nonempty r)) df) in
      df_with_doi ++ df_no_doi
  end.

(** Keeping the first-encountered row per distinct key, as the
    specification words it: going through the rows in order, a row is kept
    exactly when no earlier row has its key, and the rows kept stay in
    order. *)
Inductive keeps_first {K} (key : Row → K) : list Row → list Row → Prop :=
  | keeps_first_nil : keeps_first key [] []
  | keeps_first_keep l res r :
      keeps_first key l res → key r ∉ key <$> l →
      keeps_first key (l ++ [r]) (res ++ [r])
  | keeps_first_drop l res r :
      keeps_first key l res → key r ∈ key <$> l →
      keeps_first key (l ++ [r]) res.

(** The four rows of the example: one pair with the same DOI, one pair
    without DOI and with the same title, year and author. *)
Definition example_row (doi title year author : string) : Row :=
  {| Title := title; Year := year; Index := ""; DOI := doi;
     Author_Surname := ""; Author_Name := author;
     _source_file := ""; _group := None |}.

Definition example_rows : list Row :=
  [ example_row "10.1/A" "" "" ""; example_row "10.1/A" "" "" "";
    example_row "" "T" "2020" "X"; example_row "" "T" "2020" "X" ].

(** The two sets of rows and the two keys, as the specification words
    them: a row has a DOI when its DOI is not blank; rows with a DOI are
    told apart by the DOI, the others by Title, Year and Author Name. *)
Definition has_doi (r : Row) : bool := negb (bool_decide (Py.strip (DOI r) = "")).

Definition article_triple (r : Row) : string * string * string :=
  (Title r, Year r, Author_Name r).

(** Rows without DOI that differ from the first one in the title, in the
    year or in the author, followed by a copy of the first one; and rows
    whose DOIs differ, one of them in letter case only, followed by a row
    that repeats the first DOI under another title. *)
Definition example_triples : list Row :=
  [ example_row "" "T" "2020" "X"; example_row "" "U" "2020" "X";
    example_row "" "T" "2021" "X"; example_row "" "T" "2020" "Y";
    example_row "" "T" "2020" "X" ].

Definition example_dois : list Row :=
  [ example_row "10.1/A" "T" "2020" "X"; example_row "10.1/B" "T" "2020" "X";
    example_row "10.1/a" "T" "2020" "X"; example_row "10.1/A" "U" "2021" "Y" ].

(** Three rows: a year with a blank in front, a year out of the range, no
    year. *)
Definition example_years : list Row :=
  [ example_row "10.1109/5.771073" "Deep learning" " 2015" "Doe, J.";
    example_row "" "Deep Blue" "1997" "Hsu, F.";
    example_row "" "Deeper" "" "Roe, K." ].

(** ** The group assigner *)

(** The longest [q] with [s = q ++ ")_" ++ suffix] and a suffix that is not
    empty, with that suffix: where the greedy group [query] of [FNAME_RE]
    ends. *)
Fixpoint last_split (s : string) : option (string * string) :=
  match s with
  | "" => None
  | String c s' =>
      match last_split s' with
      | Some (q, suffix) => Some (String c q, suffix)
      | None =>
          match s' with
          | String u (String v rest) =>
              if bool_decide (c = ")"%char) && bool_decide (u = "_"%char)
              then Some ("", String v rest) else None
          | _ => None
          end
      end
  end.

(** [str.removesuffix] of one final newline: where [$] may match. *)
Fixpoint drop_final_newline (s : string) : string :=
  match s with
  | "" => ""
  | String c "" => if Py.is_newline c then "" else s
  | String c s' => String c (drop_final_newline s')
  end.

(** The leading digits of a string, and the rest. *)
Fixpoint span_digits (s : string) : string * string :=
  match s with
  | "" => ("", "")
  | String c s' =>
      if Py.is_digit c then let '(d, rest) := span_digits s' in (String c d, rest)
      else ("", s)
  end.

(** [FNAME_RE]: anchored at both ends and applied without regard to case;
    the group [num] is [\d+], then come a dot and an opening parenthesis,
    the group [query] is [.+], then come a closing parenthesis, an
    underscore, [.+] and the extension [\.ris].  The result is the pair of
    the groups [num] and [query].  The groups are greedy, so [num] takes
    all the leading digits and [query] is as long as the rest allows. *)
Definition FNAME_RE_match (name : string) : option (string * string) :=
  let '(num, rest) := span_digits name in
  if Py.is_empty num then None
  else
    match rest with
    | String a (String b body) =>
        if bool_decide (a = "."%char) && bool_decide (b = "("%char) then
          let body := drop_final_newline body in
          let n := String.length body in
          if Py.any_char Py.is_newline body then None
          else if bool_decide (Py.lower (PyStr.drop (n - 4) body) = ".ris")
          then
            match last_split (PyStr.take (n - 4) body) with
            | Some (String c q, _) => Some (num, String c q)
            | _ => None
            end
          else None
        else None
    | _ => None
    end.

(** [str(n)] for a natural number. *)
Definition str_of_int (n : Z) : string :=
  NilZero.string_of_uint (N.to_uint (Z.to_N n)).

Definition extract_group_header (name : string) : option Z * string :=
  match FNAME_RE_match name with
  | Some (num_text, query) =>
      let num := Py.int_of_digits num_text in
      (Some num, str_of_int num +:+ ".(" +:+ query +:+ ")")
  | None => (None, "FILE: " +:+ name)
  end.

(** A file of the folder: its name and the lines that reading it yields. *)
Record RisFile : Type := mkRisFile {
  path_name : string;
  content : list string
}.

#[global] Instance RisFile_eq_dec : EqDecision RisFile.
Proof. solve_decision. Defined.

(** An entry of the dictionary [groups]. *)
Record GroupInfo : Type := mkGroupInfo {
  g_num : option Z;
  g_files : list RisFile
}.

(** The loop that builds [groups] and [order_keys]. *)
Definition add_to_groups
    (st : gmap string GroupInfo * list (option Z * string)) (f : RisFile)
    : gmap string GroupInfo * list (option Z * string) :=
  let '(groups, order_keys) := st in
  let '(num, header) := extract_group_header (path_name f) in
  let '(groups, order_keys) :=
    match groups !! header with
    | None => (<[header := {| g_num := num; g_files := [] |}]> groups,
               order_keys ++ [(num, header)])
    | Some _ => (groups, order_keys)
    end in
  (alter (fun g => {| g_num := g_num g; g_files := g_files g ++ [f] |}) header groups,
   order_keys).

Definition build_groups (files : list RisFile)
    : gmap string GroupInfo * list (option Z * string) :=
  foldl add_to_groups (∅, []) files.

(** The key of the sort: [(x[0] is None, x[0] or 10**9, x[1])]. *)
Definition sort_key (x : option Z * string) : bool * Z * string :=
  (bool_decide (x.1 = None), default (10 ^ 9)%Z x.1, x.2).

(** The order of Python on such tuples: [a < b]. *)
Definition bool_ltb (a b : bool) : bool := negb a && b.

Definition key_ltb (a b : bool * Z * string) : bool :=
  let '(a1, a2, a3) := a in
  let '(b1, b2, b3) := b in
  bool_ltb a1 b1
  || bool_decide (a1 = b1)
     && ((a2 <? b2)%Z || (a2 =? b2)%Z && String.ltb a3 b3).

(** [list.sort(key=...)]: a stable sort.  An element goes before the first
    element after it that has a greater key. *)
Fixpoint insert_by {A K} (ltb : K → K → bool) (key : A → K) (x : A) (l : list A)
    : list A :=
  match l with
  | [] => [x]
  | y :: l' =>
      if ltb (key y) (key x) then y :: insert_by ltb key x l'
      else x :: l
  end.

Definition sort_by {A K} (ltb : K → K → bool) (key : A → K) (l : list A) : list A :=
  foldr (insert_by ltb key) [] l.

Definition sorted_order_keys (files : list RisFile) : list (option Z * string) :=
  sort_by key_ltb sort_key (build_groups files).2.

(** [x] may stand before [y] in a list sorted by [key]: the key of [y] is
    not smaller than that of [x]. *)
Definition le_by {A K} (ltb : K → K → bool) (key : A → K) (x y : A) : Prop :=
  ltb (key y) (key x) = false.

(** *** The order of the groups, as the specification words it *)

(** Groups with a number come first, by number and then by header; the
    groups without number follow, by header.  Headers are compared as
    Python compares strings, character by character. *)
Definition group_le (a b : option Z * string) : Prop :=
  match a.1, b.1 with
  | Some x, Some y => (x < y)%Z ∨ (x = y ∧ String.le a.2 b.2)
  | Some _, None => True
  | None, Some _ => False
  | None, None => String.le a.2 b.2
  end.

(** The header of a file. *)
Definition header_of (f : RisFile) : string := (extract_group_header (path_name f)).2.

(** The files with a given header, in the order of the folder. *)
Definition files_of (header : string) (files : list RisFile) : list RisFile :=
  List.filter (fun f => bool_decide (header_of f = header)) files.

(** What [groups] and [order_keys] hold after the files were read: one
    entry per header, in the order in which the headers were first seen,
    and under each header the number of the group and all the files with
    that header. *)
Definition groups_ok (files : list RisFile)
    (st : gmap string GroupInfo * list (option Z * string)) : Prop :=
  NoDup st.2.*2 ∧
  (∀ h, is_Some (st.1 !! h) ↔ h ∈ st.2.*2) ∧
  (∀ n h, (n, h) ∈ st.2 →
     ∃ g, st.1 !! h = Some g ∧ g_num g = n ∧ g_files g = files_of h files ∧
          ∃ f, f ∈ files ∧ extract_group_header (path_name f) = (n, h)) ∧
  (∀ f, f ∈ files → header_of f ∈ st.2.*2).

(** The grouping convention, as the specification words it: a leading
    integer, a dot, a parenthesized query label, an underscore, a suffix and
    the extension [.ris] in any letter case.  ([tail] is the final newline
    that the end anchor of a Python pattern tolerates.) *)
Definition fname_form (name num query : string) : Prop :=
  ∃ suffix ext tail,
    name = num +:+ ".(" +:+ query +:+ ")_" +:+ suffix +:+ ext +:+ tail ∧
    num ≠ "" ∧ Py.all_chars Py.is_digit num = true ∧
    query ≠ "" ∧ suffix ≠ "" ∧
    Py.any_char Py.is_newline query = false ∧
    Py.any_char Py.is_newline suffix = false ∧
    Py.lower ext = ".ris" ∧
    (tail = "" ∨ tail = String Py.newline "").

(** ** The orchestrator *)

(** A row of the sheet [grouped_results]: the columns [OUT_COLS]. *)
Record SheetRow : Type := mkSheetRow {
  s_Title : string;
  s_Year : string;
  s_Index : string;
  s_DOI : string;
  s_Author_Surname : string;
  s_Author_Name : string
}.

(** [{c: "" for c in OUT_COLS}] *)
Definition blank_sheet_row : SheetRow :=
  {| s_Title := ""; s_Year := ""; s_Index := ""; s_DOI := "";
     s_Author_Surname := ""; s_Author_Name := "" |}.

Definition header_sheet_row (header : string) : SheetRow :=
  {| s_Title := header; s_Year := ""; s_Index := ""; s_DOI := "";
     s_Author_Surname := ""; s_Author_Name := "" |}.

(** [{c: r.get(c, "") for c in OUT_COLS}] *)
Definition sheet_row_of (r : Row) : SheetRow :=
  {| s_Title := Title r; s_Year := Year r; s_Index := Index r; s_DOI := DOI r;
     s_Author_Surname := Author_Surname r; s_Author_Name := Author_Name r |}.

(** [df["_group"] = header] *)
Definition set_group (header : string) (r : Row) : Row :=
  {| Title := Title r; Year := Year r; Index := Index r; DOI := DOI r;
     Author_Surname := Author_Surname r; Author_Name := Author_Name r;
     _source_file := _source_file r; _group := Some header |}.

(** The accumulators of the loop over the groups. *)
Record Acc : Type := mkAcc {
  output_rows : list SheetRow;
  raw_rows : list (list Row);
  total_parsed : nat;
  total_kept : nat;
  total_dedup_removed : nat
}.

Definition start_acc : Acc :=
  {| output_rows := []; raw_rows := []; total_parsed := 0; total_kept := 0;
     total_dedup_removed := 0 |}.

(** What the function hands over: the name of the workbook, its two sheets
    and the counters of the summary line. *)
Record FolderOutput : Type := mkFolderOutput {
  out_xlsx : string;
  grouped_results : list SheetRow;
  raw_results : list Row;
  n_files : nat;
  n_parsed : nat;
  n_kept : nat;
  n_dedup_removed : nat
}.

Section orchestrator.

Variable urlparse_netloc : string -> option string.
Variables (index_name : string) (min_year max_year : option Z)
  (only_terms : list string) (do_dedup : bool).

(** The frame of one file of a group. *)
Definition frame_of_file (header : string) (f : RisFile) : list Row :=
  let records := parse_ris_file (content f) in
  let rows := ris_records_to_rows urlparse_netloc records index_name (path_name f) in
  set_group header <$> rows.

(** The rows of a group before the filters: the frames of its files, one
    after the other. *)
Definition group_frame (header : string) (fs : list RisFile) : list Row :=
  concat (frame_of_file header <$> fs).

(** The rows of a group after the filters and the deduplication. *)
Definition group_result (df_group : list Row) : list Row :=
  let filtered := apply_filters df_group min_year max_year only_terms in
  if do_dedup && negb (bool_decide (filtered = [])) then deduplicate filtered
  else filtered.

(** One iteration of the loop over [order_keys].  The frame built from
    files without any record has no column [Year], so that a year filter
    raises [KeyError] in [apply_filters]. *)
Definition process_group (groups : gmap string GroupInfo) (acc : Acc)
    (key : option Z * string) : Result Acc :=
  let header := key.2 in
  match groups !! header with
  | None => KeyError header
  | Some g =>
      let df_group := group_frame header (g_files g) in
      if bool_decide (df_group = []) && negb (bool_decide (g_files g = []))
         && (bool_decide (min_year ≠ None) || bool_decide (max_year ≠ None))
      then KeyError "Year"
      else
        let filtered := apply_filters df_group min_year max_year only_terms in
        let final := group_result df_group in
        Ok {| output_rows :=
                output_rows acc ++ [header_sheet_row header]
                ++ (sheet_row_of <$> final) ++ [blank_sheet_row];
              raw_rows := raw_rows acc ++ [final];
              total_parsed := total_parsed acc + length df_group;
              total_kept := total_kept acc + length filtered;
              total_dedup_removed :=
                total_dedup_removed acc + (length filtered - length final) |}
  end.

Fixpoint process_groups (groups : gmap string GroupInfo) (acc : Acc)
    (keys : list (option Z * string)) : Result Acc :=
  match keys with
  | [] => Ok acc
  | key :: rest =>
      match process_group groups acc key with
      | Ok acc' => process_groups groups acc' rest
      | ValueError msg => ValueError msg
      | KeyError k => KeyError k
      end
  end.

End orchestrator.

(** [files] is the sorted list of the RIS files of the folder; the result
    is [None] when there is none.  The model ends where the two sheets are
    handed to pandas to be written: [Ok (Some out)] reads that the run
    reaches the writing of the workbook, with these sheets and these
    counters.  The writing itself, which can still raise (openpyxl refuses
    a cell that holds a control character, for one), is not part of the
    model, so that what is stated of an output holds of every run that
    returns. *)
Definition build_grouped_excel_for_folder
    (urlparse_netloc : string -> option string)
    (ris_dir_name : string) (files : list RisFile)
    (index_name : option string) (min_year max_year : option Z)
    (only_terms : list string) (do_dedup : bool) : Result (option FolderOutput) :=
  match files with
  | [] => Ok None
  | _ =>
      let index_name :=
        match index_name with
        | Some s => if Py.truthy s then s else ris_dir_name
        | None => ris_dir_name
        end in
      let groups := (build_groups files).1 in
      let order_keys := sorted_order_keys files in
      match process_groups urlparse_netloc index_name min_year max_year
              only_terms do_dedup groups start_acc order_keys with
      | Ok acc =>
          Ok (Some {| out_xlsx := "results_" +:+ ris_dir_name +:+ "_grouped.xlsx";
                      grouped_results := output_rows acc;
                      raw_results := concat (raw_rows acc);
                      n_files := length files;
                      n_parsed := total_parsed acc;
                      n_kept := total_kept acc;
                      n_dedup_removed := total_dedup_removed acc |})
      | ValueError msg => ValueError msg
      | KeyError k => KeyError k
      end
  end.

(** The index name that the rows of a folder fall back to. *)
Definition effective_index_name (ris_dir_name : string) (index_name : option string)
    : string :=
  match index_name with
  | Some s => if Py.truthy s then s else ris_dir_name
  | None => ris_dir_name
  end.

(** The rows that a group contributes to the raw view: its files are
    parsed and resolved, and the rows are filtered and deduplicated within
    the group. *)
Definition group_rows_final (urlparse_netloc : string -> option string)
    (index_name : string) (min_year max_year : option Z)
    (only_terms : list string) (do_dedup : bool)
    (files : list RisFile) (header : string) : list Row :=
  group_result min_year max_year only_terms do_dedup
    (group_frame urlparse_netloc index_name header (files_of header files)).

(** No group is without rows, or no year bound is set: the condition under
    which the year filter never meets a frame without columns. *)
Definition frames_ok (urlparse_netloc : string -> option string)
    (index_name : string) (min_year max_year : option Z)
    (files : list RisFile) : Prop :=
  (min_year = None ∧ max_year = None) ∨
  ∀ f, f ∈ files →
    group_frame urlparse_netloc index_name (header_of f)
      (files_of (header_of f) files) ≠ [].

(** A folder with two files that belong to two groups and hold the same
    two records: one with a DOI, one without. *)
Definition shared_records : list string :=
  [ "TY  - JOUR"; "TI  - Shared paper"; "AU  - Doe, Jane"; "PY  - 2020";
    "DO  - 10.1145/3368089"; "ER  - ";
    "TY  - JOUR"; "TI  - Shared note"; "AU  - Roe, Karl"; "PY  - 2019"; "ER  - " ].

Definition two_group_folder : list RisFile :=
  [ {| path_name := "1.(cats)_all.ris"; content := shared_records |};
    {| path_name := "2.(dogs)_all.ris"; content := shared_records |} ].

(** The rows that a group hands to the raw view, as the claim words them:
    the rows of the files of the group, in the order of the folder, are
    filtered, and [deduplicate] is applied to them when deduplication is
    asked for. *)
Definition group_rows_words (urlparse_netloc : string -> option string)
    (index_name : string) (min_year max_year : option Z)
    (only_terms : list string) (do_dedup : bool)
    (files : list RisFile) (header : string) : list Row :=
  let parsed :=
    concat ((fun f =>
               set_group header
                 <$> ris_records_to_rows urlparse_netloc
                       (parse_ris_file (content f)) index_name (path_name f))
            <$> files_of header files) in
  let kept := apply_filters parsed min_year max_year only_terms in
  if do_dedup then deduplicate kept else kept.

(** A folder with two groups that hold the same two records: the first
    group holds them twice, in two files, the second group once. *)
Definition three_file_folder : list RisFile :=
  [ {| path_name := "1.(cats)_a.ris"; content := shared_records |};
    {| path_name := "1.(cats)_b.ris"; content := shared_records |};
    {| path_name := "2.(dogs)_all.ris"; content := shared_records |} ].

(** The two records of the example, followed by a record without any date
    tag. *)
Definition undated_records : list string :=
  shared_records ++ [ "TY  - JOUR"; "TI  - Undated report"; "AU  - Poe, Ann"; "ER  - " ].

(** The records whose date tags hold ASCII text. *)
Definition ascii_dates (r : Record_) : Prop :=
  Forall (fun k => ascii_text (date_text r k) = true) date_tags.

(** ** Notions used by the further properties *)

(** A line that holds nothing but blanks and line terminators. *)
Definition is_blank_line (raw : string) : bool :=
  Py.is_empty (Py.strip (Py.rstrip_crlf raw)).

(** A tag as [TAG_LINE_RE] reads it: two characters, each a capital letter
    or a digit. *)
Definition is_tag (t : string) : Prop :=
  ∃ a b, t = String a (String b "") ∧ is_tag_char a = true ∧ is_tag_char b = true.

(** The strings held by the value of a tag. *)
Definition value_strings (v : Value) : list string :=
  match v with
  | Scalar s => [s]
  | VList l => l
  end.

(** A field read from a block that holds no end-of-record marker: its tag
    is a tag other than [ER] and its value is trimmed. *)
Definition field_ok (f : string * string) : Prop :=
  is_tag f.1 ∧ f.1 ≠ "ER" ∧ Py.strip f.2 = f.2.


(** A text that reads [https://doi.org/] or [http://doi.org/] in any letter
    case. *)
Definition is_doi_url_prefix (p : string) : Prop :=
  Py.lower p = "https://doi.org/" ∨ Py.lower p = "http://doi.org/".

(** The text starts with such a prefix. *)
Definition starts_with_doi_url (x : string) : bool :=
  Py.startswith (Py.lower x) "https://doi.org/"
  || Py.startswith (Py.lower x) "http://doi.org/".

(** A word: a non-empty text without blank and without comma. *)
Definition is_word_text (w : string) : Prop :=
  w ≠ "" ∧ Py.any_char Py.is_space w = false ∧ Py.any_char is_comma w = false.

(** The Year of a row: empty, or four digits that read a year from 1900 to
    2099. *)
Definition year_text_ok (y : string) : Prop :=
  y = "" ∨
  (four_digits y = true ∧
   (1900 ≤ Py.int_of_digits y)%Z ∧ (Py.int_of_digits y ≤ 2099)%Z).

(** The strings stored under a tag, in order. *)
Definition tag_values (r : Record_) (tag : string) : list string :=
  match r !! tag with
  | Some v => value_strings v
  | None => []
  end.

(** The first value that is not blank among the values of the given tags,
    tags and values taken in order, trimmed. *)
Definition first_value (r : Record_) (tags : list string) : option string :=
  head (List.filter Py.truthy (Py.strip <$> concat (tag_values r <$> tags))).


(** The test that [apply_filters] applies to a row: the year filter when a
    bound is set, then the keyword filter. *)
Definition row_kept (min_year max_year : option Z) (only_terms : list string)
    (row : Row) : bool :=
  (negb (bool_decide (min_year ≠ None) || bool_decide (max_year ≠ None))
   || year_ok min_year max_year (Year row))
  && matches_only_filter row only_terms.

(** Two rows that [deduplicate] takes for the same article: both have a
    DOI and the DOIs are equal, or both have none and they agree on Title,
    Year and Author Name. *)
Definition same_article (r r' : Row) : Prop :=
  doi_nonempty r = doi_nonempty r' ∧
  if doi_nonempty r then DOI r = DOI r' else triple_key r = triple_key r'.

(** No two rows of the frame stand for the same article. *)
Definition articles_distinct (df : list Row) : Prop :=
  NoDup (doi_key <$> List.filter doi_nonempty df) ∧
  NoDup (triple_key <$> List.filter (fun r => negb (doi_nonempty r)) df).


(** The rows of a group as parsed, and after the filters. *)
Definition group_rows_parsed (urlparse_netloc : string -> option string)
    (index_name : string) (files : list RisFile) (header : string) : list Row :=
  group_frame urlparse_netloc index_name header (files_of header files).

Definition group_rows_filtered (urlparse_netloc : string -> option string)
    (index_name : string) (min_year max_year : option Z)
    (only_terms : list string) (files : list RisFile) (header : string) : list Row :=
  apply_filters (group_rows_parsed urlparse_netloc index_name files header)
    min_year max_year only_terms.

(** The block of a group in the sheet [grouped_results]: the header row,
    the rows of the group and a blank row. *)
Definition group_block (urlparse_netloc : string -> option string)
    (index_name : string) (min_year max_year : option Z)
    (only_terms : list string) (do_dedup : bool)
    (files : list RisFile) (header : string) : list SheetRow :=
  header_sheet_row header
  :: (sheet_row_of <$> group_rows_final urlparse_netloc index_name min_year
                         max_year only_terms do_dedup files header)
  ++ [blank_sheet_row].

(** The group has no row although a year bound is set: the year filter
    meets a frame without the column [Year]. *)
Definition group_trips (urlparse_netloc : string -> option string)
    (index_name : string) (min_year max_year : option Z)
    (files : list RisFile) (header : string) : bool :=
  bool_decide (group_rows_parsed urlparse_netloc index_name files header = [])
  && (bool_decide (min_year ≠ None) || bool_decide (max_year ≠ None)).

(** The number of records in the files. *)
Definition records_in (files : list RisFile) : nat :=
  length (concat ((fun f => parse_ris_file (content f)) <$> files)).

(** A row of [grouped_results] that holds an article: header rows and
    blank rows have no Index. *)
Definition is_article_row (s : SheetRow) : bool := negb (Py.is_empty (s_Index s)).


(** ** The prompt *)

(** The console: the lines still to be read from the standard input, and
    what was written to the standard output, prompts included. *)
Record Console : Type := mkConsole {
  stdin : list string;
  stdout : list string
}.

(** The outcome of a computation that reads from the console: it returns,
    or [input] meets the end of the input and raises [EOFError], or an
    exception escapes that nothing catches. *)
Inductive Prompted (A : Type) : Type :=
  | Returned (a : A) (c : Console)
  | EOFError
  | Uncaught (key : string).
Arguments Returned {A} a c.
Arguments EOFError {A}.
Arguments Uncaught {A} key.

Definition Prompt (A : Type) : Type := Console → Prompted A.

#[global] Instance Prompt_ret : MRet Prompt := fun A a c => Returned a c.
#[global] Instance Prompt_bind : MBind Prompt := fun A B f m c =>
  match m c with
  | Returned a c' => f a c'
  | EOFError => EOFError
  | Uncaught k => Uncaught k
  end.

(** [print(msg)] *)
Definition print (msg : string) : Prompt unit :=
  fun c => Returned () {| stdin := stdin c; stdout := stdout c ++ [msg] |}.

(** [input(prompt)]: the prompt is written and a line is read, without its
    line terminator. *)
Definition input (prompt : string) : Prompt string :=
  fun c =>
    match stdin c with
    | [] => EOFError
    | line :: rest => Returned line {| stdin := rest; stdout := stdout c ++ [prompt] |}
    end.

Definition banner : string := String Py.newline "=== RIS → Excel ===".
Definition year_prompt : string :=
  "Year filter (example 2007-2017, leave empty for no filter): ".
Definition only_prompt : string :=
  "ONLY filter keywords (comma-separated; all must appear; leave empty for no filter): ".
Definition dedup_prompt : string := "Write only ONE from duplicate articles? (y/n): ".
Definition dedup_error : string := "Please enter 'y' or 'n'.".
Definition source_prompt : string :=
  "Source folders: type 'all' or comma-separated folder names: ".
Definition source_error : string :=
  "Please type 'all' or provide at least one folder name.".

(** [s.split(sep)] for a separator of one character. *)
Fixpoint split_char (sep : ascii) (s : string) : list string :=
  match s with
  | "" => [""]
  | String c s' =>
      if bool_decide (c = sep) then "" :: split_char sep s'
      else match split_char sep s' with
           | w :: ws => String c w :: ws
           | [] => [String c ""]
           end
  end.

(** The first loop of [prompt_user].  Every turn of the loop reads a line,
    so the loop is written by recursion on the lines to be read. *)
Fixpoint ask_year_range_go (lines : list string) (out : list string)
    : Prompted (option Z * option Z) :=
  match lines with
  | [] => EOFError
  | line :: rest =>
      let out := out ++ [year_prompt] in
      let yr := Py.strip line in
      if negb (Py.truthy yr) then Returned (None, None) (mkConsole rest out)
      else match parse_year_range yr with
           | Ok bounds => Returned bounds (mkConsole rest out)
           | ValueError e => ask_year_range_go rest (out ++ [e])
           | KeyError k => Uncaught k
           end
  end.

Definition ask_year_range : Prompt (option Z * option Z) :=
  fun c => ask_year_range_go (stdin c) (stdout c).

(** The loop on the deduplication. *)
Fixpoint ask_dedup_go (lines : list string) (out : list string) : Prompted bool :=
  match lines with
  | [] => EOFError
  | line :: rest =>
      let out := out ++ [dedup_prompt] in
      let dedup_raw := Py.lower (Py.strip line) in
      if bool_decide (dedup_raw = "y") || bool_decide (dedup_raw = "yes")
      then Returned true (mkConsole rest out)
      else if bool_decide (dedup_raw = "n") || bool_decide (dedup_raw = "no")
      then Returned false (mkConsole rest out)
      else ask_dedup_go rest (out ++ [dedup_error])
  end.

Definition ask_dedup : Prompt bool :=
  fun c => ask_dedup_go (stdin c) (stdout c).

(** The loop on the source folders. *)
Fixpoint ask_source_go (lines : list string) (out : list string) : Prompted string :=
  match lines with
  | [] => EOFError
  | line :: rest =>
      let out := out ++ [source_prompt] in
      let src_raw := Py.strip line in
      if negb (Py.truthy src_raw) then ask_source_go rest (out ++ [source_error])
      else Returned src_raw (mkConsole rest out)
  end.

Definition ask_source : Prompt string :=
  fun c => ask_source_go (stdin c) (stdout c).

(** [[t.strip() for t in only_raw.split(",") if t.strip()] if only_raw else []] *)
Definition only_terms_of (only_raw : string) : list string :=
  if Py.truthy only_raw
  then Py.strip <$> List.filter (fun t => Py.truthy (Py.strip t))
                      (split_char "," only_raw)
  else [].

Definition prompt_user
    : Prompt (option Z * option Z * list string * bool * string) :=
  _ ← print banner;
  '(min_year, max_year) ← ask_year_range;
  only_raw ← input only_prompt;
  let only_raw := Py.strip only_raw in
  let only_terms := only_terms_of only_raw in
  do_dedup ← ask_dedup;
  src_raw ← ask_source;
  mret (min_year, max_year, only_terms, do_dedup, src_raw).

(** What a run of the prompt answers: the values returned and the lines
    left unread. *)
Definition answer {A} (p : Prompted A) : option (A * list string) :=
  match p with
  | Returned a c => Some (a, stdin c)
  | _ => None
  end.

(** The answers that the loops of the prompt refuse. *)
Definition year_refused (line : string) : Prop :=
  parse_year_range line = ValueError year_range_error.
Definition year_accepted (line : string) : Prop :=
  ∃ bounds, parse_year_range line = Ok bounds.
Definition dedup_refused (line : string) : Prop :=
  Py.lower (Py.strip line) ∉ ["y"; "yes"; "n"; "no"].
Definition dedup_accepted (line : string) : Prop :=
  Py.lower (Py.strip line) ∈ ["y"; "yes"; "n"; "no"].

(** A keyword as the prompt hands it over: not empty, trimmed, without
    comma. *)
Definition term_ok (t : string) : Prop :=
  t ≠ "" ∧ Py.strip t = t ∧ Py.any_char is_comma t = false.

(** The bounds as the prompt hands them over. *)
Definition bounds_ok (min_year max_year : option Z) : Prop :=
  (min_year = None ∧ max_year = None) ∨
  ∃ lo hi, min_year = Some lo ∧ max_year = Some hi ∧ (0 ≤ lo ≤ hi)%Z ∧ (hi ≤ 9999)%Z.


(** Two runs of the prompt that differ at most in what they wrote. *)
Definition same_answer {A} (p q : Prompted A) : Prop :=
  match p, q with
  | Returned a c, Returned b d => a = b ∧ stdin c = stdin d
  | EOFError, EOFError => True
  | Uncaught k, Uncaught k' => k = k'
  | _, _ => False
  end.

(** * Properties of the pipeline *)

(** ** Strings *)

Section string_facts.

Implicit Types (s t w : string) (c : ascii) (p : ascii -> bool).

Lemma app_cons c s t : String c s +:+ t = String c (s +:+ t).
Proof. reflexivity. Qed.

Lemma app_nil_l_s s : "" +:+ s = s.
Proof. reflexivity. Qed.

Lemma app_nil_r_s s : s +:+ "" = s.
Proof. induction s as [|c s IH]; [done|]. by rewrite app_cons, IH. Qed.

Lemma app_assoc_s s t w : (s +:+ t) +:+ w = s +:+ t +:+ w.
Proof. induction s as [|c s IH]; [done|]. by rewrite !app_cons, IH. Qed.

Lemma length_app_s s t : String.length (s +:+ t) = String.length s + String.length t.
Proof. induction s as [|c s IH]; [done|]. rewrite ?app_cons; simpl. by rewrite IH. Qed.

Lemma all_chars_app p s t :
  Py.all_chars p (s +:+ t) = Py.all_chars p s && Py.all_chars p t.
Proof.
  induction s as [|c s IH]; [done|]. rewrite ?app_cons; simpl.
  by rewrite IH, andb_assoc.
Qed.

Lemma take_drop_s n s : PyStr.take n s +:+ PyStr.drop n s = s.
Proof.
  revert s. induction n as [|n IH]; intros [|c s]; try done.
  simpl. by rewrite app_cons, IH.
Qed.

Lemma take_app_length s t : PyStr.take (String.length s) (s +:+ t) = s.
Proof. induction s as [|c s IH]; [by destruct t|]. rewrite ?app_cons; simpl. by rewrite IH. Qed.

Lemma drop_app_length s t : PyStr.drop (String.length s) (s +:+ t) = t.
Proof. induction s as [|c s IH]; [done|]. rewrite ?app_cons; simpl. by rewrite IH. Qed.

Lemma lstrip_by_app_all p w s :
  Py.all_chars p w = true → Py.lstrip_by p (w +:+ s) = Py.lstrip_by p s.
Proof.
  induction w as [|c w IH]; [done|]. simpl. intros [Hc Hw]%andb_prop.
  rewrite ?app_cons; simpl. rewrite ?Hc. by apply IH.
Qed.

Lemma lstrip_by_head p c s : p c = false → Py.lstrip_by p (String c s) = String c s.
Proof. intros H. simpl. by rewrite H. Qed.

(** What [lstrip] removes is a blank prefix. *)
Lemma lstrip_by_split p s :
  ∃ w, s = w +:+ Py.lstrip_by p s ∧ Py.all_chars p w = true.
Proof.
  induction s as [|c s (w & Hs & Hw)]; [by exists ""|]. simpl.
  destruct (p c) eqn:Hc.
  - exists (String c w). rewrite app_cons, <- Hs. simpl. by rewrite Hc, Hw.
  - by exists "".
Qed.

Lemma lstrip_by_empty p s :
  Py.lstrip_by p s = "" ↔ Py.all_chars p s = true.
Proof.
  induction s as [|c s IH]; [done|]. simpl. destruct (p c); [done|].
  split; [done|]. intros H. discriminate H.
Qed.

Lemma rstrip_by_empty p s :
  Py.rstrip_by p s = "" ↔ Py.all_chars p s = true.
Proof.
  induction s as [|c s IH]; [done|]. simpl.
  destruct (Py.rstrip_by p s) eqn:Hr; simpl.
  - destruct (p c); simpl; [by rewrite <- IH|]. split; [done|]. intros H. discriminate H.
  - split; [done|]. intros [_ H]%andb_prop. apply IH in H. done.
Qed.

(** What [rstrip] removes is a blank suffix. *)
Lemma rstrip_by_split p s :
  ∃ w, s = Py.rstrip_by p s +:+ w ∧ Py.all_chars p w = true.
Proof.
  induction s as [|c s (w & Hs & Hw)]; [by exists ""|]. simpl.
  destruct (Py.is_empty (Py.rstrip_by p s) && p c) eqn:Hc.
  - apply andb_prop in Hc as [He Hpc]. exists (String c s). split; [done|].
    simpl. rewrite Hpc. simpl. apply rstrip_by_empty.
    by destruct (Py.rstrip_by p s).
  - exists w. by rewrite app_cons, <- Hs.
Qed.

Lemma rstrip_by_app_keep p s t :
  Py.rstrip_by p t ≠ "" → Py.rstrip_by p (s +:+ t) = s +:+ Py.rstrip_by p t.
Proof.
  intros Ht. induction s as [|c s IH]; [done|]. rewrite ?app_cons; simpl.
  rewrite IH. destruct (s +:+ Py.rstrip_by p t) eqn:Hs; [|done].
  destruct s; [|done]. done.
Qed.

Lemma rstrip_by_app_all p s w :
  Py.all_chars p w = true → Py.rstrip_by p (s +:+ w) = Py.rstrip_by p s.
Proof.
  intros Hw. induction s as [|c s IH].
  - simpl. by apply rstrip_by_empty.
  - rewrite ?app_cons; simpl. by rewrite IH.
Qed.

Lemma rstrip_by_none p s :
  Py.all_chars (fun c => negb (p c)) s = true → Py.rstrip_by p s = s.
Proof.
  induction s as [|c s IH]; [done|]. simpl. intros [Hc Hs]%andb_prop.
  rewrite IH by done. apply negb_true_iff in Hc. rewrite Hc.
  by rewrite andb_false_r.
Qed.

Lemma strip_empty s : Py.strip s = "" ↔ blank s.
Proof.
  unfold Py.strip, Py.lstrip, Py.rstrip, blank. rewrite lstrip_by_empty.
  destruct (rstrip_by_split Py.is_space s) as (w & Hs & Hw).
  rewrite Hs at 2. rewrite all_chars_app, Hw, andb_true_r. done.
Qed.

(** A string is its trimmed text between two blank strings. *)
Lemma strip_split s : ∃ w1 w2, s = w1 +:+ Py.strip s +:+ w2 ∧ blank w1 ∧ blank w2.
Proof.
  destruct (rstrip_by_split Py.is_space s) as (w2 & Hs & Hw2).
  destruct (lstrip_by_split Py.is_space (Py.rstrip_by Py.is_space s)) as (w1 & Hr & Hw1).
  exists w1, w2. split; [|done]. unfold Py.strip, Py.lstrip, Py.rstrip.
  by rewrite <- app_assoc_s, <- Hr.
Qed.

Lemma startswith_spec s t :
  Py.startswith s t = true ↔ ∃ post, s = t +:+ post.
Proof.
  revert s. induction t as [|c t IH]; intros s.
  { split; [by exists s|by destruct s]. }
  destruct s as [|d s]; simpl.
  { split; [done|]. by intros [post ?]. }
  case_decide as Hcd.
  - subst d. rewrite IH. split; intros [post Hp]; exists post.
    + by rewrite app_cons, <- Hp.
    + rewrite app_cons in Hp. by injection Hp.
  - split; [done|]. intros [post Hp]. rewrite app_cons in Hp. by injection Hp.
Qed.


End string_facts.

(** ** The tag parser *)

Section parser_facts.

Implicit Types (st : PState) (raw : string) (lines block : list string).

Lemma parse_line_ER st raw :
  is_ER raw = true →
  parse_line st raw =
    {| records := records st ++ (if decide (current st = ∅) then [] else [current st]);
       current := ∅; last_tag := None |}.
Proof.
  unfold is_ER, line_tag, parse_line. intros H%bool_decide_eq_true.
  destruct (TAG_LINE_RE_match _) as [[t v]|]; [|done].
  injection H as H. rewrite H. rewrite decide_True by done.
  unfold start_new, finish_one; simpl.
  destruct (decide (current st = ∅)); by rewrite ?app_nil_r.
Qed.

Lemma parse_line_not_ER st raw rs :
  is_ER raw = false →
  parse_line (set_records rs st) raw = set_records rs (parse_line st raw).
Proof.
  unfold is_ER, line_tag, parse_line. intros H%bool_decide_eq_false.
  destruct (TAG_LINE_RE_match _) as [[t v]|]; simpl.
  - case_decide; [congruence|done].
  - destruct (last_tag st); [|done]. by destruct (Py.truthy _).
Qed.

Lemma parse_from_not_ER block st rs :
  Forall (fun raw => is_ER raw = false) block →
  parse_from (set_records rs st) block = set_records rs (parse_from st block).
Proof.
  intros H. revert st. induction H as [|raw block Hraw _ IH]; intros st; [done|].
  simpl. rewrite parse_line_not_ER by done. apply IH.
Qed.

Lemma records_parse_from_not_ER block st :
  Forall (fun raw => is_ER raw = false) block →
  records (parse_from st block) = records st.
Proof.
  intros H. revert st. induction H as [|raw block Hraw _ IH]; intros st; [done|].
  simpl. rewrite IH. unfold parse_line.
  unfold is_ER, line_tag in Hraw. apply bool_decide_eq_false in Hraw.
  destruct (TAG_LINE_RE_match _) as [[t v]|]; simpl.
  - case_decide; [congruence|done].
  - destruct (last_tag st); [|done]. by destruct (Py.truthy _).
Qed.

Lemma parse_from_snoc st block raw :
  parse_from st (block ++ [raw]) = parse_line (parse_from st block) raw.
Proof. unfold parse_from. by rewrite foldl_app. Qed.

(** The output of the parser, block by block: every block closed by an
    end-of-record marker contributes its record when that is not empty. *)
Lemma records_parse_from_blocks lines acc rs :
  records (parse_from (set_records rs (parse_from start_state (reverse acc))) lines)
  = rs ++ filter (fun r => r ≠ ∅) (build_record <$> blocks_go acc lines).
Proof.
  revert acc rs. induction lines as [|raw rest IH]; intros acc rs.
  { simpl. by rewrite filter_nil, app_nil_r. }
  cbn [parse_from foldl blocks_go]. fold (parse_from).
  destruct (is_ER raw) eqn:HER.
  - rewrite parse_line_ER by done. cbn [set_records records current].
    fold (build_record (reverse acc)).
    pose proof (IH [] (rs ++ (if decide (build_record (reverse acc) = ∅)
                               then [] else [build_record (reverse acc)]))) as IH'.
    change (parse_from start_state (reverse [])) with start_state in IH'.
    unfold set_records, start_state in IH'. cbn [current last_tag] in IH'.
    unfold parse_from in IH' at 1. rewrite IH'.
    rewrite fmap_cons, filter_cons. rewrite <- (assoc_L (++)).
    destruct (decide (build_record (reverse acc) = ∅)) as [He|Hne].
    + rewrite decide_False by (intros H; by apply H). done.
    + rewrite decide_True by done. done.
  - rewrite parse_line_not_ER by done.
    rewrite <- parse_from_snoc, <- reverse_cons. apply IH.
Qed.

Lemma parse_ris_file_blocks lines :
  parse_ris_file lines
  = filter (fun r => r ≠ ∅) (build_record <$> terminated_blocks lines).
Proof.
  unfold parse_ris_file, terminated_blocks.
  exact (records_parse_from_blocks lines [] []).
Qed.

Lemma add_value_nonempty tag val (cur : Record_) : add_value tag val cur ≠ ∅.
Proof.
  unfold add_value. destruct (cur !! tag) as [[?|?]|]; apply insert_non_empty.
Qed.

Lemma continuation_nonempty lt line (cur : Record_) : continuation lt line cur ≠ ∅.
Proof.
  unfold continuation. destruct (cur !! lt) as [[?|?]|]; apply insert_non_empty.
Qed.

Lemma parse_line_keeps_nonempty st raw :
  is_ER raw = false → current st ≠ ∅ → current (parse_line st raw) ≠ ∅.
Proof.
  unfold is_ER, line_tag, parse_line. intros H%bool_decide_eq_false Hne.
  destruct (TAG_LINE_RE_match _) as [[t v]|]; simpl.
  - case_decide; [congruence|]. apply add_value_nonempty.
  - destruct (last_tag st); [|done].
    destruct (Py.truthy _); [apply continuation_nonempty|done].
Qed.

Lemma parse_line_field_nonempty st raw :
  is_field_line raw = true → current (parse_line st raw) ≠ ∅.
Proof.
  unfold is_field_line, line_tag, parse_line.
  destruct (TAG_LINE_RE_match _) as [[t v]|]; [|done].
  intros H%bool_decide_eq_true. simpl.
  case_decide; [done|]. apply add_value_nonempty.
Qed.

Lemma parse_from_keeps_nonempty block st :
  Forall (fun raw => is_ER raw = false) block →
  current st ≠ ∅ → current (parse_from st block) ≠ ∅.
Proof.
  intros H. revert st. induction H as [|raw block Hraw _ IH]; intros st Hne; [done|].
  simpl. apply IH. by apply parse_line_keeps_nonempty.
Qed.

(** A block without marker that holds a tag line builds a non-empty
    record. *)
Lemma build_record_nonempty block :
  Forall (fun raw => is_ER raw = false) block →
  Exists (fun raw => is_field_line raw = true) block →
  build_record block ≠ ∅.
Proof.
  unfold build_record. generalize start_state.
  intros st HF HE. revert st HF.
  induction HE as [raw block Hraw|raw block _ IH]; intros st HF;
    inversion_clear HF as [|?? H1 H2]; simpl.
  - apply parse_from_keeps_nonempty; [done|]. by apply parse_line_field_nonempty.
  - by apply IH.
Qed.

(** Lines without any tag line leave the parser where it started: a block
    builds a non-empty record only if it holds a tag line. *)
Lemma build_record_no_tag_line block :
  Forall (fun raw => line_tag raw = None) block → build_record block = ∅.
Proof.
  unfold build_record. intros H.
  assert (parse_from start_state block = start_state) as ->; [|done].
  induction block as [|raw block IH] using rev_ind; [done|].
  rewrite Forall_app, Forall_singleton in H. destruct H as [Hblock Hraw].
  rewrite parse_from_snoc, IH by done. unfold parse_line, line_tag in *.
  by destruct (TAG_LINE_RE_match _) as [[t v]|].
Qed.

Lemma blocks_go_no_ER tail acc :
  Forall (fun raw => is_ER raw = false) tail → blocks_go acc tail = [].
Proof.
  intros H. revert acc. induction H as [|raw tail Hraw _ IH]; intros acc; [done|].
  simpl. rewrite Hraw. apply IH.
Qed.

Lemma blocks_go_block block marker rest acc :
  Forall (fun raw => is_ER raw = false) block → is_ER marker = true →
  blocks_go acc (block ++ marker :: rest)
  = (reverse acc ++ block) :: blocks_go [] rest.
Proof.
  intros H HER. revert acc. induction H as [|raw block Hraw _ IH]; intros acc.
  - simpl. rewrite HER. by rewrite app_nil_r.
  - simpl. rewrite Hraw, IH, reverse_cons. by rewrite <- (assoc_L (++)).
Qed.

Lemma terminated_blocks_file_lines recs tail :
  Forall terminated_record recs →
  Forall (fun raw => is_ER raw = false) tail →
  terminated_blocks (file_lines recs tail) = recs.*1.
Proof.
  unfold terminated_blocks, file_lines. intros Hrecs Htail.
  induction Hrecs as [|[b m] recs (Hb & _ & Hm) _ IH].
  - by apply blocks_go_no_ER.
  - rewrite !fmap_cons, concat_cons. cbn [fst snd].
    rewrite <- !(assoc_L (++)). cbn [app].
    rewrite blocks_go_block by done. by rewrite IH.
Qed.

End parser_facts.

Section repeated_tags.

Implicit Types (st : PState) (fs : list (string * string)) (l : list string).

Lemma update_last_snoc f l x : update_last f (l ++ [x]) = l ++ [f x].
Proof.
  induction l as [|y l IH]; [done|].
  simpl. rewrite IH. by destruct l.
Qed.

Lemma values_of_snoc tag fs t v :
  values_of tag (fs ++ [(t, v)])
  = values_of tag fs ++ (if decide (t = tag) then [v] else []).
Proof.
  unfold values_of. rewrite filter_app, fmap_app. f_equal.
  rewrite filter_cons, filter_nil. simpl. by case_decide.
Qed.

Lemma stored_snoc l v :
  stored (l ++ [v]) =
    match stored l with
    | None => Some (Scalar v)
    | Some (Scalar s) => Some (VList [s; v])
    | Some (VList l') => Some (VList (l' ++ [v]))
    end.
Proof. destruct l as [|a [|b l]]; done. Qed.

Lemma stored_snoc_long l v :
  l ≠ [] → stored (l ++ [v]) = Some (VList (l ++ [v])).
Proof. destruct l as [|a [|b l]]; done. Qed.

Lemma tracks_start : tracks start_state [].
Proof. split; [intros tag; apply lookup_empty|done]. Qed.

Lemma tracks_parse_line st fs raw :
  is_ER raw = false → tracks st fs → tracks (parse_line st raw) (field_step fs raw).
Proof.
  unfold is_ER, line_tag, parse_line, field_step.
  intros HER%bool_decide_eq_false [Hcur Hlast].
  destruct (TAG_LINE_RE_match _) as [[t0 v0]|].
  - case_decide; [congruence|]. split; simpl.
    + intros tag. rewrite values_of_snoc. unfold add_value.
      destruct (decide (Py.strip t0 = tag)) as [<-|Hne].
      * rewrite stored_snoc, <- Hcur.
        destruct (current st !! Py.strip t0) as [[s|l]|]; by rewrite lookup_insert_eq.
      * rewrite app_nil_r, <- Hcur.
        destruct (current st !! Py.strip t0) as [[s|l]|]; by rewrite lookup_insert_ne.
    + by rewrite last_snoc.
  - destruct (last_tag st) as [lt|] eqn:Hlt.
    + destruct (Py.truthy _); [|split; [done|congruence]].
      destruct (last fs) as [[t v]|] eqn:Hfs; [|done].
      apply last_Some in Hfs as [before ->]. injection Hlast as ->.
      rewrite reverse_snoc, reverse_involutive. split; simpl.
      * intros tag. rewrite values_of_snoc.
        specialize (Hcur tag) as Htag. rewrite values_of_snoc in Htag.
        destruct (decide (t = tag)) as [<-|Hne].
        -- unfold continuation.
           destruct (values_of t before) as [|a rest] eqn:Hv.
           ++ simpl in Htag |- *. rewrite Htag. by rewrite lookup_insert_eq.
           ++ rewrite stored_snoc_long in Htag by done.
              rewrite Htag, lookup_insert_eq, update_last_snoc.
              by rewrite stored_snoc_long.
        -- rewrite app_nil_r in *. rewrite <- Htag. unfold continuation.
           destruct (current st !! t) as [[s|l]|]; by rewrite lookup_insert_ne.
      * by rewrite last_snoc.
    + destruct fs as [|f fs _] using rev_ind.
      * destruct (Py.truthy _); (split; [done|by rewrite Hlt]).
      * by rewrite last_snoc in Hlast.
Qed.

Lemma fields_snoc block raw :
  fields (block ++ [raw]) = field_step (fields block) raw.
Proof. unfold fields. by rewrite foldl_app. Qed.

Lemma tracks_block block :
  Forall (fun raw => is_ER raw = false) block →
  tracks (parse_from start_state block) (fields block).
Proof.
  induction block as [|raw block IH] using rev_ind; intros H.
  - apply tracks_start.
  - rewrite Forall_app, Forall_singleton in H. destruct H as [Hb Hraw].
    rewrite parse_from_snoc, fields_snoc.
    apply tracks_parse_line; [done|by apply IH].
Qed.

(** The record of a block stores each tag according to its occurrences. *)
Lemma build_record_lookup block tag :
  Forall (fun raw => is_ER raw = false) block →
  build_record block !! tag = stored (occurrences tag block).
Proof. intros H. by destruct (tracks_block block H) as [Hcur _]. Qed.

Lemma blocks_go_not_ER lines acc block :
  Forall (fun raw => is_ER raw = false) acc →
  block ∈ blocks_go acc lines → Forall (fun raw => is_ER raw = false) block.
Proof.
  revert acc. induction lines as [|raw rest IH]; intros acc Hacc; simpl.
  - by intros ?%elem_of_nil.
  - destruct (is_ER raw) eqn:HER.
    + intros [->|Hin]%elem_of_cons; [by apply Forall_reverse|].
      by apply (IH []).
    + apply IH. by constructor.
Qed.

Lemma length_update_last f l : length (update_last f l) = length l.
Proof.
  induction l as [|x l IH]; [done|]. destruct l; [done|].
  change (S (length (update_last f (s :: l))) = S (length (s :: l))). by rewrite IH.
Qed.

Lemma lists_long_insert (cur : Record_) tag v :
  lists_long cur → (∀ l, v = VList l → 2 ≤ length l) →
  lists_long (<[tag := v]> cur).
Proof.
  intros Hcur Hv tag' l. destruct (decide (tag = tag')) as [->|Hne].
  - rewrite lookup_insert_eq. intros [= ->]. by apply Hv.
  - rewrite lookup_insert_ne by done. apply Hcur.
Qed.

Lemma lists_long_parse_line st raw :
  lists_long (current st) → lists_long (current (parse_line st raw)).
Proof.
  intros Hcur. unfold parse_line.
  destruct (TAG_LINE_RE_match _) as [[t0 v0]|].
  - case_decide; simpl; [by intros tag l; rewrite lookup_empty|].
    unfold add_value. destruct (current st !! Py.strip t0) as [[s|l]|] eqn:Ht;
      apply lists_long_insert; try done.
    + intros l' [= <-]. simpl. lia.
    + intros l' [= <-]. rewrite length_app. pose proof (Hcur _ _ Ht). simpl. lia.
  - destruct (last_tag st) as [lt|]; [|done].
    destruct (Py.truthy _); [|done]. simpl.
    unfold continuation. destruct (current st !! lt) as [[s|l]|] eqn:Ht;
      apply lists_long_insert; try done.
    intros l' [= <-]. rewrite length_update_last. by apply (Hcur lt).
Qed.

(** The lists that the parser holds in its record buffer are never empty,
    so replacing their last element is always possible. *)
Lemma parse_lists_long lines : lists_long (current (parse_from start_state lines)).
Proof.
  induction lines as [|raw lines IH] using rev_ind.
  - by intros tag l; simpl; rewrite lookup_empty.
  - rewrite parse_from_snoc. by apply lists_long_parse_line.
Qed.

End repeated_tags.

(** C1. A file that consists of N terminated records (each a block of lines
    with at least one tag line, closed by an [ER] tag line) followed by a
    block that no [ER] line closes is parsed into exactly N records: the
    record of each block, in source order.  The final block contributes
    nothing. *)
Theorem parse_ris_file_terminated_records
    (recs : list (list string * string)) (tail : list string) :
  Forall terminated_record recs →
  Forall (fun raw => is_ER raw = false) tail →
  parse_ris_file (file_lines recs tail) = build_record <$> recs.*1 ∧
  length (parse_ris_file (file_lines recs tail)) = length recs.
Proof.
  intros Hrecs Htail.
  assert (parse_ris_file (file_lines recs tail) = build_record <$> recs.*1) as ->.
  { rewrite parse_ris_file_blocks, terminated_blocks_file_lines by done.
    clear Htail. induction Hrecs as [|[b m] recs (Hb & Hf & _) _ IH]; [done|].
    rewrite !fmap_cons, filter_cons_True; [by rewrite IH|].
    by apply build_record_nonempty. }
  split; [done|]. by rewrite !length_fmap.
Qed.

Lemma parse_ris_file_terminated_records_witness :
  let recs := [ (["TY  - JOUR"; "TI  - First"; "AU  - Doe, J."], "ER  - ");
                (["TY  - CONF"; "TI  - Second"], "ER  -") ] in
  let tail := ["TY  - JOUR"; "TI  - Never closed"] in
  parse_ris_file (file_lines recs tail) = build_record <$> recs.*1 ∧
  length (parse_ris_file (file_lines recs tail)) = length recs.
Proof.
  intros recs tail.
  apply (parse_ris_file_terminated_records recs tail);
    apply (bool_decide_unpack _); vm_compute; exact I.
Defined.


(** C2. Every record that the parser returns is the record of a block of the
    input closed by an end-of-record marker, and it stores each tag of that
    block by its number of occurrences: a tag that occurs once is a scalar
    string, a tag that occurs k > 1 times is the list of its k values in
    source order, and a tag that does not occur is absent. *)
Theorem parse_ris_file_repeated_tags (lines : list string) (r : Record_) :
  r ∈ parse_ris_file lines →
  ∃ block, block ∈ terminated_blocks lines ∧ r = build_record block ∧
    ∀ tag,
      (∀ v, occurrences tag block = [v] → r !! tag = Some (Scalar v)) ∧
      (∀ vs, occurrences tag block = vs → 1 < length vs →
             r !! tag = Some (VList vs)) ∧
      (occurrences tag block = [] → r !! tag = None).
Proof.
  rewrite parse_ris_file_blocks. intros [_ Hr]%list_elem_of_filter.
  apply list_elem_of_fmap in Hr as (block & -> & Hblock).
  exists block. split_and!; [done..|]. intros tag.
  assert (Forall (fun raw => is_ER raw = false) block) as HnoER.
  { by apply (blocks_go_not_ER lines [] block). }
  rewrite build_record_lookup by done. split_and!.
  - by intros v ->.
  - intros vs -> Hlen. by destruct vs as [|a [|b vs]]; [simpl in Hlen; lia..|].
  - by intros ->.
Qed.

Lemma parse_ris_file_repeated_tags_witness :
  let lines := ["TY  - JOUR"; "AU  - Doe, J."; "TI  - A title"; "AU  - Roe, K.";
                "AU  - Poe, E."; "ER  - "] in
  let r := build_record (take 5 lines) in
  ∃ block, block ∈ terminated_blocks lines ∧ r = build_record block ∧
    ∀ tag,
      (∀ v, occurrences tag block = [v] → r !! tag = Some (Scalar v)) ∧
      (∀ vs, occurrences tag block = vs → 1 < length vs →
             r !! tag = Some (VList vs)) ∧
      (occurrences tag block = [] → r !! tag = None).
Proof.
  intros lines r.
  apply (parse_ris_file_repeated_tags lines r).
  apply (bool_decide_unpack _). vm_compute. exact I.
Defined.

(** ** The provider label *)

Section index_facts.

Variable urlparse_netloc : string -> option string.



Lemma provider_lookup_table host m :
  provider_lookup host m = table_lookup (Py.contains host) m.
Proof. induction m as [|[k v] m IH]; [done|]. simpl. by rewrite IH. Qed.

Lemma doi_prefix_label_table doi :
  doi_prefix_label doi = table_lookup (Py.startswith doi) DOI_PREFIX_TABLE.
Proof. reflexivity. Qed.



End index_facts.

(** ** The cleaning of the fallback *)

Section fallback_facts.

Import YearSpec.












End fallback_facts.



Example index_from_record_acm :
  index_from_record netloc_cpython
    {[ "UR" := Scalar "https://dl.acm.org/doi/10.1145/3368089" ]} "folder"
  = "ACM Digital Library".
Proof. vm_compute. done. Qed.

Example index_from_record_ieee :
  index_from_record netloc_cpython
    {[ "DO" := Scalar "10.1109/5.771073" ]} "folder"
  = "IEEE Xplore".
Proof. vm_compute. done. Qed.

Example index_from_record_fallback :
  index_from_record netloc_cpython {[ "TI" := Scalar "A title" ]} "ieee_exports" = "Ieee"
  ∧ index_from_record netloc_cpython {[ "TI" := Scalar "A title" ]} "_exports_"
    = "Unknown Source".
Proof. vm_compute. done. Qed.

(** The other fields of a row, on the examples of the specification. *)
Example clean_doi_examples :
  clean_doi "https://doi.org/10.1109/ABC" = "10.1109/ABC" ∧
  clean_doi "HTTP://DOI.ORG/10.1109/ABC" = "10.1109/ABC" ∧
  clean_doi "10.1109/ABC" = "10.1109/ABC".
Proof. by vm_compute. Qed.

Example surname_from_author_examples :
  surname_from_author "Smith, John" = "Smith" ∧
  surname_from_author "John Smith" = "Smith" ∧
  surname_from_author "" = "".
Proof. by vm_compute. Qed.

(** ** The year *)

Section year_facts.

Import YearSpec.


Lemma year_here_take s : year_here s = true → year_here (PyStr.take 4 s) = true
  ∧ String.length (PyStr.take 4 s) = 4.
Proof.
  destruct s as [|a [|b [|c [|d rest]]]]; try done. simpl. intros H.
  apply andb_prop in H as [H _]. by rewrite H.
Qed.





End year_facts.

Section year_spec_facts.

Import YearSpec.






End year_spec_facts.




(** ** The year range *)

Section year_range_facts.

Implicit Types (s y w : string).

Lemma digit_not_space c : Py.is_digit c = true → Py.is_space c = false.
Proof.
  unfold Py.is_digit, Py.is_space. generalize (Py.code c). intros n.
  intros [H1 H2]%andb_prop. apply N.leb_le in H1, H2.
  apply orb_false_iff. split; apply andb_false_iff.
  - right. apply N.leb_gt. lia.
  - right. apply N.leb_gt. lia.
Qed.

Lemma four_digits_length y : four_digits y = true → String.length y = 4.
Proof. unfold four_digits. by intros [H%bool_decide_eq_true _]%andb_prop. Qed.

Lemma four_digits_head y :
  four_digits y = true → ∃ c y', y = String c y' ∧ Py.is_space c = false.
Proof.
  unfold four_digits. intros [Hlen%bool_decide_eq_true Hd]%andb_prop.
  destruct y as [|c y']; [done|]. simpl in Hd. apply andb_prop in Hd as [Hc _].
  exists c, y'. split; [done|]. by apply digit_not_space.
Qed.

Lemma four_digits_rstrip y : four_digits y = true → Py.rstrip y = y ∧ y ≠ "".
Proof.
  intros H. split; [|by destruct (four_digits_head y H) as (c & y' & -> & _)].
  apply rstrip_by_none. unfold four_digits in H. apply andb_prop in H as [_ H].
  clear -H. induction y as [|c y IH]; [done|]. simpl in *.
  apply andb_prop in H as [Hc Hy]. by rewrite (digit_not_space c Hc), IH.
Qed.

Lemma lstrip_four_digits y s : four_digits y = true → Py.lstrip (y +:+ s) = y +:+ s.
Proof.
  intros (c & y' & -> & Hc)%four_digits_head. rewrite app_cons.
  by apply lstrip_by_head.
Qed.

Lemma take_four_digits y s : four_digits y = true → PyStr.take 4 (y +:+ s) = y.
Proof. intros H. rewrite <- (four_digits_length y H). apply take_app_length. Qed.

Lemma drop_four_digits y s : four_digits y = true → PyStr.drop 4 (y +:+ s) = s.
Proof. intros H. rewrite <- (four_digits_length y H). apply drop_app_length. Qed.

Lemma lstrip_blank_four_digits w y s :
  blank w → four_digits y = true → Py.lstrip (w +:+ y +:+ s) = y +:+ s.
Proof.
  intros Hw Hy. unfold Py.lstrip. rewrite lstrip_by_app_all by done.
  by apply lstrip_four_digits.
Qed.

Lemma year_range_match_complete s y1 y2 :
  year_range_form s y1 y2 → YEAR_RANGE_RE_match s = Some (y1, y2).
Proof.
  intros (w1 & w2 & w3 & w4 & -> & H1 & H2 & H3 & H4 & Hy1 & Hy2).
  unfold YEAR_RANGE_RE_match. cbv zeta.
  rewrite !lstrip_blank_four_digits by done.
  rewrite !take_four_digits, !drop_four_digits, Hy1 by done.
  assert (Py.lstrip (w2 +:+ "-" +:+ w3 +:+ y2 +:+ w4)
          = String "-"%char (w3 +:+ y2 +:+ w4)) as ->.
  { unfold Py.lstrip. rewrite lstrip_by_app_all by done. by apply lstrip_by_head. }
  rewrite !lstrip_blank_four_digits by done.
  rewrite !take_four_digits, !drop_four_digits, Hy2 by done.
  unfold Py.lstrip. by rewrite (proj2 (lstrip_by_empty _ _) H4).
Qed.

Lemma year_range_match_sound s y1 y2 :
  YEAR_RANGE_RE_match s = Some (y1, y2) → year_range_form s y1 y2.
Proof.
  unfold YEAR_RANGE_RE_match.
  destruct (lstrip_by_split Py.is_space s) as (w1 & Hs & Hw1). fold Py.lstrip in Hs.
  destruct (four_digits (PyStr.take 4 (Py.lstrip s))) eqn:Hy1; [|done].
  destruct (lstrip_by_split Py.is_space (PyStr.drop 4 (Py.lstrip s)))
    as (w2 & Hd & Hw2). fold Py.lstrip in Hd.
  destruct (Py.lstrip (PyStr.drop 4 (Py.lstrip s))) as [|c s2] eqn:Hs2; [done|].
  destruct (decide (c = "-"%char)) as [->|Hc];
    [|by destruct c as [[] [] [] [] [] [] [] []]].
  destruct (four_digits (PyStr.take 4 (Py.lstrip s2))) eqn:Hy2; [|done].
  destruct (lstrip_by_split Py.is_space s2) as (w3 & Hs3 & Hw3). fold Py.lstrip in Hs3.
  destruct (Py.is_empty (Py.lstrip (PyStr.drop 4 (Py.lstrip s2)))) eqn:He; [|done].
  intros Heq. assert (y1 = PyStr.take 4 (Py.lstrip s)) as -> by congruence.
  assert (y2 = PyStr.take 4 (Py.lstrip s2)) as -> by congruence. clear Heq.
  exists w1, w2, w3, (PyStr.drop 4 (Py.lstrip s2)).
  split; [|split_and!; try done].
  - transitivity (w1 +:+ Py.lstrip s); [done|]. f_equal.
    transitivity (PyStr.take 4 (Py.lstrip s) +:+ PyStr.drop 4 (Py.lstrip s));
      [by rewrite take_drop_s|]. f_equal.
    rewrite Hd. f_equal. change ("-" +:+ ?x) with (String "-"%char x). f_equal.
    transitivity (w3 +:+ Py.lstrip s2); [done|]. f_equal. by rewrite take_drop_s.
  - apply lstrip_by_empty. fold Py.lstrip.
    by destruct (Py.lstrip (PyStr.drop 4 (Py.lstrip s2))).
Qed.

Lemma blank_app w1 w2 : blank w1 → blank w2 → blank (w1 +:+ w2).
Proof. unfold blank. intros H1 H2. by rewrite all_chars_app, H1, H2. Qed.

Lemma year_range_form_strip_core w1 w4 core :
  blank w1 → blank w4 →
  (∃ y pre, core = pre +:+ y ∧ four_digits y = true) →
  (∃ y post, core = y +:+ post ∧ four_digits y = true) →
  Py.strip (w1 +:+ core +:+ w4) = core.
Proof.
  intros H1 H4 (y2 & pre & Hpre & Hy2) (y1 & post & Hpost & Hy1).
  unfold Py.strip, Py.rstrip. rewrite <- app_assoc_s.
  rewrite rstrip_by_app_all by done.
  destruct (four_digits_rstrip y2 Hy2) as [Hr Hne].
  assert (Py.rstrip_by Py.is_space core = core) as Hcore.
  { rewrite Hpre. unfold Py.rstrip in Hr.
    rewrite rstrip_by_app_keep by (by rewrite Hr). by rewrite Hr. }
  rewrite rstrip_by_app_keep; rewrite Hcore.
  - unfold Py.lstrip. rewrite lstrip_by_app_all by done. fold Py.lstrip.
    rewrite Hpost. by apply lstrip_four_digits.
  - rewrite Hpre. destruct pre; [done|done].
Qed.

(** The pattern matches the trimmed text exactly when the text has the form
    YYYY-YYYY with optional blanks. *)
Lemma year_range_match_strip s y1 y2 :
  YEAR_RANGE_RE_match (Py.strip s) = Some (y1, y2) ↔ year_range_form s y1 y2.
Proof.
  split.
  - intros (w1 & w2 & w3 & w4 & Hs & H1 & H2 & H3 & H4 & Hy1 & Hy2)%year_range_match_sound.
    destruct (strip_split s) as (a & b & Hab & Ha & Hb).
    exists (a +:+ w1), w2, w3, (w4 +:+ b).
    split_and!; try done; [|by apply blank_app..].
    rewrite Hab at 1. rewrite Hs. by rewrite !app_assoc_s.
  - intros (w1 & w2 & w3 & w4 & -> & H1 & H2 & H3 & H4 & Hy1 & Hy2).
    assert (Py.strip (w1 +:+ y1 +:+ w2 +:+ "-" +:+ w3 +:+ y2 +:+ w4)
            = y1 +:+ w2 +:+ "-" +:+ w3 +:+ y2) as ->.
    { pose proof (year_range_form_strip_core w1 w4
                    (y1 +:+ w2 +:+ "-" +:+ w3 +:+ y2) H1 H4) as Hcore.
      rewrite !app_assoc_s in Hcore. apply Hcore.
      - exists y2, (y1 +:+ w2 +:+ "-" +:+ w3). by rewrite !app_assoc_s.
      - by exists y1, (w2 +:+ "-" +:+ w3 +:+ y2). }
    apply year_range_match_complete.
    exists "", w2, w3, "". by rewrite app_nil_r_s.
Qed.

End year_range_facts.



(** ** The filter engine *)

Section filter_facts.

Implicit Types (df : list Row) (r : Row) (terms : list string).

Lemma filter_filter_andb {A} (f g : A → bool) (l : list A) :
  List.filter g (List.filter f l) = List.filter (fun x => f x && g x) l.
Proof.
  induction l as [|x l IH]; [done|]. simpl.
  destruct (f x); simpl; [|done]. destruct (g x); by rewrite IH.
Qed.

Lemma filter_true {A} (l : list A) : List.filter (fun _ => true) l = l.
Proof. induction l as [|x l IH]; [done|]. simpl. by rewrite IH. Qed.

Lemma filter_sublist {A} (f : A → bool) (l : list A) : List.filter f l `sublist_of` l.
Proof.
  induction l as [|x l IH]; [done|]. simpl.
  destruct (f x); [by apply sublist_skip|by apply sublist_cons].
Qed.

Lemma year_ok_true min_year max_year y :
  year_ok min_year max_year y = true ↔
  Py.isdigit (Py.strip y) = true ∧
  (∀ m, min_year = Some m → (m ≤ Py.int_of_digits (Py.strip y))%Z) ∧
  (∀ m, max_year = Some m → (Py.int_of_digits (Py.strip y) ≤ m)%Z).
Proof.
  unfold year_ok. destruct (Py.isdigit (Py.strip y)); simpl.
  2: { split; [done|]. by intros [? _]. }
  generalize (Py.int_of_digits (Py.strip y)). intros yi. split.
  - intros H. split; [done|]. split; intros m ->.
    + destruct (Z.ltb_spec yi m); [done|lia].
    + destruct (match min_year with Some m0 => (yi <? m0)%Z | None => false end);
        [done|]. destruct (Z.gtb_spec yi m); [done|lia].
  - intros (_ & Hlo & Hhi).
    assert (match min_year with Some m => (yi <? m)%Z | None => false end = false) as ->.
    { destruct min_year as [lo|]; [|done]. specialize (Hlo lo eq_refl).
      apply Z.ltb_ge. lia. }
    assert (match max_year with Some m => (yi >? m)%Z | None => false end = false) as ->.
    { destruct max_year as [hi|]; [|done]. specialize (Hhi hi eq_refl).
      destruct (Z.gtb_spec yi hi); [lia|done]. }
    done.
Qed.



End filter_facts.




(** ** The deduplicator *)

Section dedup_facts.

Context {K : Type} `{EqDecision K} (key : Row → K).

Implicit Types (df l : list Row) (r : Row) (seen : list K).

Lemma drop_duplicates_go_snoc seen l r :
  drop_duplicates_go key seen (l ++ [r])
  = drop_duplicates_go key seen l
    ++ (if bool_decide (key r ∈ seen ++ (key <$> l)) then [] else [r]).
Proof.
  revert seen. induction l as [|x l IH]; intros seen.
  { simpl. rewrite app_nil_r. by destruct (bool_decide (key r ∈ seen)). }
  cbn [app drop_duplicates_go]. destruct (bool_decide (key x ∈ seen)) eqn:Hx.
  - rewrite IH. f_equal. apply bool_decide_eq_true in Hx.
    erewrite bool_decide_ext; [done|]. rewrite fmap_cons, !elem_of_app, elem_of_cons.
    split; [tauto|]. intros [?|[Heq|?]]; [tauto|rewrite Heq; tauto|tauto].
  - rewrite IH. cbn [app]. do 2 f_equal.
    erewrite bool_decide_ext; [done|].
    rewrite fmap_cons, elem_of_cons, !elem_of_app, elem_of_cons. tauto.
Qed.

(** The model of [drop_duplicates] keeps the first row of each key. *)
Lemma drop_duplicates_keeps_first l : keeps_first key l (drop_duplicates key l).
Proof.
  induction l as [|r l IH] using rev_ind; [constructor|].
  unfold drop_duplicates. rewrite drop_duplicates_go_snoc. cbn [app].
  case_bool_decide as Hin.
  - rewrite app_nil_r. by constructor.
  - by constructor.
Qed.

Lemma drop_duplicates_go_sublist seen l : drop_duplicates_go key seen l `sublist_of` l.
Proof.
  revert seen. induction l as [|x l IH]; intros seen; [done|]. simpl.
  case_bool_decide; [by apply sublist_cons|by apply sublist_skip].
Qed.

Lemma drop_duplicates_go_id seen l :
  NoDup (key <$> l) → (∀ r, r ∈ l → key r ∉ seen) →
  drop_duplicates_go key seen l = l.
Proof.
  revert seen. induction l as [|x l IH]; intros seen Hnd Hseen; [done|].
  rewrite fmap_cons in Hnd. apply NoDup_cons in Hnd as [Hx Hnd]. simpl.
  rewrite bool_decide_eq_false_2 by (apply Hseen; left).
  f_equal. apply IH; [done|]. intros r Hr [Heq|Hin]%elem_of_cons.
  - apply Hx. apply list_elem_of_fmap. by exists r.
  - apply (Hseen r); [by right|done].
Qed.

Lemma drop_duplicates_go_NoDup seen l :
  NoDup (key <$> drop_duplicates_go key seen l) ∧
  ∀ r, r ∈ drop_duplicates_go key seen l → key r ∉ seen.
Proof.
  revert seen. induction l as [|x l IH]; intros seen.
  { split; [constructor|]. by intros r ?%elem_of_nil. }
  simpl. case_bool_decide as Hx; [apply IH|].
  destruct (IH (key x :: seen)) as [Hnd Hout]. split.
  - rewrite fmap_cons. apply NoDup_cons. split; [|done].
    intros (r & Hr & Hin)%list_elem_of_fmap. apply (Hout r Hin). rewrite Hr. left.
  - intros r [->|Hin]%elem_of_cons; [done|].
    intros Hs. apply (Hout r Hin). by right.
Qed.

Lemma drop_duplicates_idempotent l :
  drop_duplicates key (drop_duplicates key l) = drop_duplicates key l.
Proof.
  unfold drop_duplicates at 1. apply drop_duplicates_go_id.
  - apply drop_duplicates_go_NoDup.
  - intros r _. apply not_elem_of_nil.
Qed.

End dedup_facts.

Section deduplicate_facts.

Implicit Types (df : list Row) (r : Row).

Lemma deduplicate_unfold df :
  deduplicate df
  = drop_duplicates doi_key (List.filter doi_nonempty df)
    ++ drop_duplicates triple_key (List.filter (fun r => negb (doi_nonempty r)) df).
Proof. by destruct df. Qed.

Lemma elem_of_list_filter (f : Row → bool) df r :
  r ∈ List.filter f df ↔ r ∈ df ∧ f r = true.
Proof. rewrite !list_elem_of_In. apply filter_In. Qed.

Lemma filter_all (f : Row → bool) df :
  Forall (fun r => f r = true) df → List.filter f df = df.
Proof.
  induction 1 as [|r df Hr _ IH]; [done|]. simpl. by rewrite Hr, IH.
Qed.

Lemma filter_none (f : Row → bool) df :
  Forall (fun r => f r = false) df → List.filter f df = [].
Proof.
  induction 1 as [|r df Hr _ IH]; [done|]. simpl. by rewrite Hr, IH.
Qed.

Lemma filter_app_s (f : Row → bool) df1 df2 :
  List.filter f (df1 ++ df2) = List.filter f df1 ++ List.filter f df2.
Proof. apply List.filter_app. Qed.

Lemma drop_duplicates_filter {K} `{EqDecision K} (key : Row → K) (f : Row → bool) df :
  Forall (fun r => f r = true) (drop_duplicates key (List.filter f df)).
Proof.
  apply Forall_forall. intros r Hr.
  eapply elem_of_sublist in Hr; [|apply drop_duplicates_go_sublist].
  by apply elem_of_list_filter in Hr as [_ ?].
Qed.

End deduplicate_facts.

(** C5.  [deduplicate] returns the rows with a DOI followed by the rows
    without one.  The first part keeps the first-encountered row per DOI
    among the rows whose trimmed DOI is not empty, the second part the
    first-encountered row per (Title, Year, Author Name) among the others;
    each part is a subsequence of the input, so it keeps the original
    relative order, and the two parts are not interleaved again.  The four
    rows of the example give two rows.  Rows without DOI that differ in
    the title, the year or the author alone are all kept, and so are rows
    whose DOIs differ, be it in letter case only. *)
Theorem deduplicate_spec :
  (∀ df, ∃ with_doi no_doi,
     deduplicate df = with_doi ++ no_doi ∧
     keeps_first DOI (List.filter has_doi df) with_doi ∧
     keeps_first article_triple
       (List.filter (fun r => negb (has_doi r)) df) no_doi ∧
     with_doi `sublist_of` df ∧ no_doi `sublist_of` df ∧
     Forall (fun r => Py.strip (DOI r) ≠ "") with_doi ∧
     Forall (fun r => Py.strip (DOI r) = "") no_doi) ∧
  deduplicate example_rows
    = [example_row "10.1/A" "" "" ""; example_row "" "T" "2020" "X"] ∧
  length (deduplicate example_rows) = 2 ∧
  deduplicate [example_row "" "T" "2020" "X"; example_row "10.1/A" "" "" ""]
    = [example_row "10.1/A" "" "" ""; example_row "" "T" "2020" "X"] ∧
  deduplicate example_triples
    = [ example_row "" "T" "2020" "X"; example_row "" "U" "2020" "X";
        example_row "" "T" "2021" "X"; example_row "" "T" "2020" "Y" ] ∧
  deduplicate example_dois
    = [ example_row "10.1/A" "T" "2020" "X"; example_row "10.1/B" "T" "2020" "X";
        example_row "10.1/a" "T" "2020" "X" ].
Proof.
  split_and!; [|by vm_compute..].
  intros df.
  assert (∀ l, List.filter has_doi l = List.filter doi_nonempty l) as Hwith.
  { intros l. apply List.filter_ext. intros r. unfold has_doi, doi_nonempty.
    by destruct (Py.strip (DOI r)). }
  assert (∀ l, List.filter (fun r => negb (has_doi r)) l
               = List.filter (fun r => negb (doi_nonempty r)) l) as Hno.
  { intros l. apply List.filter_ext. intros r. unfold has_doi, doi_nonempty.
    by destruct (Py.strip (DOI r)). }
  exists (drop_duplicates doi_key (List.filter doi_nonempty df)),
    (drop_duplicates triple_key (List.filter (fun r => negb (doi_nonempty r)) df)).
  rewrite Hwith, Hno. split_and!.
  - apply deduplicate_unfold.
  - apply (drop_duplicates_keeps_first DOI).
  - apply (drop_duplicates_keeps_first article_triple).
  - etrans; [apply drop_duplicates_go_sublist|apply filter_sublist].
  - etrans; [apply drop_duplicates_go_sublist|apply filter_sublist].
  - eapply Forall_impl; [apply drop_duplicates_filter|].
    intros r. unfold doi_nonempty. by destruct (Py.strip (DOI r)).
  - eapply Forall_impl;
      [apply (drop_duplicates_filter triple_key (fun r => negb (doi_nonempty r)))|].
    intros r. unfold doi_nonempty. by destruct (Py.strip (DOI r)).
Qed.

(** C9.  Deduplicating twice gives the same rows in the same order as
    deduplicating once. *)
Theorem deduplicate_idempotent (df : list Row) :
  deduplicate (deduplicate df) = deduplicate df.
Proof.
  rewrite (deduplicate_unfold df).
  set (A := drop_duplicates doi_key (List.filter doi_nonempty df)).
  set (B := drop_duplicates triple_key
              (List.filter (fun r => negb (doi_nonempty r)) df)).
  assert (Forall (fun r => doi_nonempty r = true) A) as HA
    by apply drop_duplicates_filter.
  assert (Forall (fun r => negb (doi_nonempty r) = true) B) as HB
    by apply (drop_duplicates_filter triple_key (fun r => negb (doi_nonempty r))).
  rewrite deduplicate_unfold, !filter_app_s.
  rewrite (filter_all _ A HA), (filter_all _ B HB).
  rewrite (filter_none doi_nonempty B), (filter_none _ A).
  - rewrite app_nil_r. cbn [app]. unfold A, B.
    by rewrite !drop_duplicates_idempotent.
  - eapply Forall_impl; [exact HA|]. simpl. by intros r ->.
  - eapply Forall_impl; [exact HB|]. simpl. intros r. by destruct (doi_nonempty r).
Qed.

(** ** The group assigner *)

Section sort_facts.

Context {A K : Type} (ltb : K → K → bool) (key : A → K).

Hypothesis ltb_asym : ∀ x y, ltb (key x) (key y) = true → le_by ltb key x y.
Hypothesis le_trans :
  ∀ x y z, le_by ltb key x y → le_by ltb key y z → le_by ltb key x z.

Lemma insert_by_Permutation x l : insert_by ltb key x l ≡ₚ x :: l.
Proof.
  induction l as [|y l IH]; [done|]. simpl.
  destruct (ltb (key y) (key x)); [|done]. rewrite IH. apply Permutation_swap.
Qed.

Lemma insert_by_sorted x l :
  StronglySorted (le_by ltb key) l →
  StronglySorted (le_by ltb key) (insert_by ltb key x l).
Proof.
  induction 1 as [|y l Hl IH Hy]; simpl; [by repeat constructor|].
  destruct (ltb (key y) (key x)) eqn:Hyx.
  - constructor; [done|]. rewrite insert_by_Permutation. constructor; [|done].
    by apply ltb_asym.
  - constructor; [by constructor|]. constructor; [done|].
    eapply Forall_impl; [exact Hy|]. intros z Hz. by apply (le_trans x y z).
Qed.

Lemma sort_by_Permutation l : sort_by ltb key l ≡ₚ l.
Proof.
  induction l as [|x l IH]; [done|]. unfold sort_by. simpl.
  rewrite insert_by_Permutation. by constructor.
Qed.

Lemma sort_by_sorted l : StronglySorted (le_by ltb key) (sort_by ltb key l).
Proof.
  induction l as [|x l IH]; [constructor|]. by apply insert_by_sorted.
Qed.

End sort_facts.

Lemma StronglySorted_mono {A} (R1 R2 : relation A) (l : list A) :
  (∀ x y, R1 x y → R2 x y) → StronglySorted R1 l → StronglySorted R2 l.
Proof.
  intros HR. induction 1 as [|x l _ IH Hx]; constructor; [done|].
  eapply Forall_impl; [exact Hx|]. apply HR.
Qed.

Section key_order.

Lemma string_ltb_leb s t : String.ltb s t = negb (String.leb t s).
Proof.
  unfold String.ltb, String.leb. rewrite (String.compare_antisym s t).
  by destruct (String.compare t s).
Qed.

Lemma string_ltb_false s t : String.ltb t s = false ↔ String.le s t.
Proof.
  rewrite string_ltb_leb, negb_false_iff. unfold String.le.
  by destruct (String.leb s t).
Qed.

Lemma string_ltb_asym s t : String.ltb s t = true → String.ltb t s = false.
Proof.
  intros H. apply string_ltb_false.
  destruct (total String.le s t) as [?|Hts]; [done|].
  apply string_ltb_false in Hts. congruence.
Qed.

Lemma key_ltb_false a b : key_ltb (sort_key b) (sort_key a) = false ↔ group_le a b.
Proof.
  destruct a as [[x|] h1], b as [[y|] h2]; unfold group_le, sort_key, key_ltb; simpl.
  - rewrite orb_false_iff, andb_false_iff, Z.ltb_ge, Z.eqb_neq, string_ltb_false.
    split.
    + intros [Hlt [Hne|Hle]]; [left; lia|].
      destruct (decide (x = y)) as [->|?]; [by right|left; lia].
    + intros [Hlt|[-> Hle]]; (split; [lia|]); [left; lia|by right].
  - done.
  - done.
  - apply string_ltb_false.
Qed.

Lemma group_le_total a b : group_le a b ∨ group_le b a.
Proof.
  destruct a as [[x|] h1], b as [[y|] h2]; unfold group_le; simpl; try tauto.
  - destruct (Z.lt_trichotomy x y) as [?|[->|?]]; try tauto.
    destruct (total String.le h1 h2); tauto.
  - apply (total String.le).
Qed.

Lemma group_le_trans a b c : group_le a b → group_le b c → group_le a c.
Proof.
  destruct a as [[x|] h1], b as [[y|] h2], c as [[z|] h3];
    unfold group_le; simpl; try tauto.
  - intros [?|[-> H1]] [?|[-> H2]]; try (left; lia).
    right. split; [done|]. by etrans.
  - intros H1 H2. by etrans.
Qed.

Lemma key_ltb_asym a b :
  key_ltb (sort_key a) (sort_key b) = true → key_ltb (sort_key b) (sort_key a) = false.
Proof.
  intros H. apply key_ltb_false.
  destruct (group_le_total a b) as [?|Hba]; [done|].
  apply key_ltb_false in Hba. congruence.
Qed.

End key_order.

Section grouping_facts.

Implicit Types (groups : gmap string GroupInfo) (f : RisFile)
  (order_keys : list (option Z * string)) (files : list RisFile).

Lemma add_to_groups_keys groups order_keys f :
  (add_to_groups (groups, order_keys) f).2
  = order_keys ++
    match groups !! header_of f with
    | None => [extract_group_header (path_name f)]
    | Some _ => []
    end.
Proof.
  unfold add_to_groups, header_of.
  destruct (extract_group_header (path_name f)) as [n h]. simpl.
  destruct (groups !! h); simpl; by rewrite ?app_nil_r.
Qed.

Lemma add_to_groups_lookup groups order_keys f h :
  (add_to_groups (groups, order_keys) f).1 !! h
  = if decide (header_of f = h)
    then Some {| g_num := match groups !! h with
                          | Some g => g_num g
                          | None => (extract_group_header (path_name f)).1
                          end;
                 g_files := match groups !! h with
                            | Some g => g_files g
                            | None => []
                            end ++ [f] |}
    else groups !! h.
Proof.
  unfold add_to_groups, header_of.
  destruct (extract_group_header (path_name f)) as [n h0]. simpl.
  destruct (groups !! h0) as [g|] eqn:Hg; simpl.
  - rewrite lookup_alter. case_decide as Hh; [|done]. subst h0. by rewrite Hg.
  - rewrite lookup_alter, lookup_insert_eq. case_decide as Hh.
    + subst h0. by rewrite Hg.
    + by rewrite lookup_insert_ne.
Qed.

Lemma files_of_snoc h files f :
  files_of h (files ++ [f])
  = files_of h files ++ (if decide (header_of f = h) then [f] else []).
Proof.
  unfold files_of. rewrite List.filter_app. simpl.
  by destruct (decide (header_of f = h)) as [Heq|Hne];
    [rewrite bool_decide_eq_true_2|rewrite bool_decide_eq_false_2].
Qed.

Lemma files_of_absent h files :
  (∀ f, f ∈ files → header_of f ≠ h) → files_of h files = [].
Proof.
  intros H. induction files as [|f files IH]; [done|]. unfold files_of. simpl.
  rewrite bool_decide_eq_false_2 by (apply H; left).
  apply IH. intros f' Hf'. apply H. by right.
Qed.

Lemma groups_ok_step files st f :
  groups_ok files st → groups_ok (files ++ [f]) (add_to_groups st f).
Proof.
  destruct st as [groups order_keys]. intros (Hnd & Hdom & Hgrp & Hall).
  cbn [fst snd] in *.
  pose proof (add_to_groups_keys groups order_keys f) as Hkeys.
  pose proof (add_to_groups_lookup groups order_keys f) as Hlook.
  destruct (add_to_groups (groups, order_keys) f) as [groups' order_keys'].
  cbn [fst snd] in *. subst order_keys'.
  destruct (extract_group_header (path_name f)) as [n hf] eqn:Hegh.
  assert (header_of f = hf) as Hhf by (unfold header_of; by rewrite Hegh).
  rewrite Hhf in *.
  destruct (groups !! hf) as [g0|] eqn:Hg0.
  - (* the header is known *)
    rewrite app_nil_r. unfold groups_ok. cbn [fst snd]. split_and!.
    + done.
    + intros h. rewrite Hlook. case_decide as Hh; [|apply Hdom].
      subst h. split; [intros _|by eauto]. apply Hdom. by rewrite Hg0.
    + intros n' h Hin. destruct (Hgrp n' h Hin) as (g & Hg & Hn & Hfiles & f' & Hf' & Hf'h).
      rewrite Hlook, files_of_snoc, Hhf.
      case_decide as Hh.
      * subst h. rewrite Hg. eexists. split_and!; [done|done|by rewrite Hfiles|].
        exists f'. split; [|done]. apply elem_of_app. by left.
      * exists g. rewrite app_nil_r. split_and!; [done..|].
        exists f'. split; [|done]. apply elem_of_app. by left.
    + intros f' [Hf'| ->%list_elem_of_singleton]%elem_of_app; [by apply Hall|].
      rewrite Hhf. apply Hdom. by rewrite Hg0.
  - (* a new header *)
    assert (hf ∉ order_keys.*2) as Hnew.
    { intros Hin%Hdom. rewrite Hg0 in Hin. by destruct Hin. }
    assert (files_of hf files = []) as Hnone.
    { apply files_of_absent. intros f' Hf' Heq. apply Hnew. rewrite <- Heq. by apply Hall. }
    unfold groups_ok. cbn [fst snd]. split_and!.
    + rewrite fmap_app. apply NoDup_app. split_and!; [done| |apply NoDup_singleton].
      intros h Hh ->%list_elem_of_singleton. done.
    + intros h. rewrite Hlook, fmap_app, elem_of_app. case_decide as Hh.
      * subst h. split; [intros _; right; by left|by eauto].
      * rewrite Hdom. split; [by left|]. intros [?|?%list_elem_of_singleton]; done.
    + intros n' h [Hin|Hin%list_elem_of_singleton]%elem_of_app.
      * destruct (Hgrp n' h Hin) as (g & Hg & Hn & Hfiles & f' & Hf' & Hf'h).
        assert (hf ≠ h) as Hne.
        { intros ->. apply Hnew. apply list_elem_of_fmap. by exists (n', h). }
        rewrite Hlook, files_of_snoc, Hhf, !decide_False by done.
        exists g. rewrite app_nil_r. split_and!; [done..|].
        exists f'. split; [|done]. apply elem_of_app. by left.
      * injection Hin as -> ->.
        rewrite Hlook, files_of_snoc, Hhf, !decide_True, Hnone, Hg0 by done.
        eexists. split_and!; [done|done|done|].
        exists f. split; [|done]. apply elem_of_app. right. by left.
    + intros f' [Hf'| ->%list_elem_of_singleton]%elem_of_app.
      * rewrite fmap_app, elem_of_app. left. by apply Hall.
      * rewrite Hhf, fmap_app, elem_of_app. right. by left.
Qed.

Lemma build_groups_ok files : groups_ok files (build_groups files).
Proof.
  induction files as [|f files IH] using rev_ind.
  - split_and!; simpl.
    + constructor.
    + intros h. rewrite lookup_empty. split; [by intros []|by intros ?%elem_of_nil].
    + by intros n h ?%elem_of_nil.
    + by intros f ?%elem_of_nil.
  - unfold build_groups. rewrite foldl_app. simpl. by apply groups_ok_step.
Qed.

End grouping_facts.

Section fname_facts.

Implicit Types (s t q : string) (c : ascii).

Lemma any_char_app p s t :
  Py.any_char p (s +:+ t) = Py.any_char p s || Py.any_char p t.
Proof.
  induction s as [|c s IH]; [done|]. rewrite app_cons. simpl.
  by rewrite IH, orb_assoc.
Qed.

Lemma length_lower s : String.length (Py.lower s) = String.length s.
Proof. induction s as [|c s IH]; [done|]. simpl. by rewrite IH. Qed.

Lemma span_digits_spec s d r :
  span_digits s = (d, r) →
  s = d +:+ r ∧ Py.all_chars Py.is_digit d = true.
Proof.
  revert d r. induction s as [|c s IH]; intros d r; simpl.
  { by intros [= <- <-]. }
  destruct (Py.is_digit c) eqn:Hc; [|by intros [= <- <-]].
  destruct (span_digits s) as [d' r']. intros [= <- <-].
  destruct (IH d' r' eq_refl) as [-> Hd]. split; [done|]. simpl. by rewrite Hc.
Qed.

Lemma span_digits_app d c r :
  Py.all_chars Py.is_digit d = true → Py.is_digit c = false →
  span_digits (d +:+ String c r) = (d, String c r).
Proof.
  intros Hd Hc. induction d as [|e d IH].
  - simpl. by rewrite Hc.
  - simpl in Hd. apply andb_prop in Hd as [He Hd].
    rewrite app_cons. simpl. by rewrite He, IH.
Qed.

Lemma drop_final_newline_spec s :
  ∃ tail, s = drop_final_newline s +:+ tail ∧ (tail = "" ∨ tail = String Py.newline "").
Proof.
  induction s as [|c s (tail & Hs & Htail)]; [exists ""; by split; [|left]|].
  destruct s as [|c' s'].
  - simpl. destruct (Py.is_newline c) eqn:Hc.
    + exists (String c ""). split; [done|]. right. f_equal.
      unfold Py.is_newline, Py.code in Hc. apply N.eqb_eq in Hc.
      unfold Py.newline. by rewrite <- Hc, ascii_N_embedding.
    + exists "". split; [by rewrite app_nil_r_s|by left].
  - exists tail. split; [|done].
    change (drop_final_newline (String c (String c' s')))
      with (String c (drop_final_newline (String c' s'))).
    by rewrite app_cons, <- Hs.
Qed.

Lemma drop_final_newline_keep s c :
  Py.is_newline c = false →
  drop_final_newline (s +:+ String c "") = s +:+ String c "".
Proof.
  intros Hc. induction s as [|d s IH]; simpl; [by rewrite Hc|].
  rewrite !app_cons.
  destruct (s +:+ String c "") eqn:Hs; [by destruct s|].
  change (drop_final_newline (String d (String a s0)))
    with (String d (drop_final_newline (String a s0))).
  by rewrite IH.
Qed.

Lemma drop_final_newline_drop s c :
  drop_final_newline (s +:+ String c (String Py.newline "")) = s +:+ String c "".
Proof.
  induction s as [|d s IH]; [done|]. rewrite !app_cons.
  destruct (s +:+ String c (String Py.newline "")) eqn:Hs; [by destruct s|].
  change (drop_final_newline (String d (String a s0)))
    with (String d (drop_final_newline (String a s0))).
  by rewrite IH.
Qed.

Lemma last_split_sound s q suffix :
  last_split s = Some (q, suffix) → s = q +:+ ")_" +:+ suffix ∧ suffix ≠ "".
Proof.
  revert q suffix. induction s as [|c s IH]; intros q suffix; [done|]. simpl.
  destruct (last_split s) as [[q' suffix']|].
  - intros [= <- <-]. destruct (IH q' suffix' eq_refl) as [-> Hne]. done.
  - destruct s as [|u [|v rest]]; [done..|].
    destruct (bool_decide (c = ")"%char)) eqn:Hc; [|done].
    destruct (bool_decide (u = "_"%char)) eqn:Hu; [|done].
    apply bool_decide_eq_true in Hc, Hu. subst. by intros [= <- <-].
Qed.

Lemma last_split_cons c s :
  last_split (String c s) =
    match last_split s with
    | Some (q, suffix) => Some (String c q, suffix)
    | None =>
        match s with
        | String u (String v rest) =>
            if bool_decide (c = ")"%char) && bool_decide (u = "_"%char)
            then Some ("", String v rest) else None
        | _ => None
        end
    end.
Proof. reflexivity. Qed.

Lemma last_split_complete q suffix :
  suffix ≠ "" →
  ∃ q' suffix', last_split (q +:+ ")_" +:+ suffix) = Some (q', suffix') ∧
                String.length q ≤ String.length q'.
Proof.
  intros Hne. induction q as [|c q (q' & suffix' & IH & Hlen)].
  - change ("" +:+ ")_" +:+ suffix) with (String ")"%char (String "_"%char suffix)).
    rewrite last_split_cons.
    destruct (last_split (String "_"%char suffix)) as [[q' suffix']|].
    + exists (String ")"%char q'), suffix'. split; [done|simpl; lia].
    + destruct suffix as [|v rest]; [done|]. by exists "", (String v rest).
  - rewrite app_cons, last_split_cons, IH.
    exists (String c q'), suffix'. split; [done|simpl; lia].
Qed.

Lemma take_app_le s t n : n = String.length s → PyStr.take n (s +:+ t) = s.
Proof. intros ->. apply take_app_length. Qed.

Lemma drop_app_le s t n : n = String.length s → PyStr.drop n (s +:+ t) = t.
Proof. intros ->. apply drop_app_length. Qed.

Lemma ext_shape ext :
  Py.lower ext = ".ris" →
  String.length ext = 4 ∧ Py.any_char Py.is_newline ext = false ∧
  ∃ x c, ext = x +:+ String c "" ∧ Py.is_newline c = false.
Proof.
  intros H. pose proof (length_lower ext) as Hlen. rewrite H in Hlen. simpl in Hlen.
  destruct ext as [|a [|b [|c [|d [|e ext]]]]]; try done.
  simpl in H. injection H as Ha Hb Hc Hd.
  assert (∀ x y, Py.lower_char x = y → Py.is_newline y = false → Py.is_newline x = false)
    as Hnl.
  { intros x y <-. unfold Py.lower_char, Py.is_newline, Py.is_upper, Py.code.
    destruct (_ && _) eqn:Hup; [|done]. intros _.
    apply andb_prop in Hup as [H1 _]. apply N.leb_le in H1. apply N.eqb_neq. lia. }
  split; [done|]. split.
  - simpl. by rewrite (Hnl a _ Ha), (Hnl b _ Hb), (Hnl c _ Hc), (Hnl d _ Hd).
  - exists (String a (String b (String c ""))), d. split; [done|]. by apply (Hnl d _ Hd).
Qed.

(** What [FNAME_RE_match] accepts has the form of the convention. *)
Lemma FNAME_RE_match_sound name num query :
  FNAME_RE_match name = Some (num, query) → fname_form name num query.
Proof.
  unfold FNAME_RE_match.
  destruct (span_digits name) as [d rest] eqn:Hspan.
  apply span_digits_spec in Hspan as [-> Hd].
  destruct (Py.is_empty d) eqn:Hempty; [done|].
  destruct rest as [|a [|b body]]; [done..|].
  destruct (bool_decide (a = "."%char)) eqn:Ha; [|done].
  destruct (bool_decide (b = "("%char)) eqn:Hb; [|done].
  apply bool_decide_eq_true in Ha, Hb. subst a b. cbn [andb].
  destruct (drop_final_newline_spec body) as (tail & Hbody & Htail).
  revert Hbody. generalize (drop_final_newline body). intros body' ->.
  destruct (Py.any_char Py.is_newline body') eqn:Hnl; [done|].
  case_bool_decide as Hext; [|done].
  destruct (last_split _) as [[[|c q] suffix]|] eqn:Hsplit; [done| |done].
  intros [= <- <-]. apply last_split_sound in Hsplit as [Hcore Hsuffix].
  pose proof (take_drop_s (String.length body' - 4) body') as Htd.
  rewrite Hcore in Htd.
  exists suffix, (PyStr.drop (String.length body' - 4) body'), tail.
  rewrite <- Htd in Hnl. rewrite !any_char_app in Hnl.
  apply orb_false_iff in Hnl as [Hnl _].
  apply orb_false_iff in Hnl as [Hnl Hnl'].
  apply orb_false_iff in Hnl' as [_ Hnl'].
  split_and!; try done.
  - rewrite <- Htd at 1. by rewrite !app_assoc_s.
  - by destruct d.
Qed.

(** A name of that form is accepted, with the longest possible query. *)
Lemma FNAME_RE_match_complete name num query :
  fname_form name num query →
  ∃ query', FNAME_RE_match name = Some (num, query') ∧
            String.length query ≤ String.length query'.
Proof.
  intros (suffix & ext & tail & -> & Hnum & Hdigits & Hq & Hsuffix & Hqnl & Hsnl
          & Hext & Htail).
  destruct (ext_shape ext Hext) as (Hlen & Hextnl & x & c & Hx & Hc).
  unfold FNAME_RE_match.
  change (".(" +:+ ?r) with (String "."%char (String "("%char r)).
  rewrite span_digits_app by done.
  destruct (Py.is_empty num) eqn:Hempty; [by destruct num|].
  cbn [bool_decide decide_rel andb]. rewrite !bool_decide_eq_true_2 by done. cbn [andb].
  assert (drop_final_newline (query +:+ ")_" +:+ suffix +:+ ext +:+ tail)
          = (query +:+ ")_" +:+ suffix) +:+ ext) as ->.
  { rewrite Hx, !app_assoc_s.
    rewrite <- !(app_assoc_s _ _ (String c "" +:+ tail)).
    rewrite <- !(app_assoc_s _ _ (String c "")).
    destruct Htail as [->| ->].
    - rewrite app_nil_r_s. by apply drop_final_newline_keep.
    - apply drop_final_newline_drop. }
  rewrite length_app_s, Hlen, Nat.add_sub.
  rewrite take_app_length, drop_app_length.
  rewrite !any_char_app, Hqnl, Hsnl, Hextnl. cbn [orb Py.any_char].
  rewrite bool_decide_eq_true_2 by done.
  destruct (last_split_complete query suffix Hsuffix) as (q' & suffix' & -> & Hle).
  destruct q' as [|c' q']; [destruct query; [done|simpl in Hle; lia]|].
  by exists (String c' q').
Qed.

End fname_facts.

(** C8.  A file whose name matches the grouping convention gets the header
    made of the integer, a dot and the query label in parentheses (the
    longest label that the name allows), with the integer as sort key; any
    other file gets the header [FILE: ] followed by its name and no sort
    key.  The files are merged by header: [order_keys] holds each header
    once and [groups] holds under it all the files with that header, in the
    order of the folder; so the two [2.(Cats)] files form one group.  The
    sorted keys are a permutation of the keys, with the numbered groups
    first, by number and then by header, and the groups without number
    after them, by header. *)
Theorem group_assignment (files : list RisFile) :
  (∀ name num query,
     FNAME_RE_match name = Some (num, query) →
     fname_form name num query ∧
     (∀ query', fname_form name num query' →
                String.length query' ≤ String.length query) ∧
     extract_group_header name
     = (Some (Py.int_of_digits num),
        str_of_int (Py.int_of_digits num) +:+ ".(" +:+ query +:+ ")")) ∧
  (∀ name num query,
     fname_form name num query →
     ∃ query', FNAME_RE_match name = Some (num, query')) ∧
  (∀ name,
     (∀ num query, ¬ fname_form name num query) →
     extract_group_header name = (None, "FILE: " +:+ name)) ∧
  groups_ok files (build_groups files) ∧
  sorted_order_keys files ≡ₚ (build_groups files).2 ∧
  StronglySorted group_le (sorted_order_keys files) ∧
  (∀ c1 c2,
     let cats := [ {| path_name := "2.(Cats)_0-100.ris"; content := c1 |};
                   {| path_name := "2.(Cats)_all.ris"; content := c2 |} ] in
     sorted_order_keys cats = [(Some 2%Z, "2.(Cats)")] ∧
     g_files <$> (build_groups cats).1 !! "2.(Cats)" = Some cats).
Proof.
  split_and!.
  - intros name num query Hm. split_and!.
    + by apply FNAME_RE_match_sound.
    + intros query' (q'' & Hq'' & Hlen)%FNAME_RE_match_complete.
      rewrite Hm in Hq''. by injection Hq'' as <-.
    + unfold extract_group_header. by rewrite Hm.
  - intros name num query (q' & Hq' & _)%FNAME_RE_match_complete. by exists q'.
  - intros name Hno. unfold extract_group_header.
    destruct (FNAME_RE_match name) as [[num query]|] eqn:Hm; [|done].
    apply FNAME_RE_match_sound in Hm. by destruct (Hno num query).
  - apply build_groups_ok.
  - apply sort_by_Permutation.
  - unfold sorted_order_keys.
    eapply StronglySorted_mono; [|apply sort_by_sorted].
    + intros a b. apply key_ltb_false.
    + intros a b Hab. by apply key_ltb_asym.
    + intros a b c Hab%key_ltb_false Hbc%key_ltb_false.
      apply key_ltb_false. by apply (group_le_trans a b c).
  - intros c1 c2. by vm_compute.
Qed.

(** ** The orchestrator *)

Section orchestrator_facts.

Variable urlparse_netloc : string -> option string.
Variables (index_name : string) (min_year max_year : option Z)
  (only_terms : list string) (do_dedup : bool).

Lemma elem_of_concat {A} (x : A) (ls : list (list A)) :
  x ∈ concat ls ↔ ∃ l, x ∈ l ∧ l ∈ ls.
Proof.
  rewrite list_elem_of_In, in_concat. split; intros (l & H1 & H2); exists l.
  - by rewrite !list_elem_of_In.
  - by rewrite !list_elem_of_In in *.
Qed.

End orchestrator_facts.

(** * Further properties of the code *)

(** ** More on strings *)

Section more_string_facts.

Implicit Types (s t w : string) (c : ascii) (p : ascii -> bool).

Lemma rstrip_by_idem p s : Py.rstrip_by p (Py.rstrip_by p s) = Py.rstrip_by p s.
Proof.
  induction s as [|c s IH]; [done|]. simpl.
  destruct (Py.is_empty (Py.rstrip_by p s) && p c) eqn:Hc; [done|].
  simpl. by rewrite IH, Hc.
Qed.

Lemma lstrip_by_idem p s : Py.lstrip_by p (Py.lstrip_by p s) = Py.lstrip_by p s.
Proof.
  induction s as [|c s IH]; [done|]. simpl.
  destruct (p c) eqn:Hc; [done|]. simpl. by rewrite Hc.
Qed.

(** Trimming on the left and trimming on the right commute. *)
Lemma rstrip_lstrip_by p s :
  Py.rstrip_by p (Py.lstrip_by p s) = Py.lstrip_by p (Py.rstrip_by p s).
Proof.
  induction s as [|c s IH]; [done|]. simpl.
  destruct (p c) eqn:Hc.
  - rewrite andb_true_r. destruct (Py.rstrip_by p s) as [|d r] eqn:Hr; simpl.
    + apply rstrip_by_empty in Hr. apply lstrip_by_empty in Hr. by rewrite Hr.
    + by rewrite Hc, IH.
  - rewrite andb_false_r. simpl. by rewrite Hc, andb_false_r.
Qed.

Lemma strip_idem s : Py.strip (Py.strip s) = Py.strip s.
Proof.
  unfold Py.strip, Py.lstrip, Py.rstrip.
  by rewrite rstrip_lstrip_by, rstrip_by_idem, lstrip_by_idem.
Qed.

Lemma strip_lstrip s : Py.strip (Py.lstrip s) = Py.strip s.
Proof.
  unfold Py.strip, Py.lstrip, Py.rstrip.
  by rewrite rstrip_lstrip_by, lstrip_by_idem.
Qed.

Lemma strip_rstrip s : Py.strip (Py.rstrip s) = Py.strip s.
Proof. unfold Py.strip, Py.rstrip. by rewrite rstrip_by_idem. Qed.

Lemma lower_app s t : Py.lower (s +:+ t) = Py.lower s +:+ Py.lower t.
Proof. induction s as [|c s IH]; [done|]. rewrite app_cons. simpl. by rewrite IH. Qed.

Lemma upper_not_space c : Py.is_upper c = true → Py.is_space c = false.
Proof.
  unfold Py.is_upper, Py.is_space. generalize (Py.code c). intros n.
  intros [H1 H2]%andb_prop. apply N.leb_le in H1, H2.
  apply orb_false_iff. split; apply andb_false_iff; right; apply N.leb_gt; lia.
Qed.

Lemma code_lower_upper c :
  Py.is_upper c = true → Py.code (Py.lower_char c) = (Py.code c + 32)%N.
Proof.
  unfold Py.lower_char. intros H. rewrite H. unfold Py.code.
  rewrite N_ascii_embedding; [done|].
  unfold Py.is_upper, Py.code in H. apply andb_prop in H as [_ H].
  apply N.leb_le in H. lia.
Qed.

Lemma is_space_lower c : Py.is_space (Py.lower_char c) = Py.is_space c.
Proof.
  destruct (Py.is_upper c) eqn:Hup.
  - rewrite (upper_not_space c Hup). unfold Py.is_space.
    rewrite code_lower_upper by done.
    unfold Py.is_upper in Hup. apply andb_prop in Hup as [H1 H2].
    apply N.leb_le in H1, H2.
    apply orb_false_iff. split; apply andb_false_iff; right; apply N.leb_gt; lia.
  - unfold Py.lower_char. by rewrite Hup.
Qed.

Lemma all_chars_lower_space s :
  Py.all_chars (fun c => negb (Py.is_space c)) (Py.lower s)
  = Py.all_chars (fun c => negb (Py.is_space c)) s.
Proof. induction s as [|c s IH]; [done|]. simpl. by rewrite is_space_lower, IH. Qed.

Lemma lstrip_by_shape p s :
  Py.lstrip_by p s = "" ∨ ∃ c t, Py.lstrip_by p s = String c t ∧ p c = false.
Proof.
  induction s as [|c s IH]; [by left|]. simpl.
  destruct (p c) eqn:Hc; [done|]. right. by exists c, s.
Qed.

Lemma any_char_lstrip_by q p s :
  Py.any_char q s = false → Py.any_char q (Py.lstrip_by p s) = false.
Proof.
  induction s as [|c s IH]; [done|]. simpl. intros [Hc Hs]%orb_false_iff.
  destruct (p c); [by apply IH|]. simpl. by rewrite Hc, Hs.
Qed.

Lemma any_char_rstrip_by q p s :
  Py.any_char q s = false → Py.any_char q (Py.rstrip_by p s) = false.
Proof.
  induction s as [|c s IH]; [done|]. simpl. intros [Hc Hs]%orb_false_iff.
  destruct (_ && _); [done|]. simpl. by rewrite Hc, IH.
Qed.

Lemma any_char_strip q s :
  Py.any_char q s = false → Py.any_char q (Py.strip s) = false.
Proof. intros H. by apply any_char_lstrip_by, any_char_rstrip_by. Qed.

End more_string_facts.

(** ** More on the tag parser *)

Section more_parser_facts.

Implicit Types (st : PState) (raw : string) (lines block : list string).

Lemma parse_line_rstrip st raw raw' :
  Py.rstrip_crlf raw = Py.rstrip_crlf raw' → parse_line st raw = parse_line st raw'.
Proof. unfold parse_line. by intros ->. Qed.

Lemma blocks_go_app_ER acc a m b :
  is_ER m = true →
  blocks_go acc (a ++ m :: b) = blocks_go acc (a ++ [m]) ++ blocks_go [] b.
Proof.
  intros Hm. revert acc. induction a as [|x a IH]; intros acc; simpl.
  - by rewrite Hm.
  - destruct (is_ER x); [by rewrite IH|apply IH].
Qed.

Lemma parse_line_no_tag st raw :
  last_tag st = None → line_tag raw = None → parse_line st raw = st.
Proof.
  unfold line_tag, parse_line. intros Hlast.
  destruct (TAG_LINE_RE_match _) as [[t v]|]; [done|]. by rewrite Hlast.
Qed.

Lemma parse_from_no_tag st junk :
  last_tag st = None → Forall (fun raw => line_tag raw = None) junk →
  parse_from st junk = st.
Proof.
  intros Hlast H. induction H as [|raw junk Hraw _ IH]; [done|].
  simpl. by rewrite parse_line_no_tag.
Qed.

Lemma parse_from_app st l1 l2 :
  parse_from st (l1 ++ l2) = parse_from (parse_from st l1) l2.
Proof. unfold parse_from. by rewrite foldl_app. Qed.

Lemma space_not_tag_char c : Py.is_space c = true → is_tag_char c = false.
Proof.
  intros Hc. unfold is_tag_char.
  destruct (Py.is_upper c) eqn:Hu; [by rewrite (upper_not_space c Hu) in Hc|].
  destruct (Py.is_digit c) eqn:Hd; [by rewrite (digit_not_space c Hd) in Hc|done].
Qed.

Lemma blank_line_no_tag raw : is_blank_line raw = true → line_tag raw = None.
Proof.
  unfold is_blank_line, line_tag. intros H.
  assert (Py.strip (Py.rstrip_crlf raw) = "") as Hs
    by (by destruct (Py.strip (Py.rstrip_crlf raw))).
  apply strip_empty in Hs. unfold blank in Hs.
  destruct (Py.rstrip_crlf raw) as [|a [|b rest]]; [done..|].
  simpl in Hs. apply andb_prop in Hs as [Ha _].
  unfold TAG_LINE_RE_match. by rewrite (space_not_tag_char a Ha).
Qed.

Lemma parse_line_blank st raw : is_blank_line raw = true → parse_line st raw = st.
Proof.
  intros H. pose proof (blank_line_no_tag raw H) as Hno.
  unfold is_blank_line in H. unfold line_tag in Hno. unfold parse_line.
  destruct (TAG_LINE_RE_match _) as [[t v]|]; [done|].
  destruct (last_tag st); [|done]. unfold Py.truthy. by rewrite H.
Qed.

Lemma TAG_LINE_RE_match_tag line t0 v0 :
  TAG_LINE_RE_match line = Some (t0, v0) → is_tag t0 ∧ Py.strip t0 = t0.
Proof.
  unfold TAG_LINE_RE_match. destruct line as [|a [|b rest]]; [done..|].
  destruct (is_tag_char a) eqn:Ha; [|done].
  destruct (is_tag_char b) eqn:Hb; [|done]. cbn [andb].
  destruct (Py.lstrip rest) as [|c rest']; [done|].
  destruct (decide (c = "-"%char)) as [->|Hc];
    [|by destruct c as [[] [] [] [] [] [] [] []]].
  destruct (Py.any_char _ _); [done|]. intros [= <- <-]. split.
  - by exists a, b.
  - assert (Py.is_space a = false) as Hsa.
    { destruct (Py.is_space a) eqn:Hs; [|done]. by rewrite (space_not_tag_char a Hs) in Ha. }
    assert (Py.is_space b = false) as Hsb.
    { destruct (Py.is_space b) eqn:Hs; [|done]. by rewrite (space_not_tag_char b Hs) in Hb. }
    unfold Py.strip, Py.rstrip, Py.lstrip. simpl.
    rewrite Hsb, Hsa. simpl. by rewrite Hsa.
Qed.

Lemma field_step_ok fs raw :
  is_ER raw = false → Forall field_ok fs → Forall field_ok (field_step fs raw).
Proof.
  unfold is_ER, line_tag, field_step. intros HER%bool_decide_eq_false Hfs.
  destruct (TAG_LINE_RE_match _) as [[t0 v0]|] eqn:Hm.
  - apply Forall_app. split; [done|]. apply Forall_singleton.
    destruct (TAG_LINE_RE_match_tag _ _ _ Hm) as [Htag Hstrip].
    split_and!; simpl.
    + by rewrite Hstrip.
    + congruence.
    + apply strip_idem.
  - destruct (Py.truthy _); [|done].
    destruct (reverse fs) as [|[t v] before] eqn:Hrev; [constructor|].
    assert (fs = reverse before ++ [(t, v)]) as ->.
    { rewrite <- (reverse_involutive fs), Hrev. by rewrite reverse_cons. }
    rewrite Forall_app, Forall_singleton in Hfs. destruct Hfs as [Hbefore Hlast].
    apply Forall_app. split; [done|]. apply Forall_singleton.
    destruct Hlast as (? & ? & ?). split_and!; [done..|]. apply strip_idem.
Qed.

Lemma fields_ok block :
  Forall (fun raw => is_ER raw = false) block → Forall field_ok (fields block).
Proof.
  induction block as [|raw block IH] using rev_ind; intros H; [constructor|].
  rewrite Forall_app, Forall_singleton in H. destruct H as [Hb Hraw].
  rewrite fields_snoc. apply field_step_ok; [done|by apply IH].
Qed.

Lemma length_blocks_go acc lines :
  length (blocks_go acc lines) = length (List.filter is_ER lines).
Proof.
  revert acc. induction lines as [|raw lines IH]; intros acc; [done|]. simpl.
  destruct (is_ER raw); simpl; by rewrite IH.
Qed.

End more_parser_facts.

(** X1.  The parser reads a line only up to its line terminator: adding
    carriage returns and line feeds at the end of every line of a file does
    not change the records. *)
Theorem parse_ris_file_line_endings (lines : list string) (ending : string) :
  Py.all_chars Py.is_crlf ending = true →
  parse_ris_file ((fun raw => raw +:+ ending) <$> lines) = parse_ris_file lines.
Proof.
  intros Hend. unfold parse_ris_file. f_equal. generalize start_state.
  induction lines as [|raw lines IH]; intros st; [done|].
  rewrite fmap_cons. cbn [parse_from foldl]. fold parse_from in *.
  rewrite (parse_line_rstrip st (raw +:+ ending) raw); [apply IH|].
  unfold Py.rstrip_crlf. by apply rstrip_by_app_all.
Qed.

Lemma parse_ris_file_line_endings_witness :
  parse_ris_file ((fun raw => raw +:+ String (ascii_of_N 13) (String (ascii_of_N 10) ""))
                    <$> ["TI  - A title"; "AU  - Doe, J."; "ER  - "])
  = parse_ris_file ["TI  - A title"; "AU  - Doe, J."; "ER  - "].
Proof.
  apply (parse_ris_file_line_endings
           ["TI  - A title"; "AU  - Doe, J."; "ER  - "]
           (String (ascii_of_N 13) (String (ascii_of_N 10) ""))).
  reflexivity.
Defined.

(** X2.  Parsing is compositional at an end-of-record marker: the records
    of a file are the records of its part up to a marker followed by the
    records of the rest, parsed on its own. *)
Theorem parse_ris_file_app_marker (a : list string) (m : string) (b : list string) :
  is_ER m = true →
  parse_ris_file (a ++ m :: b) = parse_ris_file (a ++ [m]) ++ parse_ris_file b.
Proof.
  intros Hm. rewrite !parse_ris_file_blocks. unfold terminated_blocks.
  rewrite blocks_go_app_ER by done. by rewrite fmap_app, filter_app.
Qed.

Lemma parse_ris_file_app_marker_witness :
  parse_ris_file (["TI  - One"] ++ "ER  - " :: ["TI  - Two"; "ER  - "])
  = parse_ris_file (["TI  - One"] ++ ["ER  - "]) ++ parse_ris_file ["TI  - Two"; "ER  - "].
Proof.
  apply (parse_ris_file_app_marker ["TI  - One"] "ER  - " ["TI  - Two"; "ER  - "]).
  reflexivity.
Defined.

(** X3.  Every record that the parser returns is well formed: it is not
    empty, it has no entry for the marker [ER], each of its keys is a tag of
    two capital letters or digits, each string that it holds is trimmed, and
    each list that it holds has at least two elements. *)
Theorem parse_ris_file_record_shape (lines : list string) (r : Record_) :
  r ∈ parse_ris_file lines →
  r ≠ ∅ ∧ r !! "ER" = None ∧
  ∀ tag v, r !! tag = Some v →
    is_tag tag ∧
    Forall (fun s => Py.strip s = s) (value_strings v) ∧
    (∀ l, v = VList l → 2 ≤ length l).
Proof.
  rewrite parse_ris_file_blocks. intros [Hne Hr]%list_elem_of_filter.
  apply list_elem_of_fmap in Hr as (block & -> & Hblock).
  assert (Forall (fun raw => is_ER raw = false) block) as HnoER
    by (by apply (blocks_go_not_ER lines [] block)).
  pose proof (fields_ok block HnoER) as Hok.
  assert (∀ tag, Forall (fun s => Py.strip s = s) (occurrences tag block) ∧
                 (occurrences tag block ≠ [] → is_tag tag ∧ tag ≠ "ER")) as Hocc.
  { intros tag. unfold occurrences. split.
    - apply Forall_fmap, Forall_forall. intros f [_ Hf]%list_elem_of_filter.
      rewrite Forall_forall in Hok. by destruct (Hok f Hf) as (_ & _ & ?).
    - destruct (filter _ (fields block)) as [|f fs] eqn:Hfilter; [done|]. intros _.
      assert (f ∈ filter (fun f : string * string => f.1 = tag) (fields block)) as Hin
        by (rewrite Hfilter; left).
      apply list_elem_of_filter in Hin as [<- Hf].
      rewrite Forall_forall in Hok. by destruct (Hok f Hf) as (? & ? & _). }
  split_and!; [done| |].
  - rewrite build_record_lookup by done.
    destruct (Hocc "ER") as [_ HER].
    destruct (occurrences "ER" block) as [|v vs]; [done|].
    by destruct HER as [_ ?].
  - intros tag v. rewrite build_record_lookup by done.
    destruct (Hocc tag) as [Htrim Htag]. intros Hv.
    destruct (occurrences tag block) as [|v1 [|v2 vs]] eqn:Ho; [done| |].
    + injection Hv as <-. split_and!; [by apply Htag|done|done].
    + injection Hv as <-. split_and!; [by apply Htag|done|].
      intros l [= <-]. simpl. lia.
Qed.

Lemma parse_ris_file_record_shape_witness :
  let lines := ["TY  - JOUR"; "AU  - Doe, J."; "AU  - Roe, K."; "ER  - "] in
  let r := build_record (take 3 lines) in
  r ≠ ∅ ∧ r !! "ER" = None ∧
  ∀ tag v, r !! tag = Some v →
    is_tag tag ∧
    Forall (fun s => Py.strip s = s) (value_strings v) ∧
    (∀ l, v = VList l → 2 ≤ length l).
Proof.
  intros lines r. apply (parse_ris_file_record_shape lines r).
  apply (bool_decide_unpack _). vm_compute. exact I.
Defined.

(** X4.  Blank lines are ignored wherever they stand: removing every line
    that holds only blanks does not change the records. *)
Theorem parse_ris_file_blank_lines (lines : list string) :
  parse_ris_file (List.filter (fun raw => negb (is_blank_line raw)) lines)
  = parse_ris_file lines.
Proof.
  unfold parse_ris_file. f_equal. generalize start_state.
  induction lines as [|raw lines IH]; intros st; [done|]. simpl.
  destruct (is_blank_line raw) eqn:Hb; simpl.
  - rewrite parse_line_blank by done. apply IH.
  - apply IH.
Qed.

(** X5.  Lines without tag that come before the first tag line of a file,
    or right after an end-of-record marker, belong to no record and are
    dropped. *)
Theorem parse_ris_file_stray_lines (a junk b : list string) (m : string) :
  Forall (fun raw => line_tag raw = None) junk →
  is_ER m = true →
  parse_ris_file (junk ++ b) = parse_ris_file b ∧
  parse_ris_file (a ++ m :: junk ++ b) = parse_ris_file (a ++ m :: b).
Proof.
  intros Hjunk Hm. unfold parse_ris_file. split; f_equal.
  - rewrite parse_from_app. by rewrite (parse_from_no_tag start_state junk).
  - rewrite !parse_from_app. cbn [parse_from foldl]. fold parse_from.
    rewrite parse_line_ER by done. rewrite parse_from_app.
    by rewrite (parse_from_no_tag _ junk).
Qed.

Lemma parse_ris_file_stray_lines_witness :
  let a := ["TI  - One"] in
  let junk := ["stray text"; "more of it"] in
  let b := ["TI  - Two"; "ER  - "] in
  parse_ris_file (junk ++ b) = parse_ris_file b ∧
  parse_ris_file (a ++ "ER  - " :: junk ++ b) = parse_ris_file (a ++ "ER  - " :: b).
Proof.
  intros a junk b. apply (parse_ris_file_stray_lines a junk b "ER  - ").
  - apply (bool_decide_unpack _). vm_compute. exact I.
  - reflexivity.
Defined.

(** X6.  The parser returns at most one record per end-of-record marker;
    a file without marker gives no record at all. *)
Theorem parse_ris_file_length (lines : list string) :
  length (parse_ris_file lines) ≤ length (List.filter is_ER lines).
Proof.
  rewrite parse_ris_file_blocks. unfold terminated_blocks.
  rewrite <- (length_blocks_go [] lines), <- (length_fmap build_record).
  apply length_filter.
Qed.

(** ** More on the field resolver *)

Section more_resolver_facts.

Implicit Types (s t w d : string) (c : ascii) (r : Record_).

Lemma lower_nonspace s k :
  Py.lower s = k → Py.all_chars (fun c => negb (Py.is_space c)) k = true →
  Py.all_chars (fun c => negb (Py.is_space c)) s = true.
Proof. intros <-. by rewrite all_chars_lower_space. Qed.

(** Trimming a text that starts with a part free of blanks. *)
Lemma strip_nonspace_prefix s d :
  s ≠ "" → Py.all_chars (fun c => negb (Py.is_space c)) s = true →
  Py.strip (s +:+ d) = s +:+ Py.rstrip d.
Proof.
  intros Hne Hs. unfold Py.strip.
  assert (Py.rstrip (s +:+ d) = s +:+ Py.rstrip d) as ->.
  { unfold Py.rstrip. destruct (Py.rstrip_by Py.is_space d) as [|c r] eqn:Hd.
    - apply rstrip_by_empty in Hd. rewrite rstrip_by_app_all by done.
      by rewrite app_nil_r_s, rstrip_by_none.
    - rewrite rstrip_by_app_keep by (by rewrite Hd). by rewrite Hd. }
  destruct s as [|c s]; [done|]. simpl in Hs. apply andb_prop in Hs as [Hc _].
  rewrite app_cons. apply lstrip_by_head. by apply negb_true_iff.
Qed.

Lemma startswith_app s t : Py.startswith (s +:+ t) s = true.
Proof. apply startswith_spec. by exists t. Qed.

Lemma rev_app_rev_app w a b :
  String.rev_app (String.rev_app w a) b = String.rev_app a (w +:+ b).
Proof.
  revert a b. induction w as [|c w IH]; intros a b; [done|].
  simpl. by rewrite IH.
Qed.

Lemma rev_rev w : String.rev (String.rev w) = w.
Proof. unfold String.rev. rewrite rev_app_rev_app. simpl. apply app_nil_r_s. Qed.

Lemma split_ws_go_word acc w :
  Py.any_char Py.is_space w = false →
  PyStr.split_ws_go (Some acc) w = [String.rev (String.rev_app w acc)].
Proof.
  revert acc. induction w as [|c w IH]; intros acc; [done|]. simpl.
  intros [Hc Hw]%orb_false_iff. rewrite Hc. simpl. by apply IH.
Qed.

Lemma split_ws_word w :
  w ≠ "" → Py.any_char Py.is_space w = false → PyStr.split_ws w = [w].
Proof.
  intros Hne Hw. destruct w as [|c w]; [done|].
  simpl in Hw. apply orb_false_iff in Hw as [Hc Hw].
  unfold PyStr.split_ws. simpl. rewrite Hc. simpl.
  rewrite split_ws_go_word by done.
  change (String.rev_app w (String c "")) with (String.rev (String c w)).
  by rewrite rev_rev.
Qed.

Lemma split_ws_go_app_space cur s c t :
  Py.is_space c = true →
  PyStr.split_ws_go cur (s +:+ String c t)
  = PyStr.split_ws_go cur s ++ PyStr.split_ws_go None t.
Proof.
  intros Hc. revert cur. induction s as [|e s IH]; intros cur.
  - simpl. by rewrite Hc.
  - rewrite app_cons. simpl. destruct (Py.is_space e).
    + by rewrite IH, (assoc_L (++)).
    + apply IH.
Qed.

Lemma break_at_app p s c t :
  Py.any_char p s = false → p c = true →
  PyStr.break_at p (s +:+ String c t) = (s, String c t).
Proof.
  intros Hs Hc. induction s as [|e s IH]; simpl.
  - by rewrite Hc.
  - simpl in Hs. apply orb_false_iff in Hs as [He Hs].
    by rewrite He, IH.
Qed.

Lemma rstrip_nonspace_head c s :
  Py.is_space c = false → Py.rstrip (String c s) = String c (Py.rstrip s).
Proof. intros Hc. unfold Py.rstrip. simpl. by rewrite Hc, andb_false_r. Qed.

Lemma rstrip_word w :
  Py.any_char Py.is_space w = false → Py.rstrip w = w.
Proof.
  intros H. apply rstrip_by_none. induction w as [|c w IH]; [done|].
  simpl in *. apply orb_false_iff in H as [Hc Hw]. by rewrite Hc, IH.
Qed.

Lemma lstrip_word w :
  Py.any_char Py.is_space w = false → Py.lstrip w = w.
Proof.
  intros H. destruct w as [|c w]; [done|]. simpl in H.
  apply orb_false_iff in H as [Hc _]. by apply lstrip_by_head.
Qed.

(** Trimming on the left a text that holds a character that is not blank
    after its first part. *)
Lemma lstrip_app_nonspace s c t :
  Py.is_space c = false →
  Py.lstrip (s +:+ String c t) = Py.lstrip s +:+ String c t.
Proof.
  intros Hc. induction s as [|e s IH]; simpl.
  - by apply lstrip_by_head.
  - rewrite app_cons. unfold Py.lstrip in *. simpl. by destruct (Py.is_space e).
Qed.

(** The shape of a match of the year pattern. *)
Lemma year_here_shape s :
  year_here s = true →
  four_digits (PyStr.take 4 s) = true ∧
  (1900 ≤ Py.int_of_digits (PyStr.take 4 s))%Z ∧
  (Py.int_of_digits (PyStr.take 4 s) ≤ 2099)%Z.
Proof.
  destruct s as [|a [|b [|c [|d rest]]]]; try done. simpl.
  intros H. apply andb_prop in H as [H _].
  apply andb_prop in H as [H Hd]. apply andb_prop in H as [Hab Hc].
  assert (0 ≤ Py.digit_val c ≤ 9 ∧ 0 ≤ Py.digit_val d ≤ 9)%Z as [Hvc Hvd].
  { revert Hc Hd. unfold Py.is_digit, Py.digit_val.
    generalize (Py.code c), (Py.code d). intros n m.
    intros [? ?]%andb_prop [? ?]%andb_prop.
    apply N.leb_le in H, H0, H1, H2. lia. }
  unfold four_digits. simpl. rewrite Hc, Hd. simpl.
  apply orb_prop in Hab as [Hab|Hab]; apply andb_prop in Hab as [Ha Hb];
    apply bool_decide_eq_true in Ha, Hb; subst a b;
    (split; [done|]); unfold Py.int_of_digits;
    change (Py.digit_val "1") with 1%Z; change (Py.digit_val "9") with 9%Z;
    change (Py.digit_val "2") with 2%Z; change (Py.digit_val "0") with 0%Z; lia.
Qed.

Lemma year_search_go_shape prev s y :
  year_search_go prev s = Some y → year_text_ok y.
Proof.
  revert prev. induction s as [|c s IH]; intros prev; [done|].
  cbn [year_search_go]. destruct (negb prev && year_here (String c s)) eqn:Hh.
  - intros [= <-]. apply andb_prop in Hh as [_ Hh]. right.
    exact (year_here_shape _ Hh).
  - apply IH.
Qed.

Lemma year_from_tags_shape r tags : year_text_ok (year_from_tags r tags).
Proof.
  induction tags as [|k tags IH]; [by left|]. simpl.
  destruct (Py.truthy _); [|done].
  destruct (year_search _) as [y|] eqn:Hy; [|done].
  exact (year_search_go_shape false _ y Hy).
Qed.

Lemma first_nonblank_flat l :
  first_nonblank l = head (List.filter Py.truthy (Py.strip <$> l)).
Proof.
  induction l as [|x l IH]; [done|]. simpl. by destruct (Py.truthy (Py.strip x)).
Qed.

Lemma table_lookup_label test table v :
  table_lookup test table = Some v → ∃ k, (k, v) ∈ table.
Proof.
  induction table as [|[k0 v0] table IH]; [done|]. simpl.
  destruct (test k0).
  - intros [= <-]. exists k0. left.
  - intros (k & Hk)%IH. exists k. by right.
Qed.

Lemma title_go_nonempty prev s : s ≠ "" → PyStr.title_go prev s ≠ "".
Proof. by destruct s. Qed.

Lemma index_label_nonempty (urlparse_netloc : string → option string) r fallback :
  index_from_record urlparse_netloc r fallback ≠ "".
Proof.
  unfold index_from_record.
  destruct (index_from_url _ _) as [v|] eqn:Hurl.
  - unfold index_from_url in Hurl. destruct (Py.truthy _); [|done].
    destruct (urlparse_netloc _) as [n|]; [|done].
    rewrite provider_lookup_table in Hurl.
    apply table_lookup_label in Hurl as [k Hk].
    assert (Forall (fun kv : string * string => kv.2 ≠ "") PROVIDER_MAP) as Hall
      by (by repeat constructor).
    rewrite Forall_forall in Hall. exact (Hall _ Hk).
  - destruct (index_from_doi _) as [v|] eqn:Hdoi.
    + unfold index_from_doi in Hdoi. destruct (Py.truthy _); [|done].
      rewrite doi_prefix_label_table in Hdoi.
      apply table_lookup_label in Hdoi as [k Hk].
      assert (Forall (fun kv : string * string => kv.2 ≠ "") DOI_PREFIX_TABLE) as Hall
        by (by repeat constructor).
      rewrite Forall_forall in Hall. exact (Hall _ Hk).
    + unfold clean_fallback. destruct (Py.truthy _) eqn:Ht; [|done].
      apply title_go_nonempty. intros Hfb. by rewrite Hfb in Ht.
Qed.

End more_resolver_facts.

(** X7.  [clean_doi] removes a leading [https://doi.org/] or
    [http://doi.org/], in any letter case, and trims what is left. *)
Theorem clean_doi_strips_url (p d : string) :
  is_doi_url_prefix p → clean_doi (p +:+ d) = Py.strip d.
Proof.
  intros Hp. unfold clean_doi.
  assert (p ≠ "" ∧ Py.all_chars (fun c => negb (Py.is_space c)) p = true) as [Hne Hns].
  { destruct Hp as [Hp|Hp]; (split; [by destruct p|]);
      by apply (lower_nonspace p _ Hp). }
  rewrite strip_nonspace_prefix by done. unfold strip_doi_url.
  rewrite lower_app. destruct Hp as [Hp|Hp]; rewrite Hp.
  - rewrite startswith_app.
    rewrite (drop_app_le p) by (by rewrite <- (length_lower p), Hp).
    apply strip_rstrip.
  - assert (Py.startswith ("http://doi.org/" +:+ Py.lower (Py.rstrip d))
              "https://doi.org/" = false) as -> by done.
    rewrite startswith_app.
    rewrite (drop_app_le p) by (by rewrite <- (length_lower p), Hp).
    apply strip_rstrip.
Qed.

Lemma clean_doi_strips_url_witness :
  clean_doi ("HTTPS://doi.org/" +:+ " 10.1109/5.771073 ") = Py.strip " 10.1109/5.771073 ".
Proof.
  apply (clean_doi_strips_url "HTTPS://doi.org/" " 10.1109/5.771073 ").
  by left.
Defined.

(** X8.  The result of [clean_doi] is trimmed; a text that does not start
    with a doi.org URL is only trimmed; and cleaning again changes nothing
    as long as the result does not itself start with a doi.org URL. *)
Theorem clean_doi_trimmed (x : string) :
  Py.strip (clean_doi x) = clean_doi x ∧
  (starts_with_doi_url (Py.strip x) = false → clean_doi x = Py.strip x) ∧
  (starts_with_doi_url (clean_doi x) = false →
   clean_doi (clean_doi x) = clean_doi x).
Proof.
  assert (∀ y, starts_with_doi_url (Py.strip y) = false → clean_doi y = Py.strip y)
    as Hplain.
  { intros y Hy. unfold clean_doi, strip_doi_url. unfold starts_with_doi_url in Hy.
    apply orb_false_iff in Hy as [-> ->]. apply strip_idem. }
  assert (Py.strip (clean_doi x) = clean_doi x) as Htrim
    by (unfold clean_doi; apply strip_idem).
  split_and!; [done|apply Hplain|].
  intros Hx. rewrite Hplain; rewrite Htrim; done.
Qed.

(** X9.  For an author written [Surname, Name], the surname is the trimmed
    text before the first comma. *)
Theorem surname_from_author_comma (s rest : string) :
  Py.any_char is_comma s = false →
  surname_from_author (s +:+ "," +:+ rest) = Py.strip s.
Proof.
  intros Hs. unfold surname_from_author.
  change ("," +:+ rest) with (String ","%char rest).
  assert (Py.strip (s +:+ String ","%char rest)
          = Py.lstrip s +:+ String ","%char (Py.rstrip rest)) as ->.
  { unfold Py.strip.
    assert (Py.rstrip (s +:+ String ","%char rest)
            = s +:+ String ","%char (Py.rstrip rest)) as ->.
    { rewrite <- (rstrip_nonspace_head ","%char rest) by done.
      unfold Py.rstrip. apply rstrip_by_app_keep.
      fold Py.rstrip. by rewrite rstrip_nonspace_head. }
    by apply lstrip_app_nonspace. }
  assert (Py.any_char is_comma (Py.lstrip s) = false) as Hls
    by (by apply any_char_lstrip_by).
  destruct (Py.is_empty _) eqn:He; [by destruct (Py.lstrip s)|].
  rewrite any_char_app. cbn [Py.any_char]. rewrite orb_true_r.
  rewrite break_at_app by done. cbn [fst]. apply strip_lstrip.
Qed.

Lemma surname_from_author_comma_witness :
  surname_from_author (" van Dam " +:+ "," +:+ " Anna") = Py.strip " van Dam ".
Proof. apply (surname_from_author_comma " van Dam " " Anna"). reflexivity. Defined.

(** X10.  For an author written without comma, the surname is the last
    word: the text after the last blank. *)
Theorem surname_from_author_last_word (name w : string) :
  Py.any_char is_comma name = false → is_word_text w →
  surname_from_author (name +:+ " " +:+ w) = w.
Proof.
  intros Hname (Hne & Hsp & Hcomma). unfold surname_from_author.
  change (" " +:+ w) with (String " "%char w).
  assert (Py.rstrip w = w) as Hrw by (by apply rstrip_word).
  assert (Py.lstrip w = w) as Hlw by (by apply lstrip_word).
  assert (Py.strip (name +:+ String " "%char w) = Py.lstrip (name +:+ String " "%char w))
    as ->.
  { unfold Py.strip. f_equal.
    replace (name +:+ String " "%char w) with ((name +:+ " ") +:+ w)
      by (by rewrite app_assoc_s).
    unfold Py.rstrip. rewrite rstrip_by_app_keep; fold Py.rstrip;
      by rewrite Hrw. }
  assert (∃ n', Py.lstrip (name +:+ String " "%char w) = n' +:+ w ∧
                Py.any_char is_comma n' = false ∧
                (n' = "" ∨ ∃ n'', n' = n'' +:+ " ")) as (n' & Hl & Hn'comma & Hn').
  { induction name as [|e name IH].
    - exists "". split_and!; [|done|by left].
      rewrite app_nil_l_s. unfold Py.lstrip. cbn [Py.lstrip_by].
      change (Py.is_space " ") with true. cbv iota. apply Hlw.
    - simpl in Hname. apply orb_false_iff in Hname as [He Hname].
      rewrite app_cons. unfold Py.lstrip. cbn [Py.lstrip_by]. fold Py.lstrip.
      destruct (Py.is_space e); [by apply IH|].
      exists (String e (name +:+ " ")). split_and!.
      + by rewrite app_cons, app_assoc_s.
      + cbn [Py.any_char]. by rewrite He, any_char_app, Hname.
      + right. by exists (String e name). }
  rewrite Hl.
  destruct (Py.is_empty (n' +:+ w)) eqn:He; [by destruct n', w|].
  rewrite any_char_app, Hn'comma, Hcomma. cbn [orb].
  assert (last (PyStr.split_ws (n' +:+ w)) = Some w) as ->.
  { destruct Hn' as [->|[n'' ->]].
    - by rewrite app_nil_l_s, split_ws_word.
    - rewrite app_assoc_s. change (" " +:+ w) with (String " "%char w).
      unfold PyStr.split_ws. rewrite split_ws_go_app_space by done.
      change (PyStr.split_ws_go None w) with (PyStr.split_ws w).
      rewrite (split_ws_word w) by done. by rewrite last_snoc. }
  unfold Py.strip. by rewrite Hrw, Hlw.
Qed.

Lemma surname_from_author_last_word_witness :
  surname_from_author ("Anna  Maria" +:+ " " +:+ "Smith") = "Smith".
Proof.
  apply (surname_from_author_last_word "Anna  Maria" "Smith"); [reflexivity|].
  by split_and!.
Defined.

(** X11.  The year that [year_from_any] returns is empty or a text of
    exactly four digits that reads a year from 1900 to 2099. *)
Theorem year_from_any_shape (r : Record_) : year_text_ok (year_from_any r).
Proof. unfold year_from_any. apply year_from_tags_shape. Qed.

(** X12.  [get_first_from_tags] returns the first value that is not blank,
    going through the tags in the given order and through the values of a
    repeated tag in source order, trimmed; it returns the empty string when
    every value is blank or missing. *)
Theorem get_first_from_tags_first_value (r : Record_) (tags : list string) :
  get_first_from_tags r tags = default "" (first_value r tags).
Proof.
  unfold first_value. induction tags as [|tag tags IH]; [done|].
  rewrite fmap_cons, concat_cons, fmap_app, List.filter_app.
  cbn [get_first_from_tags]. unfold tag_values at 1.
  destruct (r !! tag) as [[s|l]|]; [| |done].
  - cbn [value_truthy value_strings fmap list_fmap List.filter app].
    destruct (Py.truthy s) eqn:Hs; cbn [negb].
    + by destruct (Py.truthy (Py.strip s)).
    + destruct s; [|done]. done.
  - cbn [value_truthy value_strings]. case_bool_decide as Hl; cbn [negb].
    + by subst l.
    + rewrite first_nonblank_flat.
      destruct (List.filter Py.truthy (Py.strip <$> l)) as [|x xs] eqn:Hf; [|done].
      done.
Qed.

(** X13.  [index_from_record] never returns an empty label, whatever the
    record, the fallback and the behaviour of [urlparse]. *)
Theorem index_from_record_nonempty
    (urlparse_netloc : string → option string) (r : Record_) (fallback : string) :
  index_from_record urlparse_netloc r fallback ≠ "".
Proof. apply index_label_nonempty. Qed.

(** ** More on the filter engine *)

Section more_filter_facts.

Implicit Types (df : list Row) (r : Row) (s y : string).

Lemma int_of_digits_go_bounds s acc :
  Py.all_chars Py.is_digit s = true → (0 ≤ acc)%Z →
  (0 ≤ (fix go (acc : Z) (s : string) : Z :=
          match s with
          | "" => acc
          | String c s' => go (10 * acc + Py.digit_val c)%Z s'
          end) acc s
   < (acc + 1) * 10 ^ Z.of_nat (String.length s))%Z.
Proof.
  revert acc. induction s as [|c s IH]; intros acc Hd Hacc.
  - simpl. lia.
  - simpl in Hd. apply andb_prop in Hd as [Hc Hs].
    assert (0 ≤ Py.digit_val c ≤ 9)%Z as Hv.
    { revert Hc. unfold Py.is_digit, Py.digit_val. generalize (Py.code c).
      intros n [H1 H2]%andb_prop. apply N.leb_le in H1, H2. lia. }
    specialize (IH (10 * acc + Py.digit_val c)%Z Hs ltac:(lia)).
    cbn [String.length]. rewrite Nat2Z.inj_succ, Z.pow_succ_r by lia.
    split; [apply IH|]. eapply Z.lt_le_trans; [apply IH|].
    assert (0 < 10 ^ Z.of_nat (String.length s))%Z by (apply Z.pow_pos_nonneg; lia).
    nia.
Qed.

Lemma four_digits_bounds y :
  four_digits y = true → (0 ≤ Py.int_of_digits y ≤ 9999)%Z.
Proof.
  unfold four_digits. intros [Hlen%bool_decide_eq_true Hd]%andb_prop.
  pose proof (int_of_digits_go_bounds y 0 Hd ltac:(lia)) as H.
  rewrite Hlen in H. unfold Py.int_of_digits. simpl in H. lia.
Qed.

Lemma four_digits_strip y : four_digits y = true → Py.strip y = y.
Proof.
  intros H. unfold Py.strip. rewrite (proj1 (four_digits_rstrip y H)).
  rewrite <- (app_nil_r_s y). by apply lstrip_four_digits.
Qed.

Lemma four_digits_isdigit y : four_digits y = true → Py.isdigit y = true.
Proof.
  intros H. pose proof (four_digits_rstrip y H) as [_ Hne].
  unfold four_digits in H. apply andb_prop in H as [_ H].
  unfold Py.isdigit. rewrite H. by destruct y.
Qed.

Lemma apply_filters_row_kept df min_year max_year only_terms :
  apply_filters df min_year max_year only_terms
  = List.filter (row_kept min_year max_year only_terms) df.
Proof.
  unfold apply_filters, row_kept.
  destruct (bool_decide (min_year ≠ None) || bool_decide (max_year ≠ None));
    destruct only_terms as [|t ts]; cbn [negb orb].
  - apply List.filter_ext. intros r. by rewrite andb_true_r.
  - by rewrite filter_filter_andb.
  - transitivity (List.filter (fun _ => true) df); [by rewrite filter_true|].
    by apply List.filter_ext.
  - by apply List.filter_ext.
Qed.

Lemma matches_only_filter_lowered r terms :
  matches_only_filter r terms
  = forallb (fun t => Py.contains (Py.lower (haystack r)) t) (Py.lower <$> terms).
Proof.
  assert (∀ (f : string → bool) l,
            forallb (fun t => f (Py.lower t)) l = forallb f (Py.lower <$> l)) as Hmap.
  { intros f l. induction l as [|x l IH]; [done|]. cbn. by rewrite IH. }
  destruct terms as [|t ts]; [done|]. unfold matches_only_filter.
  apply (Hmap (Py.contains (Py.lower (haystack r)))).
Qed.

Lemma forallb_subset {A} (f : A → bool) (l1 l2 : list A) :
  (∀ x, x ∈ l1 → x ∈ l2) → forallb f l2 = true → forallb f l1 = true.
Proof.
  rewrite !forallb_forall. intros Hsub H x Hx%list_elem_of_In.
  by apply H, list_elem_of_In, Hsub.
Qed.

End more_filter_facts.

(** X14.  The outcomes of [parse_year_range]: no bound at all, for a blank
    text only; or two bounds from 0 to 9999 with the lower one first; or
    [ValueError] with the one message.  It never returns a single bound. *)
Theorem parse_year_range_outcome (s : string) :
  match parse_year_range s with
  | Ok (None, None) => blank s
  | Ok (Some lo, Some hi) => (0 ≤ lo ∧ lo ≤ hi ∧ hi ≤ 9999)%Z
  | Ok _ => False
  | ValueError msg => msg = year_range_error
  | KeyError _ => False
  end.
Proof.
  unfold parse_year_range. destruct (Py.is_empty (Py.strip s)) eqn:He.
  { apply strip_empty. by destruct (Py.strip s). }
  destruct (YEAR_RANGE_RE_match (Py.strip s)) as [[g1 g2]|] eqn:Hm; [|done].
  apply year_range_match_sound in Hm
    as (w1 & w2 & w3 & w4 & _ & _ & _ & _ & _ & Hy1 & Hy2).
  apply four_digits_bounds in Hy1, Hy2.
  destruct (Z.gtb_spec (Py.int_of_digits g1) (Py.int_of_digits g2)); lia.
Qed.

(** X15.  The order in which the two years are written does not matter:
    two texts of the form YYYY-YYYY with the same years in either order
    give the same bounds. *)
Theorem parse_year_range_symmetric (s s' y1 y2 : string) :
  year_range_form s y1 y2 → year_range_form s' y2 y1 →
  parse_year_range s = parse_year_range s'.
Proof.
  intros H H'. unfold parse_year_range.
  rewrite (proj2 (year_range_match_strip s y1 y2) H).
  rewrite (proj2 (year_range_match_strip s' y2 y1) H').
  assert (∀ t a b, year_range_form t a b → Py.is_empty (Py.strip t) = false) as Hne.
  { intros t a b Ht. destruct (Py.strip t) eqn:Hs; [|done].
    apply (year_range_match_strip t a b) in Ht. by rewrite Hs in Ht. }
  rewrite (Hne _ _ _ H), (Hne _ _ _ H').
  destruct (Z.gtb_spec (Py.int_of_digits y1) (Py.int_of_digits y2));
    destruct (Z.gtb_spec (Py.int_of_digits y2) (Py.int_of_digits y1));
    try done; try lia.
  by replace (Py.int_of_digits y2) with (Py.int_of_digits y1) by lia.
Qed.

Lemma parse_year_range_symmetric_witness :
  parse_year_range " 2017 -2007" = parse_year_range "2007- 2017 ".
Proof.
  apply (parse_year_range_symmetric " 2017 -2007" "2007- 2017 " "2017" "2007").
  - by exists " ", " ", "", "".
  - by exists "", "", " ", " ".
Defined.

(** X16.  On tables that have rows, [apply_filters] works row by row: it
    distributes over the concatenation of tables, and filtering on a
    longer list of terms is filtering in two stages.  Filtering the result
    again with the same bounds and terms changes nothing, as long as the
    result has rows or no year bound is set. *)
Theorem apply_filters_stages (df df' : list Row) (min_year max_year : option Z)
    (terms terms' : list string) :
  df ≠ [] → df' ≠ [] →
  apply_filters (df ++ df') min_year max_year terms
  = apply_filters df min_year max_year terms
    ++ apply_filters df' min_year max_year terms ∧
  apply_filters df min_year max_year (terms ++ terms')
  = apply_filters (apply_filters df min_year max_year terms) None None terms' ∧
  (apply_filters df min_year max_year terms ≠ [] ∨
   (min_year = None ∧ max_year = None) →
   apply_filters (apply_filters df min_year max_year terms) min_year max_year terms
   = apply_filters df min_year max_year terms).
Proof.
  intros _ _. rewrite !apply_filters_row_kept. split_and!.
  - apply List.filter_app.
  - rewrite filter_filter_andb. apply List.filter_ext. intros r.
    unfold row_kept.
    assert (matches_only_filter r (terms ++ terms')
            = matches_only_filter r terms && matches_only_filter r terms') as ->.
    { rewrite !matches_only_filter_lowered, fmap_app. apply forallb_app. }
    match goal with
    | |- context [negb ?x || year_ok None None ?y] =>
        change (negb x || year_ok None None y) with true
    end.
    cbn [andb]. by rewrite andb_assoc.
  - intros _. rewrite filter_filter_andb. apply List.filter_ext. intros r.
    by rewrite andb_diag.
Qed.

Lemma apply_filters_stages_witness :
  apply_filters (example_years ++ example_dois) (Some 2000%Z) None ["e"]
  = apply_filters example_years (Some 2000%Z) None ["e"]
    ++ apply_filters example_dois (Some 2000%Z) None ["e"] ∧
  apply_filters example_years (Some 2000%Z) None (["e"] ++ ["deep"])
  = apply_filters (apply_filters example_years (Some 2000%Z) None ["e"])
      None None ["deep"] ∧
  (apply_filters example_years (Some 2000%Z) None ["e"] ≠ [] ∨
   (Some 2000%Z = None ∧ @None Z = None) →
   apply_filters (apply_filters example_years (Some 2000%Z) None ["e"])
     (Some 2000%Z) None ["e"]
   = apply_filters example_years (Some 2000%Z) None ["e"]).
Proof.
  apply (apply_filters_stages example_years example_dois (Some 2000%Z) None
           ["e"] ["deep"]); done.
Defined.

(** X17.  Only the set of the lower-cased terms matters to the keyword
    filter: the letter case of the terms, their order and their repetition
    do not change the result. *)
Theorem apply_filters_terms_case_order (df : list Row)
    (min_year max_year : option Z) (terms terms' : list string) :
  (∀ t, t ∈ Py.lower <$> terms ↔ t ∈ Py.lower <$> terms') →
  apply_filters df min_year max_year terms
  = apply_filters df min_year max_year terms'.
Proof.
  intros Hsame. rewrite !apply_filters_row_kept.
  induction df as [|r df IH]; [done|]. simpl. rewrite IH.
  assert (row_kept min_year max_year terms r
          = row_kept min_year max_year terms' r) as ->; [|done].
  unfold row_kept. f_equal. rewrite !matches_only_filter_lowered.
  destruct (forallb _ (Py.lower <$> terms')) eqn:H'.
  - eapply forallb_subset; [|exact H']. intros x. apply Hsame.
  - destruct (forallb _ (Py.lower <$> terms)) eqn:H; [|done].
    rewrite <- H'. symmetry. eapply forallb_subset; [|exact H].
    intros x. apply Hsame.
Qed.

Lemma apply_filters_terms_case_order_witness :
  apply_filters example_rows None None ["Deep"; "LEARNING"]
  = apply_filters example_rows None None ["learning"; "deep"; "DEEP"].
Proof.
  apply (apply_filters_terms_case_order example_rows None None
           ["Deep"; "LEARNING"] ["learning"; "deep"; "DEEP"]).
  intros t. simpl. rewrite !elem_of_cons, !elem_of_nil. tauto.
Defined.

(** X18.  On the rows that [ris_records_to_rows] makes of at least one
    record, the date tags being ASCII text, the year filter keeps a row
    exactly when its Year is not empty and respects the bounds that are
    set.  So a range that covers 1900 to 2099 removes exactly the rows
    without a year. *)
Theorem year_filter_on_resolved_rows
    (urlparse_netloc : string → option string) (records : list Record_)
    (source_name source_file : string) (min_year max_year : option Z) :
  records ≠ [] → Forall ascii_dates records →
  let rows := ris_records_to_rows urlparse_netloc records source_name source_file in
  (∀ r, r ∈ rows →
     (year_ok min_year max_year (Year r) = true ↔
      Year r ≠ "" ∧
      (∀ m, min_year = Some m → (m ≤ Py.int_of_digits (Year r))%Z) ∧
      (∀ m, max_year = Some m → (Py.int_of_digits (Year r) ≤ m)%Z))) ∧
  (∀ lo hi, (lo ≤ 1900)%Z → (2099 ≤ hi)%Z →
     apply_filters rows (Some lo) (Some hi) []
     = List.filter (fun r => negb (Py.is_empty (Year r))) rows).
Proof.
  intros _ _ rows.
  assert (∀ r, r ∈ rows → year_text_ok (Year r)) as Hshape.
  { intros r (rec & -> & _)%list_elem_of_fmap. apply year_from_tags_shape. }
  assert (∀ a b r, r ∈ rows →
     (year_ok a b (Year r) = true ↔
      Year r ≠ "" ∧
      (∀ m, a = Some m → (m ≤ Py.int_of_digits (Year r))%Z) ∧
      (∀ m, b = Some m → (Py.int_of_digits (Year r) ≤ m)%Z))) as Hok.
  { intros a b r Hr. rewrite year_ok_true.
    destruct (Hshape r Hr) as [Hy|(Hy & _)].
    - rewrite Hy. split; [by intros [? _]|by intros [? _]].
    - rewrite (four_digits_strip _ Hy), (four_digits_isdigit _ Hy).
      pose proof (four_digits_rstrip _ Hy) as [_ Hne]. tauto. }
  split; [apply Hok|]. intros lo hi Hlo Hhi.
  rewrite apply_filters_row_kept. apply List.filter_ext_in.
  intros r Hr%list_elem_of_In. unfold row_kept.
  change (matches_only_filter r []) with true. rewrite andb_true_r.
  match goal with
  | |- negb ?x || _ = _ => change (negb x) with false
  end.
  cbn [orb]. specialize (Hok (Some lo) (Some hi) r Hr).
  destruct (Hshape r Hr) as [Hy|(Hy & H1 & H2)].
  - rewrite Hy in *. simpl. destruct (year_ok _ _ _); [|done].
    by destruct (proj1 Hok eq_refl).
  - pose proof (four_digits_rstrip _ Hy) as [_ Hne].
    assert (Py.is_empty (Year r) = false) as -> by (by destruct (Year r)).
    apply Hok. split_and!; [done|intros m [= <-]; lia|intros m [= <-]; lia].
Qed.

Lemma year_filter_on_resolved_rows_witness :
  let rows :=
    ris_records_to_rows netloc_cpython (parse_ris_file undated_records)
      "src" "f.ris" in
  (Year <$> rows = ["2020"; "2019"; ""] ∧
   Year <$> apply_filters rows (Some 1000%Z) (Some 3000%Z) [] = ["2020"; "2019"]) ∧
  apply_filters rows (Some 1000%Z) (Some 3000%Z) []
  = List.filter (fun r => negb (Py.is_empty (Year r))) rows.
Proof.
  intros rows. split; [by vm_compute|].
  apply (year_filter_on_resolved_rows netloc_cpython (parse_ris_file undated_records)
           "src" "f.ris" None None); [by vm_compute| |lia|lia].
  apply (bool_decide_unpack _). by vm_compute.
Defined.

(** ** More on the deduplicator *)

Section more_dedup_facts.

Context {K : Type} `{EqDecision K} (key : Row → K).

Implicit Types (df l : list Row) (r : Row) (seen : list K).

(** Every row that is read has its key among the keys seen before or among
    the keys of the rows kept. *)
Lemma drop_duplicates_go_covers seen l r :
  r ∈ l → key r ∈ seen ∨ ∃ r', r' ∈ drop_duplicates_go key seen l ∧ key r' = key r.
Proof.
  revert seen. induction l as [|x l IH]; intros seen Hr; [by apply elem_of_nil in Hr|].
  simpl. apply elem_of_cons in Hr as [->|Hr].
  - case_bool_decide as Hx; [by left|]. right. exists x. split; [left|done].
  - case_bool_decide as Hx.
    + by apply IH.
    + destruct (IH (key x :: seen) Hr) as [[Hk|Hk]%elem_of_cons|(r' & Hr' & Hk)].
      * right. exists x. split; [left|done].
      * by left.
      * right. exists r'. split; [by right|done].
Qed.

Lemma drop_duplicates_covers l r :
  r ∈ l → ∃ r', r' ∈ drop_duplicates key l ∧ key r' = key r.
Proof.
  intros Hr. destruct (drop_duplicates_go_covers [] l r Hr) as [H|H]; [|done].
  by apply elem_of_nil in H.
Qed.

End more_dedup_facts.

(** X19.  After [deduplicate] no two rows stand for the same article: the
    rows with a DOI have pairwise different DOIs and the rows without DOI
    differ pairwise in Title, Year or Author Name. *)
Theorem deduplicate_articles_distinct (df : list Row) :
  articles_distinct (deduplicate df).
Proof.
  rewrite deduplicate_unfold.
  set (A := drop_duplicates doi_key (List.filter doi_nonempty df)).
  set (B := drop_duplicates triple_key
              (List.filter (fun r => negb (doi_nonempty r)) df)).
  assert (Forall (fun r => doi_nonempty r = true) A) as HA
    by apply drop_duplicates_filter.
  assert (Forall (fun r => negb (doi_nonempty r) = true) B) as HB
    by apply (drop_duplicates_filter triple_key (fun r => negb (doi_nonempty r))).
  unfold articles_distinct. rewrite !filter_app_s.
  rewrite (filter_all _ A HA), (filter_all _ B HB).
  rewrite (filter_none doi_nonempty B), (filter_none _ A).
  - rewrite app_nil_r. cbn [app]. split.
    + apply (drop_duplicates_go_NoDup doi_key []).
    + apply (drop_duplicates_go_NoDup triple_key []).
  - eapply Forall_impl; [exact HA|]. cbv beta. by intros r ->.
  - eapply Forall_impl; [exact HB|]. cbv beta. intros r Hr.
    by apply negb_true_iff.
Qed.

(** X20.  [deduplicate] loses no article: every row of the input has a row
    for the same article in the output.  A frame without duplicates is
    only rearranged, the rows with a DOI first. *)
Theorem deduplicate_covers (df : list Row) :
  (∀ r, r ∈ df → ∃ r', r' ∈ deduplicate df ∧ same_article r' r) ∧
  (articles_distinct df →
   deduplicate df
   = List.filter doi_nonempty df
     ++ List.filter (fun r => negb (doi_nonempty r)) df).
Proof.
  rewrite deduplicate_unfold. split.
  - intros r Hr. destruct (doi_nonempty r) eqn:Hd.
    + destruct (drop_duplicates_covers doi_key (List.filter doi_nonempty df) r)
        as (r' & Hr' & Hk); [by apply elem_of_list_filter|].
      exists r'. split; [apply elem_of_app; by left|].
      assert (doi_nonempty r' = true) as Hd'.
      { pose proof (drop_duplicates_filter doi_key doi_nonempty df) as HF.
        rewrite Forall_forall in HF. by apply HF. }
      unfold same_article. by rewrite Hd', Hd.
    + destruct (drop_duplicates_covers triple_key
                  (List.filter (fun r => negb (doi_nonempty r)) df) r)
        as (r' & Hr' & Hk); [apply elem_of_list_filter; by rewrite Hd|].
      exists r'. split; [apply elem_of_app; by right|].
      assert (doi_nonempty r' = false) as Hd'.
      { pose proof (drop_duplicates_filter triple_key
                      (fun r => negb (doi_nonempty r)) df) as HF.
        rewrite Forall_forall in HF. apply negb_true_iff. by apply HF. }
      unfold same_article. by rewrite Hd', Hd.
  - intros [H1 H2]. unfold drop_duplicates.
    rewrite !drop_duplicates_go_id; try done; intros r _; apply not_elem_of_nil.
Qed.

Lemma deduplicate_covers_witness :
  deduplicate [example_row "" "T" "2020" "X"; example_row "10.1/A" "" "" ""]
  = List.filter doi_nonempty
      [example_row "" "T" "2020" "X"; example_row "10.1/A" "" "" ""]
    ++ List.filter (fun r => negb (doi_nonempty r))
         [example_row "" "T" "2020" "X"; example_row "10.1/A" "" "" ""].
Proof.
  apply (deduplicate_covers
           [example_row "" "T" "2020" "X"; example_row "10.1/A" "" "" ""]).
  split; vm_compute; repeat constructor; by intros ?%elem_of_nil.
Defined.

(** ** More on the group assigner *)

Section more_grouping_facts.

Implicit Types (files l : list RisFile) (f : RisFile) (h : string).

Lemma int_of_digits_nonneg s :
  Py.all_chars Py.is_digit s = true → (0 ≤ Py.int_of_digits s)%Z.
Proof.
  intros Hs. by destruct (int_of_digits_go_bounds s 0 Hs ltac:(lia)) as [? _].
Qed.

Lemma string_of_uint_digits (d : Decimal.uint) :
  Py.all_chars Py.is_digit (NilEmpty.string_of_uint d) = true.
Proof. induction d; simpl; done. Qed.

(** [str(n)] is a non-empty text of digits. *)
Lemma str_of_int_digits n :
  ∃ c s, str_of_int n = String c s ∧ Py.all_chars Py.is_digit (String c s) = true.
Proof.
  unfold str_of_int. set (d := N.to_uint (Z.to_N n)).
  pose proof (string_of_uint_digits d) as Hd.
  destruct d; simpl in *; eauto.
Qed.

Lemma to_uint_nonnil (n : N) : N.to_uint n ≠ Decimal.Nil.
Proof. destruct n; [done|]. apply DecimalPos.Unsigned.to_uint_nonnil. Qed.

Lemma str_of_int_inj n m :
  (0 ≤ n)%Z → (0 ≤ m)%Z → str_of_int n = str_of_int m → n = m.
Proof.
  intros Hn Hm H. unfold str_of_int in H.
  apply (f_equal NilZero.uint_of_string) in H.
  rewrite !NilZero.usu in H by apply to_uint_nonnil.
  injection H as H. apply DecimalN.Unsigned.to_uint_inj in H. lia.
Qed.

Lemma span_digits_header n q :
  span_digits (str_of_int n +:+ ".(" +:+ q +:+ ")")
  = (str_of_int n, ".(" +:+ q +:+ ")").
Proof.
  destruct (str_of_int_digits n) as (c & s & -> & Hd).
  by apply (span_digits_app (String c s) "."%char).
Qed.

Lemma files_of_cons h f l :
  files_of h (f :: l)
  = if decide (header_of f = h) then f :: files_of h l else files_of h l.
Proof.
  unfold files_of. simpl.
  by destruct (decide (header_of f = h)) as [Heq|Hne];
    [rewrite bool_decide_eq_true_2|rewrite bool_decide_eq_false_2].
Qed.

Lemma files_of_other f l (hs : list string) :
  header_of f ∉ hs →
  (fun h => files_of h (f :: l)) <$> hs = (fun h => files_of h l) <$> hs.
Proof.
  intros Hf. induction hs as [|h hs IH]; [done|].
  apply not_elem_of_cons in Hf as [Hne Hf]. cbn [fmap list_fmap].
  rewrite files_of_cons. destruct (decide (header_of f = h)); [done|].
  f_equal. by apply IH.
Qed.

(** The groups of a list of headers without repetition share out the
    files. *)
Lemma files_of_partition (hs : list string) l :
  NoDup hs → (∀ f, f ∈ l → header_of f ∈ hs) →
  concat ((fun h => files_of h l) <$> hs) ≡ₚ l.
Proof.
  intros Hnd. induction l as [|f l IH]; intros Hall.
  - clear. induction hs as [|h hs IH]; [done|]. by simpl.
  - destruct (list_elem_of_split hs (header_of f)) as (hs1 & hs2 & ->);
      [apply Hall; left|].
    apply NoDup_app in Hnd as Hnd'. destruct Hnd' as (_ & Hdisj & Hnd2).
    apply NoDup_cons in Hnd2 as [Hnot2 _].
    assert (header_of f ∉ hs1) as Hnot1.
    { intros Hin. apply (Hdisj _ Hin). left. }
    specialize (IH (fun g Hg => Hall g (list_elem_of_further _ _ _ Hg))).
    rewrite fmap_app, concat_app in IH |- *. cbn [fmap list_fmap concat] in IH |- *.
    rewrite !files_of_other by done. rewrite files_of_cons.
    rewrite decide_True by done. cbn [app].
    rewrite <- Permutation_middle. by constructor.
Qed.

End more_grouping_facts.

(** X21.  The header of a group fixes its number: two file names with the
    same header have the same group number, so the number stored with a
    group does not depend on which of its files came first; and two
    different file names that do not follow the naming convention never
    share a group. *)
Theorem extract_group_header_number (name name' : string) :
  (extract_group_header name).2 = (extract_group_header name').2 →
  (extract_group_header name).1 = (extract_group_header name').1 ∧
  ((extract_group_header name).1 = None → name = name').
Proof.
  unfold extract_group_header.
  destruct (FNAME_RE_match name) as [[d q]|] eqn:Hm;
    destruct (FNAME_RE_match name') as [[d' q']|] eqn:Hm'; cbn [fst snd].
  - intros H. split; [|done].
    apply (f_equal span_digits) in H. rewrite !span_digits_header in H.
    injection H as H _. f_equal. apply str_of_int_inj; [| |done].
    + apply FNAME_RE_match_sound in Hm as (? & ? & ? & _ & _ & Hd & _).
      by apply int_of_digits_nonneg.
    + apply FNAME_RE_match_sound in Hm' as (? & ? & ? & _ & _ & Hd & _).
      by apply int_of_digits_nonneg.
  - intros H. exfalso.
    destruct (str_of_int_digits (Py.int_of_digits d)) as (c & s & Hs & Hd).
    rewrite Hs in H. injection H as Hc _. subst c. done.
  - intros H. exfalso.
    destruct (str_of_int_digits (Py.int_of_digits d')) as (c & s & Hs & Hd).
    rewrite Hs in H. injection H as Hc _. subst c. done.
  - intros H. split; [done|]. intros _. by injection H.
Qed.


Lemma extract_group_header_number_witness :
  (extract_group_header "007.(cats)_a.ris").1
  = (extract_group_header "7.(cats)_b.RIS").1 ∧
  ((extract_group_header "007.(cats)_a.ris").1 = None →
   "007.(cats)_a.ris" = "7.(cats)_b.RIS").
Proof.
  apply (extract_group_header_number "007.(cats)_a.ris" "7.(cats)_b.RIS").
  reflexivity.
Defined.

(** X22.  Every file of the folder is in exactly one group: the file lists
    of the groups, taken in the sorted order of the groups, are together a
    rearrangement of the files.  No group is empty, and within a group the
    files keep the order of the folder. *)
Theorem every_file_in_one_group (files : list RisFile) :
  ∃ gs : list GroupInfo,
    Forall2 (fun key g => (build_groups files).1 !! key.2 = Some g)
      (sorted_order_keys files) gs ∧
    concat (g_files <$> gs) ≡ₚ files ∧
    Forall (fun g => g_files g ≠ [] ∧ g_files g `sublist_of` files) gs.
Proof.
  pose proof (build_groups_ok files) as (Hnd & Hdom & Hgrp & Hall).
  assert (sorted_order_keys files ≡ₚ (build_groups files).2) as Hperm
    by apply sort_by_Permutation.
  exists ((fun key => {| g_num := key.1; g_files := files_of key.2 files |})
          <$> sorted_order_keys files).
  split_and!.
  - apply Forall2_fmap_r, Forall_Forall2_diag, Forall_forall.
    intros [n h] Hkey. rewrite Hperm in Hkey.
    destruct (Hgrp n h Hkey) as ([gn gf] & Hg & Hn & Hf & _).
    simpl in *. by subst.
  - rewrite <- list_fmap_compose.
    transitivity (concat ((fun h => files_of h files) <$> (sorted_order_keys files).*2)).
    { by rewrite <- list_fmap_compose. }
    apply files_of_partition.
    + by rewrite Hperm.
    + intros f Hf. rewrite Hperm. by apply Hall.
  - apply Forall_fmap, Forall_forall. intros [n h] Hkey. rewrite Hperm in Hkey.
    destruct (Hgrp n h Hkey) as (_ & _ & _ & _ & f & Hf & Hfh). cbn. split.
    + assert (f ∈ files_of h files) as Hin.
      { unfold files_of. apply list_elem_of_In, filter_In.
        split; [by apply list_elem_of_In|].
        apply bool_decide_eq_true. unfold header_of. by rewrite Hfh. }
      intros Hnil. rewrite Hnil in Hin. by apply elem_of_nil in Hin.
    + apply filter_sublist.
Qed.

(** ** More on the orchestrator *)

Section more_orchestrator_facts.

Variable urlparse_netloc : string -> option string.
Variables (index_name : string) (min_year max_year : option Z)
  (only_terms : list string) (do_dedup : bool).

Implicit Types (files : list RisFile) (df : list Row) (r : Row)
  (keys : list (option Z * string)).

Lemma length_filter_split {A} (f : A → bool) (l : list A) :
  length (List.filter f l) + length (List.filter (fun x => negb (f x)) l) = length l.
Proof. induction l as [|x l IH]; [done|]. simpl. destruct (f x); simpl; lia. Qed.

Lemma length_deduplicate df : length (deduplicate df) ≤ length df.
Proof.
  rewrite deduplicate_unfold, length_app.
  pose proof (sublist_length _ _
    (drop_duplicates_go_sublist doi_key [] (List.filter doi_nonempty df))).
  pose proof (sublist_length _ _
    (drop_duplicates_go_sublist triple_key []
       (List.filter (fun r => negb (doi_nonempty r)) df))).
  pose proof (length_filter_split doi_nonempty df). unfold drop_duplicates. lia.
Qed.

Lemma elem_of_deduplicate df r : r ∈ deduplicate df → r ∈ df.
Proof.
  rewrite deduplicate_unfold. intros [H|H]%elem_of_app.
  - eapply elem_of_sublist in H; [|apply drop_duplicates_go_sublist].
    by apply elem_of_list_filter in H as [? _].
  - eapply elem_of_sublist in H; [|apply drop_duplicates_go_sublist].
    by apply elem_of_list_filter in H as [? _].
Qed.

Lemma group_result_filtered df :
  length (group_result min_year max_year only_terms do_dedup df)
  ≤ length (apply_filters df min_year max_year only_terms) ∧
  (do_dedup = false →
   group_result min_year max_year only_terms do_dedup df
   = apply_filters df min_year max_year only_terms) ∧
  ∀ r, r ∈ group_result min_year max_year only_terms do_dedup df →
       r ∈ df ∧ row_kept min_year max_year only_terms r = true.
Proof.
  unfold group_result.
  assert (∀ r, r ∈ apply_filters df min_year max_year only_terms →
               r ∈ df ∧ row_kept min_year max_year only_terms r = true) as Hf.
  { intros r. rewrite apply_filters_row_kept. apply elem_of_list_filter. }
  destruct (do_dedup && _) eqn:Hd.
  - split_and!; [apply length_deduplicate| |].
    + intros ->. done.
    + intros r Hr%elem_of_deduplicate. by apply Hf.
  - done.
Qed.

(** The loop over the groups: it stops with [KeyError] at the first group
    that trips the year filter, and otherwise it adds the block, the rows
    and the counts of every group. *)
Lemma process_groups_outcome files groups keys acc :
  (∀ key, key ∈ keys →
     ∃ g, groups !! key.2 = Some g ∧ g_files g = files_of key.2 files ∧
          files_of key.2 files ≠ []) →
  match process_groups urlparse_netloc index_name min_year max_year only_terms
          do_dedup groups acc keys with
  | Ok acc' =>
      Forall (fun key => group_trips urlparse_netloc index_name min_year max_year
                           files key.2 = false) keys ∧
      output_rows acc'
      = output_rows acc
        ++ concat ((fun key => group_block urlparse_netloc index_name min_year
                                 max_year only_terms do_dedup files key.2) <$> keys) ∧
      raw_rows acc'
      = raw_rows acc
        ++ ((fun key => group_rows_final urlparse_netloc index_name min_year
                          max_year only_terms do_dedup files key.2) <$> keys) ∧
      total_parsed acc'
      = total_parsed acc
        + length (concat ((fun key => group_rows_parsed urlparse_netloc index_name
                                        files key.2) <$> keys)) ∧
      total_kept acc'
      = total_kept acc
        + length (concat ((fun key => group_rows_filtered urlparse_netloc index_name
                                        min_year max_year only_terms files key.2)
                          <$> keys)) ∧
      total_dedup_removed acc'
      + length (concat ((fun key => group_rows_final urlparse_netloc index_name
                                      min_year max_year only_terms do_dedup files
                                      key.2) <$> keys))
      = total_dedup_removed acc
        + length (concat ((fun key => group_rows_filtered urlparse_netloc index_name
                                        min_year max_year only_terms files key.2)
                          <$> keys))
  | KeyError k =>
      k = "Year" ∧
      Exists (fun key => group_trips urlparse_netloc index_name min_year max_year
                           files key.2 = true) keys
  | ValueError _ => False
  end.
Proof.
  revert acc. induction keys as [|key keys IH]; intros acc Hkeys.
  { cbn. rewrite !app_nil_r. split_and!; [constructor|done..|lia|lia|lia]. }
  destruct (Hkeys key) as (g & Hg & Hfiles & Hne); [by left|].
  cbn [process_groups]. unfold process_group. rewrite Hg, Hfiles.
  rewrite (bool_decide_eq_false_2 (files_of key.2 files = [])) by done.
  cbn [negb]. rewrite andb_true_r.
  fold (group_rows_parsed urlparse_netloc index_name files key.2).
  fold (group_trips urlparse_netloc index_name min_year max_year files key.2).
  destruct (group_trips _ _ _ _ _ _) eqn:Htrip.
  { split; [done|]. by left. }
  match goal with |- context [process_groups _ _ _ _ _ _ _ ?a keys] =>
    specialize (IH a) end.
  destruct (process_groups _ _ _ _ _ _ _ _ keys) as [acc'|msg|k].
  - destruct IH as (Hall & Hout & Hraw & Hparsed & Hkept & Hdedup).
    { intros key' Hkey'. apply Hkeys. by right. }
    cbn [output_rows raw_rows total_parsed total_kept total_dedup_removed]
      in Hout, Hraw, Hparsed, Hkept, Hdedup.
    pose proof (group_result_filtered
                  (group_rows_parsed urlparse_netloc index_name files key.2))
      as (Hlen & _).
    change (apply_filters (group_rows_parsed urlparse_netloc index_name files key.2)
              min_year max_year only_terms)
      with (group_rows_filtered urlparse_netloc index_name min_year max_year
              only_terms files key.2) in *.
    change (group_result min_year max_year only_terms do_dedup
              (group_rows_parsed urlparse_netloc index_name files key.2))
      with (group_rows_final urlparse_netloc index_name min_year max_year
              only_terms do_dedup files key.2) in *.
    cbn [fmap list_fmap concat]. rewrite !length_app.
    split_and!; [by constructor| | |lia..].
    + rewrite Hout.
      assert (group_block urlparse_netloc index_name min_year max_year only_terms
                do_dedup files key.2
              = [header_sheet_row key.2]
                ++ (sheet_row_of <$> group_rows_final urlparse_netloc index_name
                                       min_year max_year only_terms do_dedup
                                       files key.2)
                ++ [blank_sheet_row]) as -> by done.
      by rewrite <- !(assoc_L (++)).
    + rewrite Hraw. by rewrite <- (assoc_L (++)).
  - apply IH. intros key' Hkey'. apply Hkeys. by right.
  - destruct IH as [-> Hex].
    { intros key' Hkey'. apply Hkeys. by right. }
    split; [done|]. by right.
Qed.

(** The sorted keys name complete groups that are not empty. *)
Lemma sorted_keys_complete files key :
  key ∈ sorted_order_keys files →
  ∃ g, (build_groups files).1 !! key.2 = Some g ∧
       g_files g = files_of key.2 files ∧ files_of key.2 files ≠ [] ∧
       ∃ f, f ∈ files ∧ header_of f = key.2.
Proof.
  pose proof (build_groups_ok files) as (_ & _ & Hgrp & _).
  destruct key as [n h]. unfold sorted_order_keys. rewrite sort_by_Permutation.
  intros (g & Hg & _ & Hgf & f & Hf & Hfh)%Hgrp.
  assert (header_of f = h) as Hh by (unfold header_of; by rewrite Hfh).
  exists g. split_and!; [done|done| |by exists f].
  assert (f ∈ files_of h files) as Hin.
  { unfold files_of. apply list_elem_of_In, filter_In.
    split; [by apply list_elem_of_In|]. by apply bool_decide_eq_true. }
  cbn. intros Hnil. rewrite Hnil in Hin. by apply elem_of_nil in Hin.
Qed.

Lemma header_in_sorted_keys files f :
  f ∈ files → ∃ key, key ∈ sorted_order_keys files ∧ key.2 = header_of f.
Proof.
  pose proof (build_groups_ok files) as (_ & _ & _ & Hall).
  intros ([n h] & Hh & Hin)%Hall%list_elem_of_fmap.
  exists (n, h). split; [|done]. unfold sorted_order_keys.
  by rewrite sort_by_Permutation.
Qed.

(** No group trips the year filter exactly when the frames are fit for
    it. *)
Lemma no_trip_frames_ok files :
  Forall (fun key => group_trips urlparse_netloc index_name min_year max_year
                       files key.2 = false) (sorted_order_keys files)
  ↔ frames_ok urlparse_netloc index_name min_year max_year files.
Proof.
  rewrite Forall_forall. unfold frames_ok, group_trips, group_rows_parsed. split.
  - intros Hno.
    destruct (bool_decide (min_year ≠ None) || bool_decide (max_year ≠ None)) eqn:Hb.
    + right. intros f (key & Hkey & Hh)%header_in_sorted_keys.
      specialize (Hno key Hkey). rewrite andb_true_r, Hh in Hno.
      by apply bool_decide_eq_false in Hno.
    + left. apply orb_false_iff in Hb as [H1%bool_decide_eq_false H2%bool_decide_eq_false].
      split; [by destruct min_year; [destruct H1|]|by destruct max_year; [destruct H2|]].
  - intros [[-> ->]|Hne] key Hkey.
    + apply andb_false_iff. right. by vm_compute.
    + destruct (sorted_keys_complete files key Hkey) as (_ & _ & _ & _ & f & Hf & Hh).
      apply andb_false_iff. left. apply bool_decide_eq_false. rewrite <- Hh.
      by apply Hne.
Qed.

Lemma length_concat_fmap_perm {A B} (g : A → list B) (l l' : list A) :
  l ≡ₚ l' → length (concat (g <$> l)) = length (concat (g <$> l')).
Proof.
  induction 1 as [|x l l' _ IH|x y l|l l' l'' _ IH1 _ IH2]; cbn.
  - done.
  - by rewrite !length_app, IH.
  - rewrite !length_app. lia.
  - by rewrite IH1.
Qed.

Lemma length_group_frame header (fs : list RisFile) :
  length (group_frame urlparse_netloc index_name header fs) = records_in fs.
Proof.
  unfold group_frame, records_in. induction fs as [|f fs IH]; [done|].
  cbn. rewrite !length_app, IH. f_equal.
  unfold frame_of_file, ris_records_to_rows. by rewrite !length_fmap.
Qed.

(** The rows parsed in all the groups are as many as the records of the
    folder. *)
Lemma length_parsed_all files :
  length (concat ((fun key => group_rows_parsed urlparse_netloc index_name
                                files key.2) <$> sorted_order_keys files))
  = records_in files.
Proof.
  pose proof (build_groups_ok files) as (Hnd & _ & _ & Hall).
  assert (sorted_order_keys files ≡ₚ (build_groups files).2) as Hperm
    by apply sort_by_Permutation.
  assert (concat ((fun h => files_of h files) <$> (sorted_order_keys files).*2)
          ≡ₚ files) as Hpart.
  { apply files_of_partition; [by rewrite Hperm|].
    intros f Hf. rewrite Hperm. by apply Hall. }
  unfold records_in at 1.
  rewrite <- (length_concat_fmap_perm _ _ _ Hpart).
  generalize (sorted_order_keys files). intros keys.
  induction keys as [|key keys IH]; [done|]. cbn.
  rewrite fmap_app, concat_app, !length_app, IH. f_equal.
  unfold group_rows_parsed. apply length_group_frame.
Qed.

(** What a run over a folder with files gives. *)
Lemma build_run (ris_dir_name : string) files (index_name' : option string) :
  index_name = effective_index_name ris_dir_name index_name' →
  files ≠ [] →
  let keys := sorted_order_keys files in
  match build_grouped_excel_for_folder urlparse_netloc ris_dir_name files
          index_name' min_year max_year only_terms do_dedup with
  | Ok None => False
  | Ok (Some out) =>
      frames_ok urlparse_netloc index_name min_year max_year files ∧
      out_xlsx out = "results_" +:+ ris_dir_name +:+ "_grouped.xlsx" ∧
      grouped_results out
      = concat ((fun key => group_block urlparse_netloc index_name min_year
                              max_year only_terms do_dedup files key.2) <$> keys) ∧
      raw_results out
      = concat ((fun key => group_rows_final urlparse_netloc index_name min_year
                              max_year only_terms do_dedup files key.2) <$> keys) ∧
      n_files out = length files ∧
      n_parsed out = records_in files ∧
      n_kept out
      = length (concat ((fun key => group_rows_filtered urlparse_netloc index_name
                                      min_year max_year only_terms files key.2)
                        <$> keys)) ∧
      n_dedup_removed out + length (raw_results out) = n_kept out
  | KeyError k =>
      k = "Year" ∧
      ¬ frames_ok urlparse_netloc index_name min_year max_year files
  | ValueError _ => False
  end.
Proof.
  intros Hindex Hfiles keys.
  pose proof (process_groups_outcome files (build_groups files).1 keys start_acc)
    as Hrun.
  unfold build_grouped_excel_for_folder.
  fold (effective_index_name ris_dir_name index_name'). rewrite <- Hindex.
  fold keys. destruct files as [|f0 files']; [done|].
  destruct (process_groups _ _ _ _ _ _ _ _ keys) as [acc|msg|k].
  - destruct Hrun as (Hall & Hout & Hraw & Hparsed & Hkept & Hdedup).
    { intros key (g & ? & ? & ? & _)%sorted_keys_complete. by exists g. }
    cbn [out_xlsx grouped_results raw_results n_files n_parsed n_kept
         n_dedup_removed].
    split_and!; [by apply no_trip_frames_ok|done|by rewrite Hout|by rewrite Hraw|
                 done| | |].
    + rewrite Hparsed. apply length_parsed_all.
    + by rewrite Hkept.
    + rewrite Hraw, Hkept.
      cbn [raw_rows total_kept total_dedup_removed start_acc app] in *. lia.
  - apply Hrun. intros key (g & ? & ? & ? & _)%sorted_keys_complete. by exists g.
  - destruct Hrun as [-> Hex].
    { intros key (g & ? & ? & ? & _)%sorted_keys_complete. by exists g. }
    split; [done|]. intros Hok%no_trip_frames_ok.
    apply Exists_exists in Hex as (key & Hkey & Htrip).
    rewrite Forall_forall in Hok. by rewrite (Hok key Hkey) in Htrip.
Qed.

End more_orchestrator_facts.

Section more_orchestrator_rows.

Variable urlparse_netloc : string -> option string.
Variables (index_name : string) (min_year max_year : option Z)
  (only_terms : list string) (do_dedup : bool).

Implicit Types (files : list RisFile) (r : Row).

(** Where the rows of a frame come from. *)
Lemma elem_of_group_frame header (fs : list RisFile) r :
  r ∈ group_frame urlparse_netloc index_name header fs →
  ∃ f rec, f ∈ fs ∧ rec ∈ parse_ris_file (content f) ∧
    r = set_group header
          (record_to_row urlparse_netloc index_name (path_name f) rec).
Proof.
  unfold group_frame. intros (l & Hr & Hl)%elem_of_concat.
  apply list_elem_of_fmap in Hl as (f & -> & Hf).
  unfold frame_of_file, ris_records_to_rows in Hr.
  apply list_elem_of_fmap in Hr as (row & -> & Hrow).
  apply list_elem_of_fmap in Hrow as (rec & -> & Hrec).
  by exists f, rec.
Qed.

Lemma elem_of_group_rows_final files header r :
  r ∈ group_rows_final urlparse_netloc index_name min_year max_year only_terms
        do_dedup files header →
  row_kept min_year max_year only_terms r = true ∧
  ∃ f rec, f ∈ files ∧ header_of f = header ∧ rec ∈ parse_ris_file (content f) ∧
    r = set_group header
          (record_to_row urlparse_netloc index_name (path_name f) rec).
Proof.
  unfold group_rows_final.
  intros [Hr Hkept]%group_result_filtered. split; [done|].
  apply elem_of_group_frame in Hr as (f & rec & Hf & Hrec & ->).
  unfold files_of in Hf. apply list_elem_of_In, filter_In in Hf as [Hf Hh].
  apply bool_decide_eq_true in Hh. exists f, rec.
  split_and!; [by apply list_elem_of_In|done..].
Qed.

(** The article rows of a block are the rows of the group. *)
Lemma filter_group_block files header :
  List.filter is_article_row
    (group_block urlparse_netloc index_name min_year max_year only_terms
       do_dedup files header)
  = sheet_row_of <$> group_rows_final urlparse_netloc index_name min_year
                       max_year only_terms do_dedup files header.
Proof.
  unfold group_block. cbn [List.filter]. 
  change (is_article_row (header_sheet_row header)) with false. cbv iota.
  rewrite List.filter_app. cbn [List.filter].
  change (is_article_row blank_sheet_row) with false. cbv iota.
  rewrite app_nil_r.
  assert (∀ r, r ∈ group_rows_final urlparse_netloc index_name min_year max_year
                     only_terms do_dedup files header →
               is_article_row (sheet_row_of r) = true) as Hrows.
  { intros r (_ & f & rec & _ & _ & _ & ->)%elem_of_group_rows_final.
    unfold is_article_row. cbn.
    pose proof (index_label_nonempty urlparse_netloc rec index_name) as Hne.
    by destruct (index_from_record urlparse_netloc rec index_name). }
  revert Hrows. generalize (group_rows_final urlparse_netloc index_name min_year
    max_year only_terms do_dedup files header). intros l Hl.
  induction l as [|r l IH]; [done|]. cbn [fmap list_fmap List.filter].
  rewrite (Hl r) by left. f_equal. apply IH. intros r' Hr'. apply Hl. by right.
Qed.

Lemma length_group_block files header :
  length (group_block urlparse_netloc index_name min_year max_year only_terms
            do_dedup files header)
  = length (group_rows_final urlparse_netloc index_name min_year max_year
              only_terms do_dedup files header) + 2.
Proof. unfold group_block. cbn. rewrite length_app, length_fmap. cbn. lia. Qed.

Lemma length_group_rows_filtered files header :
  length (group_rows_filtered urlparse_netloc index_name min_year max_year
            only_terms files header)
  ≤ length (group_rows_parsed urlparse_netloc index_name files header).
Proof.
  unfold group_rows_filtered. rewrite apply_filters_row_kept.
  apply sublist_length, filter_sublist.
Qed.

End more_orchestrator_rows.

(** C10.  When the function hands over a workbook, the raw view is the
    concatenation, group after group in the sorted order, of the rows of
    each group: the rows of the files of the group are filtered, and with
    deduplication [deduplicate] is applied to them, group by group.  What
    a group keeps depends on the files of that group alone, so every row
    that survives within its group is in the raw view whatever the other
    groups hold.  In the folder of the example the first group holds the
    same two records in two files and the second group holds them once:
    deduplication removes the two repeated rows of the first group and
    keeps the rows of the second, so that the raw view has four rows, two
    with the same DOI and two without DOI and with the same title, year
    and author; without deduplication it has six rows. *)
Theorem raw_view_per_group :
  (∀ (urlparse_netloc : string -> option string) (ris_dir_name : string)
     (files : list RisFile) (index_name : option string)
     (min_year max_year : option Z) (only_terms : list string) (do_dedup : bool)
     (out : FolderOutput),
     build_grouped_excel_for_folder urlparse_netloc ris_dir_name files
       index_name min_year max_year only_terms do_dedup = Ok (Some out) →
     raw_results out
     = concat ((fun key =>
                  group_rows_words urlparse_netloc
                    (effective_index_name ris_dir_name index_name)
                    min_year max_year only_terms do_dedup files key.2)
               <$> sorted_order_keys files) ∧
     ∀ f r, f ∈ files →
       r ∈ group_rows_words urlparse_netloc
             (effective_index_name ris_dir_name index_name)
             min_year max_year only_terms do_dedup files (header_of f) →
       r ∈ raw_results out) ∧
  (∃ out r1 r2 r3 r4,
     build_grouped_excel_for_folder netloc_cpython "acm_exports" three_file_folder
       None None None [] true = Ok (Some out) ∧
     raw_results out = [r1; r2; r3; r4] ∧
     _group r1 = Some "1.(cats)" ∧ _group r2 = Some "1.(cats)" ∧
     _group r3 = Some "2.(dogs)" ∧ _group r4 = Some "2.(dogs)" ∧
     DOI r1 = "10.1145/3368089" ∧ DOI r3 = DOI r1 ∧
     DOI r2 = "" ∧ DOI r4 = "" ∧ article_triple r4 = article_triple r2 ∧
     n_parsed out = 6 ∧ n_kept out = 6 ∧ n_dedup_removed out = 2 ∧
     deduplicate (raw_results out) = [r1; r2]) ∧
  (∃ out,
     build_grouped_excel_for_folder netloc_cpython "acm_exports" three_file_folder
       None None None [] false = Ok (Some out) ∧
     length (raw_results out) = 6 ∧ n_dedup_removed out = 0).
Proof.
  split_and!.
  - intros urlparse_netloc ris_dir_name files index_name min_year max_year
      only_terms do_dedup out Hout.
    destruct files as [|f0 files']; [done|].
    pose proof (build_run urlparse_netloc
                  (effective_index_name ris_dir_name index_name)
                  min_year max_year only_terms do_dedup ris_dir_name
                  (f0 :: files') index_name eq_refl ltac:(done)) as Hrun.
    cbv zeta in Hrun. rewrite Hout in Hrun.
    destruct Hrun as (_ & _ & _ & Hraw & _).
    assert (∀ header,
              group_rows_final urlparse_netloc
                (effective_index_name ris_dir_name index_name)
                min_year max_year only_terms do_dedup (f0 :: files') header
              = group_rows_words urlparse_netloc
                  (effective_index_name ris_dir_name index_name)
                  min_year max_year only_terms do_dedup (f0 :: files') header)
      as Hwords.
    { intros header. unfold group_rows_final, group_rows_words, group_result.
      cbv zeta.
      change (group_frame urlparse_netloc
                (effective_index_name ris_dir_name index_name) header
                (files_of header (f0 :: files')))
        with (concat ((fun f =>
                 set_group header
                   <$> ris_records_to_rows urlparse_netloc
                         (parse_ris_file (content f))
                         (effective_index_name ris_dir_name index_name)
                         (path_name f))
              <$> files_of header (f0 :: files'))).
      destruct do_dedup; [|done]. cbn [andb].
      case_bool_decide as Hnil; [|done]. by rewrite Hnil. }
    assert (raw_results out
            = concat ((fun key =>
                         group_rows_words urlparse_netloc
                           (effective_index_name ris_dir_name index_name)
                           min_year max_year only_terms do_dedup (f0 :: files')
                           key.2)
                      <$> sorted_order_keys (f0 :: files'))) as Hraw'.
    { rewrite Hraw. f_equal. apply list_fmap_ext. intros i key _. apply Hwords. }
    split; [done|]. intros f r Hf Hr. rewrite Hraw'. apply elem_of_concat.
    eexists. split; [exact Hr|]. apply list_elem_of_fmap.
    destruct (header_in_sorted_keys (f0 :: files') f Hf) as (key & Hkey & Hh).
    exists key. by rewrite Hh.
  - vm_compute. do 5 eexists. split_and!; reflexivity.
  - vm_compute. eexists. split_and!; reflexivity.
Qed.

Lemma raw_view_per_group_witness :
  ∃ out,
    build_grouped_excel_for_folder netloc_cpython "acm_exports" three_file_folder
      None (Some 2020%Z) None ["shared"] true = Ok (Some out) ∧
    raw_results out
    = concat ((fun key =>
                 group_rows_words netloc_cpython
                   (effective_index_name "acm_exports" None)
                   (Some 2020%Z) None ["shared"] true three_file_folder key.2)
              <$> sorted_order_keys three_file_folder) ∧
    ∀ f r, f ∈ three_file_folder →
      r ∈ group_rows_words netloc_cpython
            (effective_index_name "acm_exports" None)
            (Some 2020%Z) None ["shared"] true three_file_folder (header_of f) →
      r ∈ raw_results out.
Proof.
  eexists. split; [vm_compute; reflexivity|].
  apply (proj1 raw_view_per_group netloc_cpython "acm_exports" three_file_folder
           None (Some 2020%Z) None ["shared"] true).
  vm_compute. reflexivity.
Defined.

(** X23.  [build_grouped_excel_for_folder] returns [None] exactly for a
    folder without RIS file.  For a folder with files, when a year bound is
    set and some group of files holds no record at all, it raises
    [KeyError] on the column [Year], before anything is written.  So a
    workbook is handed over only for a folder with files in which no group
    trips the year filter, and it is named after the folder.  A folder
    with one file without record shows the error. *)
Theorem build_grouped_excel_for_folder_outcome
    (urlparse_netloc : string → option string) (ris_dir_name : string)
    (files : list RisFile) (index_name : option string)
    (min_year max_year : option Z) (only_terms : list string) (do_dedup : bool) :
  let result :=
    build_grouped_excel_for_folder urlparse_netloc ris_dir_name files index_name
      min_year max_year only_terms do_dedup in
  let fit :=
    frames_ok urlparse_netloc (effective_index_name ris_dir_name index_name)
      min_year max_year files in
  (result = Ok None ↔ files = []) ∧
  (files ≠ [] → ¬ fit → result = KeyError "Year") ∧
  (∀ out, result = Ok (Some out) →
     files ≠ [] ∧ fit ∧
     out_xlsx out = "results_" +:+ ris_dir_name +:+ "_grouped.xlsx") ∧
  build_grouped_excel_for_folder urlparse_netloc ris_dir_name
    [ {| path_name := "1.(cats)_all.ris"; content := ["TY  - JOUR"] |} ]
    index_name (Some 2000%Z) None only_terms do_dedup
  = KeyError "Year".
Proof.
  intros result fit. split_and!; [| | |by destruct index_name as [[|??]|]].
  - destruct files as [|f0 files']; [done|].
    pose proof (build_run urlparse_netloc
                  (effective_index_name ris_dir_name index_name)
                  min_year max_year only_terms do_dedup ris_dir_name
                  (f0 :: files') index_name eq_refl ltac:(done)) as Hrun.
    cbv zeta in Hrun. fold result in Hrun.
    split; [|done]. intros Hres. by rewrite Hres in Hrun.
  - intros Hfiles Hno.
    pose proof (build_run urlparse_netloc
                  (effective_index_name ris_dir_name index_name)
                  min_year max_year only_terms do_dedup ris_dir_name
                  files index_name eq_refl Hfiles) as Hrun.
    cbv zeta in Hrun. fold result in Hrun. fold fit in Hrun.
    destruct result as [[out|]|msg|k]; [|done|done|].
    + by destruct Hrun as (Hfit & _).
    + by destruct Hrun as [-> _].
  - intros out Hres. destruct files as [|f0 files']; [done|].
    pose proof (build_run urlparse_netloc
                  (effective_index_name ris_dir_name index_name)
                  min_year max_year only_terms do_dedup ris_dir_name
                  (f0 :: files') index_name eq_refl ltac:(done)) as Hrun.
    cbv zeta in Hrun. fold result in Hrun. fold fit in Hrun.
    rewrite Hres in Hrun. by destruct Hrun as (Hfit & Hname & _).
Qed.

(** X24.  The counters of the summary line: [files] counts the files,
    [parsed] counts the records of all the files, [kept] counts the rows
    left by the filters and [dedup_removed] is what separates [kept] from
    the number of rows of the raw view.  Without deduplication nothing is
    removed, and without filters every parsed row is kept. *)
Theorem build_grouped_excel_for_folder_counters
    (urlparse_netloc : string → option string) (ris_dir_name : string)
    (files : list RisFile) (index_name : option string)
    (min_year max_year : option Z) (only_terms : list string) (do_dedup : bool)
    (out : FolderOutput) :
  build_grouped_excel_for_folder urlparse_netloc ris_dir_name files index_name
    min_year max_year only_terms do_dedup = Ok (Some out) →
  n_files out = length files ∧
  n_parsed out = records_in files ∧
  n_kept out ≤ n_parsed out ∧
  n_dedup_removed out + length (raw_results out) = n_kept out ∧
  (do_dedup = false → n_dedup_removed out = 0) ∧
  (min_year = None → max_year = None → only_terms = [] →
   n_kept out = n_parsed out).
Proof.
  intros Hout. destruct files as [|f0 files']; [done|].
  pose proof (build_run urlparse_netloc
                (effective_index_name ris_dir_name index_name)
                min_year max_year only_terms do_dedup ris_dir_name
                (f0 :: files') index_name eq_refl ltac:(done)) as Hrun.
  cbv zeta in Hrun. rewrite Hout in Hrun.
  destruct Hrun as (_ & _ & _ & Hraw & Hfiles & Hparsed & Hkept & Hdedup).
  pose proof (length_parsed_all urlparse_netloc
                (effective_index_name ris_dir_name index_name) (f0 :: files'))
    as Hall.
  rewrite <- Hparsed in Hall. revert Hraw Hkept Hdedup Hall.
  generalize (sorted_order_keys (f0 :: files')). intros keys Hraw Hkept Hdedup Hall.
  split_and!; [done|done| |done| |].
  - rewrite Hkept, <- Hall. clear. induction keys as [|key keys IH]; [done|].
    cbn [fmap list_fmap concat]. rewrite !length_app.
    pose proof (length_group_rows_filtered urlparse_netloc
                  (effective_index_name ris_dir_name index_name)
                  min_year max_year only_terms (f0 :: files') key.2). lia.
  - intros ->. assert (length (raw_results out) = n_kept out); [|lia].
    rewrite Hraw, Hkept. reflexivity.
  - intros -> -> ->. rewrite Hkept, <- Hall. f_equal.
Qed.

Lemma build_grouped_excel_for_folder_counters_witness :
  ∃ out,
    build_grouped_excel_for_folder netloc_cpython "acm_exports" two_group_folder
      None (Some 2020%Z) (Some 2020%Z) [] true = Ok (Some out) ∧
    n_files out = length two_group_folder ∧
    n_parsed out = records_in two_group_folder ∧
    n_kept out ≤ n_parsed out ∧
    n_dedup_removed out + length (raw_results out) = n_kept out ∧
    (true = false → n_dedup_removed out = 0) ∧
    (Some 2020%Z = None → Some 2020%Z = None → @nil string = [] →
     n_kept out = n_parsed out).
Proof.
  eexists. split; [vm_compute; reflexivity|].
  apply (build_grouped_excel_for_folder_counters netloc_cpython "acm_exports"
           two_group_folder None (Some 2020%Z) (Some 2020%Z) [] true).
  vm_compute. reflexivity.
Defined.

(** X25.  The sheet [grouped_results] is made of one block per group, in
    the sorted order of the groups: the header row, the rows of the group
    and a blank row.  It has two rows per group more than the raw view, and
    its rows with an Index are, in order, the rows of the raw view cut down
    to the six columns. *)
Theorem grouped_results_layout
    (urlparse_netloc : string → option string) (ris_dir_name : string)
    (files : list RisFile) (index_name : option string)
    (min_year max_year : option Z) (only_terms : list string) (do_dedup : bool)
    (out : FolderOutput) :
  build_grouped_excel_for_folder urlparse_netloc ris_dir_name files index_name
    min_year max_year only_terms do_dedup = Ok (Some out) →
  grouped_results out
  = concat ((fun key =>
               group_block urlparse_netloc
                 (effective_index_name ris_dir_name index_name)
                 min_year max_year only_terms do_dedup files key.2)
            <$> sorted_order_keys files) ∧
  length (grouped_results out)
  = length (raw_results out) + 2 * length (sorted_order_keys files) ∧
  List.filter is_article_row (grouped_results out)
  = sheet_row_of <$> raw_results out.
Proof.
  intros Hout. destruct files as [|f0 files']; [done|].
  pose proof (build_run urlparse_netloc
                (effective_index_name ris_dir_name index_name)
                min_year max_year only_terms do_dedup ris_dir_name
                (f0 :: files') index_name eq_refl ltac:(done)) as Hrun.
  cbv zeta in Hrun. rewrite Hout in Hrun.
  destruct Hrun as (_ & _ & Hgrouped & Hraw & _).
  split; [done|]. rewrite Hgrouped, Hraw.
  generalize (sorted_order_keys (f0 :: files')). intros keys.
  induction keys as [|key keys [IH1 IH2]]; [done|].
  cbn [fmap list_fmap concat length]. split.
  - rewrite !length_app, IH1, length_group_block. lia.
  - rewrite List.filter_app, IH2, fmap_app. f_equal. apply filter_group_block.
Qed.

Lemma grouped_results_layout_witness :
  ∃ out,
    build_grouped_excel_for_folder netloc_cpython "acm_exports" two_group_folder
      None None None ["shared"] true = Ok (Some out) ∧
    grouped_results out
    = concat ((fun key =>
                 group_block netloc_cpython
                   (effective_index_name "acm_exports" None)
                   None None ["shared"] true two_group_folder key.2)
              <$> sorted_order_keys two_group_folder) ∧
    length (grouped_results out)
    = length (raw_results out) + 2 * length (sorted_order_keys two_group_folder) ∧
    List.filter is_article_row (grouped_results out)
    = sheet_row_of <$> raw_results out.
Proof.
  eexists. split; [vm_compute; reflexivity|].
  apply (grouped_results_layout netloc_cpython "acm_exports" two_group_folder
           None None None ["shared"] true).
  vm_compute. reflexivity.
Defined.

(** X26.  Every row of the raw view comes from a record of a file of the
    folder: it is the row that [ris_records_to_rows] makes of that record,
    with the name of the file as source file and the header of the file as
    group, and it passes the filters. *)
Theorem raw_results_provenance
    (urlparse_netloc : string → option string) (ris_dir_name : string)
    (files : list RisFile) (index_name : option string)
    (min_year max_year : option Z) (only_terms : list string) (do_dedup : bool)
    (out : FolderOutput) (r : Row) :
  build_grouped_excel_for_folder urlparse_netloc ris_dir_name files index_name
    min_year max_year only_terms do_dedup = Ok (Some out) →
  r ∈ raw_results out →
  row_kept min_year max_year only_terms r = true ∧
  ∃ f rec,
    f ∈ files ∧ rec ∈ parse_ris_file (content f) ∧
    r = set_group (header_of f)
          (record_to_row urlparse_netloc
             (effective_index_name ris_dir_name index_name) (path_name f) rec) ∧
    _source_file r = path_name f ∧ _group r = Some (header_of f).
Proof.
  intros Hout Hr. destruct files as [|f0 files']; [done|].
  pose proof (build_run urlparse_netloc
                (effective_index_name ris_dir_name index_name)
                min_year max_year only_terms do_dedup ris_dir_name
                (f0 :: files') index_name eq_refl ltac:(done)) as Hrun.
  cbv zeta in Hrun. rewrite Hout in Hrun.
  destruct Hrun as (_ & _ & _ & Hraw & _). rewrite Hraw in Hr.
  apply elem_of_concat in Hr as (l & Hr & Hl).
  apply list_elem_of_fmap in Hl as (key & -> & _).
  apply elem_of_group_rows_final in Hr as (Hkept & f & rec & Hf & Hh & Hrec & ->).
  split; [done|]. exists f, rec. rewrite Hh. by split_and!.
Qed.

Lemma raw_results_provenance_witness :
  ∃ out r,
    build_grouped_excel_for_folder netloc_cpython "acm_exports" two_group_folder
      None (Some 2020%Z) None [] false = Ok (Some out) ∧
    r ∈ raw_results out ∧
    row_kept (Some 2020%Z) None [] r = true ∧
    ∃ f rec,
      f ∈ two_group_folder ∧ rec ∈ parse_ris_file (content f) ∧
      r = set_group (header_of f)
            (record_to_row netloc_cpython
               (effective_index_name "acm_exports" None) (path_name f) rec) ∧
      _source_file r = path_name f ∧ _group r = Some (header_of f).
Proof.
  eexists. eexists.
  split; [vm_compute; reflexivity|]. split; [left|].
  eapply (raw_results_provenance netloc_cpython "acm_exports" two_group_folder
            None (Some 2020%Z) None [] false).
  - vm_compute. reflexivity.
  - left.
Defined.

(** ** The prompt *)

Section prompt_facts.

Implicit Types (lines bad used out : list string) (line s t : string) (c : Console).

Lemma parse_year_range_strip s : parse_year_range (Py.strip s) = parse_year_range s.
Proof. unfold parse_year_range. by rewrite strip_idem. Qed.

Lemma parse_year_range_bounds s min_year max_year :
  parse_year_range s = Ok (min_year, max_year) → bounds_ok min_year max_year.
Proof.
  unfold parse_year_range. destruct (Py.is_empty (Py.strip s)).
  { intros [= <- <-]. by left. }
  destruct (YEAR_RANGE_RE_match (Py.strip s)) as [[g1 g2]|] eqn:Hm; [|done].
  apply year_range_match_sound in Hm
    as (w1 & w2 & w3 & w4 & _ & _ & _ & _ & _ & Hy1 & Hy2).
  apply four_digits_bounds in Hy1, Hy2.
  destruct (Z.gtb_spec (Py.int_of_digits g1) (Py.int_of_digits g2));
    intros [= <- <-]; right; eexists _, _; split_and!; try done; lia.
Qed.

Lemma parse_year_range_raises s k : parse_year_range s ≠ KeyError k.
Proof.
  unfold parse_year_range. destruct (Py.is_empty _); [done|].
  destruct (YEAR_RANGE_RE_match _) as [[g1 g2]|]; [|done].
  by destruct (_ >? _)%Z.
Qed.

Lemma parse_year_range_message s e :
  parse_year_range s = ValueError e → e = year_range_error ∧ Py.truthy (Py.strip s) = true.
Proof.
  unfold parse_year_range. destruct (Py.strip s) as [|a r]; [done|]. cbn [Py.is_empty].
  destruct (YEAR_RANGE_RE_match _) as [[g1 g2]|].
  - by destruct (_ >? _)%Z.
  - by intros [= <-].
Qed.

(** The parts of a split hold no separator. *)
Lemma split_char_no_sep sep s :
  Forall (fun w => Py.any_char (fun ch => bool_decide (ch = sep)) w = false)
    (split_char sep s).
Proof.
  induction s as [|ch s IH]; [by repeat constructor|]. simpl.
  case_bool_decide as Hc; [by constructor|].
  destruct (split_char sep s) as [|w ws].
  { constructor; [|constructor]. simpl. by rewrite bool_decide_eq_false_2. }
  apply Forall_cons in IH as [Hw Hws]. constructor; [|done].
  simpl. by rewrite bool_decide_eq_false_2, Hw.
Qed.

Lemma only_terms_of_ok only_raw : Forall term_ok (only_terms_of only_raw).
Proof.
  unfold only_terms_of. destruct (Py.truthy only_raw); [|constructor].
  pose proof (split_char_no_sep ","%char only_raw) as Hparts.
  induction Hparts as [|w ws Hw _ IH]; [constructor|]. simpl.
  destruct (Py.truthy (Py.strip w)) eqn:Ht; [|done].
  cbn [fmap list_fmap]. constructor; [|done]. split_and!.
  - intros Hs. by rewrite Hs in Ht.
  - apply strip_idem.
  - by apply any_char_strip.
Qed.

Lemma ask_year_range_go_returns lines out :
  match ask_year_range_go lines out with
  | Returned (min_year, max_year) c' =>
      bounds_ok min_year max_year ∧
      ∃ used, lines = used ++ stdin c' ∧ 1 ≤ length used
  | EOFError => True
  | Uncaught _ => False
  end.
Proof.
  revert out. induction lines as [|line rest IH]; intros out; [done|].
  cbn [ask_year_range_go]. destruct (Py.truthy (Py.strip line)); cbn [negb].
  - destruct (parse_year_range (Py.strip line)) as [[mn mx]|e|k] eqn:Hp.
    + split; [by apply (parse_year_range_bounds (Py.strip line))|].
      exists [line]. by split.
    + specialize (IH ((out ++ [year_prompt]) ++ [e])).
      destruct (ask_year_range_go rest _) as [[mn mx] c'| |]; [|done|done].
      destruct IH as (Hb & used & -> & Hlen). split; [done|].
      exists (line :: used). split; [done|]. simpl. lia.
    + by apply parse_year_range_raises in Hp.
  - split; [by left|]. exists [line]. by split.
Qed.

Lemma ask_dedup_go_returns lines out :
  match ask_dedup_go lines out with
  | Returned _ c' => ∃ used, lines = used ++ stdin c' ∧ 1 ≤ length used
  | EOFError => True
  | Uncaught _ => False
  end.
Proof.
  revert out. induction lines as [|line rest IH]; intros out; [done|].
  cbn [ask_dedup_go]. destruct (_ || _); [exists [line]; by split|].
  destruct (_ || _); [exists [line]; by split|].
  specialize (IH ((out ++ [dedup_prompt]) ++ [dedup_error])).
  destruct (ask_dedup_go rest _) as [b c'| |]; [|done|done].
  destruct IH as (used & -> & Hlen). exists (line :: used). split; [done|].
  simpl. lia.
Qed.

Lemma ask_source_go_returns lines out :
  match ask_source_go lines out with
  | Returned src_raw c' =>
      src_raw ≠ "" ∧ Py.strip src_raw = src_raw ∧
      ∃ used, lines = used ++ stdin c' ∧ 1 ≤ length used
  | EOFError => True
  | Uncaught _ => False
  end.
Proof.
  revert out. induction lines as [|line rest IH]; intros out; [done|].
  cbn [ask_source_go]. destruct (Py.truthy (Py.strip line)) eqn:Ht; cbn [negb].
  - split_and!; [intros Hs; by rewrite Hs in Ht|apply strip_idem|].
    exists [line]. by split.
  - specialize (IH ((out ++ [source_prompt]) ++ [source_error])).
    destruct (ask_source_go rest _) as [s c'| |]; [|done|done].
    destruct IH as (Hne & Hs & used & -> & Hlen). split_and!; [done..|].
    exists (line :: used). split; [done|]. simpl. lia.
Qed.

(** What was written so far does not change what the loops answer. *)
Lemma ask_year_range_go_out lines out out' :
  same_answer (ask_year_range_go lines out) (ask_year_range_go lines out').
Proof.
  revert out out'. induction lines as [|line rest IH]; intros out out'; [done|].
  cbn [ask_year_range_go]. destruct (negb _); [done|].
  destruct (parse_year_range _) as [b|e|k]; [done|apply IH|done].
Qed.

Lemma ask_dedup_go_out lines out out' :
  same_answer (ask_dedup_go lines out) (ask_dedup_go lines out').
Proof.
  revert out out'. induction lines as [|line rest IH]; intros out out'; [done|].
  cbn [ask_dedup_go]. destruct (_ || _); [done|]. destruct (_ || _); [done|].
  apply IH.
Qed.

Lemma ask_source_go_out lines out out' :
  same_answer (ask_source_go lines out) (ask_source_go lines out').
Proof.
  revert out out'. induction lines as [|line rest IH]; intros out out'; [done|].
  cbn [ask_source_go]. destruct (negb _); [apply IH|done].
Qed.

Lemma same_answer_trans {A} (p q r : Prompted A) :
  same_answer p q → same_answer q r → same_answer p r.
Proof.
  destruct p as [a c| |k], q as [a' c'| |k'], r as [a'' c''| |k'']; try done.
  - simpl. intros [-> H1] [-> H2]. split; congruence.
  - simpl. congruence.
Qed.

Lemma same_answer_answer {A} (p q : Prompted A) :
  same_answer p q → answer p = answer q.
Proof.
  destruct p as [a c| |k], q as [a' c'| |k']; try done.
  simpl. intros [-> H]. by rewrite H.
Qed.

(** The loops pass over the answers that they refuse. *)
Lemma ask_year_range_go_skip bad lines out :
  Forall year_refused bad →
  same_answer (ask_year_range_go (bad ++ lines) out) (ask_year_range_go lines out).
Proof.
  intros Hbad. revert out. induction Hbad as [|line bad Hline _ IH]; intros out.
  { apply ask_year_range_go_out. }
  cbn [app ask_year_range_go]. unfold year_refused in Hline.
  rewrite parse_year_range_strip, Hline.
  apply parse_year_range_message in Hline as [_ ->]. cbn [negb].
  eapply same_answer_trans; [apply IH|apply ask_year_range_go_out].
Qed.

Lemma ask_dedup_go_skip bad lines out :
  Forall dedup_refused bad →
  same_answer (ask_dedup_go (bad ++ lines) out) (ask_dedup_go lines out).
Proof.
  intros Hbad. revert out. induction Hbad as [|line bad Hline _ IH]; intros out.
  { apply ask_dedup_go_out. }
  cbn [app ask_dedup_go]. unfold dedup_refused in Hline.
  rewrite !not_elem_of_cons in Hline. destruct Hline as (Hy & Hyes & Hn & Hno & _).
  rewrite !bool_decide_eq_false_2 by done. cbn [orb].
  eapply same_answer_trans; [apply IH|apply ask_dedup_go_out].
Qed.

Lemma ask_source_go_skip bad lines out :
  Forall blank bad →
  same_answer (ask_source_go (bad ++ lines) out) (ask_source_go lines out).
Proof.
  intros Hbad. revert out. induction Hbad as [|line bad Hline _ IH]; intros out.
  { apply ask_source_go_out. }
  cbn [app ask_source_go]. apply strip_empty in Hline. rewrite Hline. cbn [negb Py.truthy].
  eapply same_answer_trans; [apply IH|apply ask_source_go_out].
Qed.

(** An answer that the first loop accepts ends it. *)
Lemma ask_year_range_go_accept line :
  year_accepted line →
  ∃ bounds, ∀ rest out,
    ask_year_range_go (line :: rest) out
    = Returned bounds (mkConsole rest (out ++ [year_prompt])).
Proof.
  intros [bounds Hb]. cbn [ask_year_range_go].
  destruct (Py.truthy (Py.strip line)); cbn [negb]; [|by eexists].
  rewrite parse_year_range_strip, Hb. by eexists.
Qed.

Lemma ask_dedup_go_accept line :
  dedup_accepted line →
  ∃ b, ∀ rest out,
    ask_dedup_go (line :: rest) out
    = Returned b (mkConsole rest (out ++ [dedup_prompt])).
Proof.
  unfold dedup_accepted. rewrite !elem_of_cons, elem_of_nil.
  intros H. cbn [ask_dedup_go].
  destruct (bool_decide (_ = "y") || bool_decide (_ = "yes")) eqn:H1; [by eexists|].
  destruct (bool_decide (_ = "n") || bool_decide (_ = "no")) eqn:H2; [by eexists|].
  apply orb_false_iff in H1 as [?%bool_decide_eq_false ?%bool_decide_eq_false].
  apply orb_false_iff in H2 as [?%bool_decide_eq_false ?%bool_decide_eq_false].
  tauto.
Qed.

(** The part of [prompt_user] that follows the first loop. *)
Lemma prompt_tail_out (bounds : option Z * option Z) lines out out' :
  same_answer
    ((only_raw ← input only_prompt;
      do_dedup ← ask_dedup;
      src_raw ← ask_source;
      mret (bounds.1, bounds.2, only_terms_of (Py.strip only_raw), do_dedup, src_raw))
       (mkConsole lines out))
    ((only_raw ← input only_prompt;
      do_dedup ← ask_dedup;
      src_raw ← ask_source;
      mret (bounds.1, bounds.2, only_terms_of (Py.strip only_raw), do_dedup, src_raw))
       (mkConsole lines out')).
Proof.
  unfold mbind, Prompt_bind, mret, Prompt_ret, input, ask_dedup, ask_source.
  cbn [stdin stdout]. destruct lines as [|o lines]; [done|]. cbn [stdin stdout].
  pose proof (ask_dedup_go_out lines (out ++ [only_prompt]) (out' ++ [only_prompt]))
    as Hd.
  destruct (ask_dedup_go lines (out ++ _)) as [b c1| |k1],
    (ask_dedup_go lines (out' ++ _)) as [b' c1'| |k1']; try done.
  destruct Hd as [-> Hin]. destruct c1 as [in1 out1], c1' as [in1' out1'].
  cbn [stdin stdout] in *. subst in1'.
  pose proof (ask_source_go_out in1 out1 out1') as Hs.
  destruct (ask_source_go in1 out1) as [s c2| |k2],
    (ask_source_go in1 out1') as [s' c2'| |k2']; try done.
  simpl in *. destruct Hs as [-> Hs]. by split.
Qed.

End prompt_facts.

Section prompt_run.

Implicit Types (lines bad out : list string) (c : Console).

(** The part of [prompt_user] that follows the deduplication loop, and the
    part that follows the keywords. *)
Lemma source_part_out {B} (g : bool → string → B) (p q : Prompted bool) :
  same_answer p q →
  same_answer
    (match p with
     | Returned b c => (src_raw ← ask_source; mret (g b src_raw)) c
     | EOFError => EOFError
     | Uncaught k => Uncaught k
     end)
    (match q with
     | Returned b c => (src_raw ← ask_source; mret (g b src_raw)) c
     | EOFError => EOFError
     | Uncaught k => Uncaught k
     end).
Proof.
  destruct p as [b [in1 out1]| |k], q as [b' [in1' out1']| |k']; try done.
  simpl. intros [-> ->].
  unfold mbind, Prompt_bind, mret, Prompt_ret, ask_source. cbn [stdin stdout].
  pose proof (ask_source_go_out in1' out1 out1') as Hs.
  destruct (ask_source_go in1' out1) as [s c2| |k2],
    (ask_source_go in1' out1') as [s' c2'| |k2']; try done.
  simpl in *. destruct Hs as [-> Hs]. by split.
Qed.

Lemma prompt_user_unfold c :
  prompt_user c
  = match ask_year_range_go (stdin c) (stdout c ++ [banner]) with
    | Returned bounds c1 =>
        (only_raw ← input only_prompt;
         do_dedup ← ask_dedup;
         src_raw ← ask_source;
         mret (bounds.1, bounds.2, only_terms_of (Py.strip only_raw), do_dedup,
               src_raw)) c1
    | EOFError => EOFError
    | Uncaught k => Uncaught k
    end.
Proof.
  unfold prompt_user, mbind, Prompt_bind, print, ask_year_range. cbn [stdin stdout].
  by destruct (ask_year_range_go _ _) as [[mn mx] c1| |].
Qed.

(** The run of [prompt_user] once the year and the keywords were read. *)
Lemma prompt_user_accepted y :
  year_accepted y →
  ∃ bounds : option Z * option Z, ∀ o lines out,
    prompt_user (mkConsole (y :: o :: lines) out)
    = match ask_dedup_go lines
              ((((out ++ [banner]) ++ [year_prompt]) ++ [only_prompt])) with
      | Returned b c =>
          (src_raw ← ask_source;
           mret (bounds.1, bounds.2, only_terms_of (Py.strip o), b, src_raw)) c
      | EOFError => EOFError
      | Uncaught k => Uncaught k
      end.
Proof.
  intros Hy. destruct (ask_year_range_go_accept y Hy) as [bounds Hb].
  exists bounds. intros o lines out. rewrite prompt_user_unfold.
  cbn [stdin stdout]. by rewrite Hb.
Qed.

End prompt_run.

(** X27.  What [prompt_user] returns is valid: the bounds are both absent
    or both set, from 0 to 9999 with the lower one first; the keywords are
    not empty, trimmed and hold no comma; the source text is not empty and
    trimmed; and at least four lines were read.  The only exception that
    can leave [prompt_user] is [EOFError], at the end of the input. *)
Theorem prompt_user_returns (c : Console) :
  match prompt_user c with
  | Returned (min_year, max_year, only_terms, do_dedup, src_raw) c' =>
      bounds_ok min_year max_year ∧
      Forall term_ok only_terms ∧
      src_raw ≠ "" ∧ Py.strip src_raw = src_raw ∧
      ∃ used, stdin c = used ++ stdin c' ∧ 4 ≤ length used
  | EOFError => True
  | Uncaught _ => False
  end.
Proof.
  rewrite prompt_user_unfold.
  pose proof (ask_year_range_go_returns (stdin c) (stdout c ++ [banner])) as Hy.
  destruct (ask_year_range_go _ _) as [[mn mx] [in1 out1]| |]; [|done|done].
  destruct Hy as (Hb & u1 & Hu1 & Hl1). cbn [stdin] in Hu1.
  unfold mbind, Prompt_bind, mret, Prompt_ret, input, ask_dedup, ask_source.
  cbn [stdin stdout fst snd]. destruct in1 as [|o in1]; [done|]. cbn [stdin stdout].
  pose proof (ask_dedup_go_returns in1 (out1 ++ [only_prompt])) as Hd.
  destruct (ask_dedup_go _ _) as [b [in2 out2]| |]; [|done|done].
  destruct Hd as (u2 & Hu2 & Hl2). cbn [stdin stdout] in *.
  pose proof (ask_source_go_returns in2 out2) as Hs.
  destruct (ask_source_go _ _) as [s [in3 out3]| |]; [|done|done].
  destruct Hs as (Hne & Hs & u3 & Hu3 & Hl3). cbn [stdin] in *.
  split_and!; [done|apply only_terms_of_ok|done|done|].
  exists (u1 ++ o :: u2 ++ u3). split.
  - rewrite Hu1, Hu2, Hu3. rewrite <- !(assoc_L (++)). cbn [app].
    by rewrite <- !(assoc_L (++)).
  - rewrite length_app. cbn [length]. rewrite length_app. lia.
Qed.

(** X28.  [prompt_user] asks again until the answer is valid: the lines
    that a loop refuses change what is printed and nothing else.  This
    holds for the year ranges that [parse_year_range] refuses, for the
    answers to the deduplication question other than y, yes, n and no in
    any letter case, and for the blank answers to the source question. *)
Theorem prompt_user_asks_again (bad lines out : list string) :
  (Forall year_refused bad →
   answer (prompt_user (mkConsole (bad ++ lines) out))
   = answer (prompt_user (mkConsole lines out))) ∧
  (∀ y o, year_accepted y → Forall dedup_refused bad →
     answer (prompt_user (mkConsole (y :: o :: bad ++ lines) out))
     = answer (prompt_user (mkConsole (y :: o :: lines) out))) ∧
  (∀ y o d, year_accepted y → dedup_accepted d → Forall blank bad →
     answer (prompt_user (mkConsole (y :: o :: d :: bad ++ lines) out))
     = answer (prompt_user (mkConsole (y :: o :: d :: lines) out))).
Proof.
  split_and!.
  - intros Hbad. apply same_answer_answer. rewrite !prompt_user_unfold.
    cbn [stdin stdout].
    pose proof (ask_year_range_go_skip bad lines (out ++ [banner]) Hbad) as Hy.
    destruct (ask_year_range_go (bad ++ lines) _) as [b [in1 out1]| |k],
      (ask_year_range_go lines _) as [b' [in1' out1']| |k']; try done.
    simpl in Hy. destruct Hy as [-> ->]. apply prompt_tail_out.
  - intros y o Hy Hbad. apply same_answer_answer.
    destruct (prompt_user_accepted y Hy) as (bounds & Hrun). rewrite !Hrun.
    apply (source_part_out
             (fun b src_raw =>
                (bounds.1, bounds.2, only_terms_of (Py.strip o), b, src_raw))).
    by apply ask_dedup_go_skip.
  - intros y o d Hy Hd Hbad. apply same_answer_answer.
    destruct (prompt_user_accepted y Hy) as (bounds & Hrun). rewrite !Hrun.
    destruct (ask_dedup_go_accept d Hd) as (b & Hb). rewrite !Hb.
    unfold mbind, Prompt_bind, mret, Prompt_ret, ask_source. cbn [stdin stdout].
    match goal with |- context [ask_source_go (bad ++ lines) ?o] =>
      pose proof (ask_source_go_skip bad lines o Hbad) as Hs;
      destruct (ask_source_go (bad ++ lines) o) as [s c2| |k2],
        (ask_source_go lines o) as [s' c2'| |k2']; try done
    end.
    simpl in *. destruct Hs as [-> Hs]. by split.
Qed.

Lemma prompt_user_asks_again_witness :
  answer (prompt_user
            (mkConsole (["17-2007"; "2007/2017"]
                        ++ ["2017 - 2007"; "deep, learning,"; "Y"; "all"]) []))
  = answer (prompt_user
              (mkConsole ["2017 - 2007"; "deep, learning,"; "Y"; "all"] [])).
Proof.
  apply (prompt_user_asks_again ["17-2007"; "2007/2017"]
           ["2017 - 2007"; "deep, learning,"; "Y"; "all"] []).
  repeat constructor; by vm_compute.
Defined.
